(** * Halt And Catch Fire: the shared Vulkan orchestration layer

    A shallow embedding of [src/common.h] and [src/common.cc]:
    queue-family and memory-type selection, the submission descriptor
    builder, the paired input/output buffers, device initialisation, the
    crash-check envelope and the watchdog.

    Conventions.
    - Fixed-width integers are [Z] with the wrap-around written out
      ([to_uint32], [to_uint64]); flag words use [Z.land] and [Z.shiftl].
    - Vulkan handles are opaque numbers; a null handle is [0].  A member
      of [VulkanDevice] that is only assigned under some condition is an
      [option]: [None] is the indeterminate value of a member nobody wrote.
    - Code that calls into the Vulkan driver is a [Prog]: a tree of driver
      calls whose continuations receive the driver's reply.  [run] plays a
      program against a driver and yields how the program ended and the
      trace of the calls it made.  A driver may also never return from a
      call, which is what a hung device looks like from the host.
    - [assert] is taken as compiled in: the fatal-assert policy of
      VK_CHECK_RESULT relies on it.  With NDEBUG the asserts vanish.
    - [float] is IEEE-754 binary32, computed with the Standard Library's
      [SpecFloat]; mapped memory is a list of bytes, little-endian.
    - [LOG] only writes to stderr and is left out, and so is
      [devices_lock], which has no effect on a sequential run. *)

From Stdlib Require Import ZArith Lia Bool List.
From Stdlib Require Import Floats.SpecFloat.
From stdpp Require Import base list gmap strings.

Local Open Scope Z_scope.

(* ===================================================================== *)
(** ** Machine integers *)
(* ===================================================================== *)

Module Int.

Definition UINT32_MOD : Z := 2 ^ 32.

(** Conversion to [uint32_t]: reduction modulo 2^32. *)
Definition to_uint32 (z : Z) : Z := z mod UINT32_MOD.

(** A scalar used as a C condition. *)
Definition nonzero (z : Z) : bool := negb (z =? 0).

End Int.
Import Int.

(* ===================================================================== *)
(** ** The Vulkan vocabulary used by common.cc *)
(* ===================================================================== *)

(** Values are those of vulkan_core.h. *)
Module Vk.

Definition Handle := Z.
Definition VK_NULL_HANDLE : Handle := 0.

Definition VkResult := Z.
Definition VK_SUCCESS : VkResult := 0.
Definition VK_ERROR_DEVICE_LOST : VkResult := -4.

Definition VK_QUEUE_GRAPHICS_BIT : Z := 1.
Definition VK_QUEUE_COMPUTE_BIT : Z := 2.
Definition VK_QUEUE_TRANSFER_BIT : Z := 4.

Definition VK_MEMORY_PROPERTY_HOST_VISIBLE_BIT : Z := 2.
Definition VK_MEMORY_PROPERTY_HOST_COHERENT_BIT : Z := 4.
Definition VK_MAX_MEMORY_TYPES : Z := 32.

Definition VK_BUFFER_USAGE_TRANSFER_SRC_BIT : Z := 1.
Definition VK_BUFFER_USAGE_TRANSFER_DST_BIT : Z := 2.
Definition VK_BUFFER_USAGE_STORAGE_BUFFER_BIT : Z := 32.

Definition VK_WHOLE_SIZE : Z := 2 ^ 64 - 1.

Definition VK_STRUCTURE_TYPE_SUBMIT_INFO : Z := 4.
Definition VK_DESCRIPTOR_TYPE_STORAGE_BUFFER : Z := 7.
Definition VK_SHADER_STAGE_COMPUTE_BIT : Z := 32.
Definition VK_SHADER_STAGE_ALL : Z := 2147483647.
Definition VK_COMMAND_BUFFER_USAGE_ONE_TIME_SUBMIT_BIT : Z := 1.

Inductive VkCommandBufferLevel :=
| VK_COMMAND_BUFFER_LEVEL_PRIMARY
| VK_COMMAND_BUFFER_LEVEL_SECONDARY.

Inductive VkObjectType :=
| VK_OBJECT_TYPE_INSTANCE
| VK_OBJECT_TYPE_PHYSICAL_DEVICE
| VK_OBJECT_TYPE_DEVICE
| VK_OBJECT_TYPE_QUEUE
| VK_OBJECT_TYPE_COMMAND_BUFFER
| VK_OBJECT_TYPE_FENCE
| VK_OBJECT_TYPE_DEVICE_MEMORY
| VK_OBJECT_TYPE_BUFFER
| VK_OBJECT_TYPE_PIPELINE_LAYOUT
| VK_OBJECT_TYPE_PIPELINE
| VK_OBJECT_TYPE_COMMAND_POOL.

Record VkQueueFamilyProperties := {
  queueFlags : Z;
  queueCount : Z
}.

Record VkMemoryType := {
  propertyFlags : Z;
  heapIndex : Z
}.

(** A physical device: its handle together with what the
    vkGetPhysicalDevice*Properties queries report for it.
    [memoryTypeCount] is the length of [memoryTypes]. *)
Record VkPhysicalDevice := {
  physical_handle : Handle;
  deviceName : string;
  queueFamilyProperties : list VkQueueFamilyProperties;
  memoryTypes : list VkMemoryType
}.

End Vk.
Import Vk.

(** common.h: [enum class QueueType]. *)
Inductive QueueType :=
| Undefined
| Graphics
| Compute
| Transfer.

(* ===================================================================== *)
(** ** Capability query and selection *)
(* ===================================================================== *)

(** [std::find_if] followed by [std::distance(begin, it)]: the position of
    the first element satisfying [p], the length when there is none. *)
Fixpoint find_if {A : Type} (p : A -> bool) (l : list A) : nat :=
  match l with
  | [] => O
  | x :: l' => if p x then O else S (find_if p l')
  end.

(** The lambda handed to [std::find_if] in [SelectQueue]. *)
Definition queue_predicate (queue_type : QueueType)
    (q : VkQueueFamilyProperties) : bool :=
  match queue_type with
  | Compute =>
      nonzero (Z.land (queueFlags q) VK_QUEUE_COMPUTE_BIT) &&
      negb (nonzero (Z.land (queueFlags q) VK_QUEUE_GRAPHICS_BIT))
  | Transfer =>
      nonzero (Z.land (queueFlags q) VK_QUEUE_TRANSFER_BIT) &&
      negb (nonzero (Z.land (queueFlags q) VK_QUEUE_GRAPHICS_BIT)) &&
      negb (nonzero (Z.land (queueFlags q) VK_QUEUE_COMPUTE_BIT))
  | _ =>
      VK_QUEUE_GRAPHICS_BIT =? Z.land (queueFlags q) VK_QUEUE_GRAPHICS_BIT
  end.

Definition SelectQueue (physical_device : VkPhysicalDevice)
    (queue_type : QueueType) : Z :=
  let queue_families := queueFamilyProperties physical_device in
  let queue_itr := find_if (queue_predicate queue_type) queue_families in
  to_uint32 (Z.of_nat queue_itr).

(** The scan of [FindMemoryType], from index [i] over the remaining types. *)
Fixpoint FindMemoryType_loop (types : list VkMemoryType) (i : Z)
    (memoryTypeBits memoryProperties : Z) : Z :=
  match types with
  | [] => to_uint32 (-1)
  | t :: rest =>
      if nonzero (Z.land memoryTypeBits (to_uint32 (Z.shiftl 1 i))) &&
         (Z.land (propertyFlags t) (to_uint32 memoryProperties)
            =? to_uint32 memoryProperties)
      then i
      else FindMemoryType_loop rest (i + 1) memoryTypeBits memoryProperties
  end.

Definition FindMemoryType (physical_device : VkPhysicalDevice)
    (memoryTypeBits : Z) (memoryProperties : Z) : Z :=
  FindMemoryType_loop (memoryTypes physical_device) 0
    memoryTypeBits memoryProperties.

(* ===================================================================== *)
(** ** What the specification says about selection *)
(* ===================================================================== *)

(** A family advertises a capability when the capability's bit is set in
    its flag word. *)
Definition advertises (bit : Z) (q : VkQueueFamilyProperties) : Prop :=
  Z.land (queueFlags q) bit <> 0.

(** The inclusion/exclusion rule of each queue class. *)
Definition class_rule (queue_type : QueueType)
    (q : VkQueueFamilyProperties) : Prop :=
  match queue_type with
  | Compute =>
      advertises VK_QUEUE_COMPUTE_BIT q /\ ~ advertises VK_QUEUE_GRAPHICS_BIT q
  | Transfer =>
      advertises VK_QUEUE_TRANSFER_BIT q /\
      ~ advertises VK_QUEUE_GRAPHICS_BIT q /\
      ~ advertises VK_QUEUE_COMPUTE_BIT q
  | _ => advertises VK_QUEUE_GRAPHICS_BIT q
  end.

(** [a] is a superset of the flag set [b]: every bit of [b] is in [a]. *)
Definition flags_superset (a b : Z) : Prop :=
  forall k, 0 <= k -> Z.testbit b k = true -> Z.testbit a k = true.

(** Memory type [t], at index [i], is acceptable for the request. *)
Definition memory_type_ok (memoryTypeBits memoryProperties : Z)
    (i : nat) (t : VkMemoryType) : Prop :=
  Z.testbit memoryTypeBits (Z.of_nat i) = true /\
  flags_superset (propertyFlags t) (to_uint32 memoryProperties).

(* ===================================================================== *)
(** ** common.h: the device and context records *)
(* ===================================================================== *)

(** [PFN_vkSetDebugUtilsObjectNameEXT] as [InitVulkanDevice] fills it: the
    local no-op [DummySetDebugUtilsObjectNameEXT], or the address that
    [vkGetDeviceProcAddr] returned. *)
Inductive DebugNameFn :=
| DummySetDebugUtilsObjectNameEXT
| DriverSetDebugUtilsObjectNameEXT (proc : Handle).

(** [struct VulkanDevice].  A handle member that has not been assigned is
    [None]; members that [InitVulkanDevice] always assigns before anybody
    reads them are plain values. *)
Record VulkanDevice := {
  device : Handle;
  physicalDevice : option VkPhysicalDevice;
  queues : list Handle;
  queue : option Handle;
  CmdWriteBufferMarkerAMD : Handle;
  SignalSemaphoreKHR : Handle;
  WaitSemaphoresKHR : Handle;
  SetDebugUtilsObjectNameEXT : DebugNameFn;
  commandPools : list Handle;
  commandPool : option Handle;
  deviceExtensions : option (list string);
  computeShaderModule : option Handle;
  descriptorSetLayout : option Handle;
  pipelineLayout : option Handle;
  pipeline : option Handle;
  descriptorPool : option Handle;
  descriptorSet : option Handle;
  bufferIn : option Handle;
  bufferOut : option Handle;
  bufferMemory : option Handle;
  numBuffers : Z;
  numBufferEntries : Z;
  bufferSize : Z;
  memorySize : Z
}.

Definition sizeof_float : Z := 4.

(** [VulkanDevice device;]: the default member initialisers. *)
Definition default_VulkanDevice : VulkanDevice :=
  let numBufferEntries := 256 in
  let bufferSize := sizeof_float * numBufferEntries in
  {| device := VK_NULL_HANDLE; physicalDevice := None;
     queues := []; queue := None;
     CmdWriteBufferMarkerAMD := 0; SignalSemaphoreKHR := 0;
     WaitSemaphoresKHR := 0;
     SetDebugUtilsObjectNameEXT := DummySetDebugUtilsObjectNameEXT;
     commandPools := []; commandPool := None; deviceExtensions := None;
     computeShaderModule := None; descriptorSetLayout := None;
     pipelineLayout := None; pipeline := None;
     descriptorPool := None; descriptorSet := None;
     bufferIn := None; bufferOut := None; bufferMemory := None;
     numBuffers := 2; numBufferEntries := numBufferEntries;
     bufferSize := bufferSize; memorySize := 2 * bufferSize |}.

(** Member assignment, one function per member the code writes. *)
Definition set_device (v : Handle) (d : VulkanDevice) : VulkanDevice :=
  {| device := v; physicalDevice := physicalDevice d; queues := queues d;
     queue := queue d; CmdWriteBufferMarkerAMD := CmdWriteBufferMarkerAMD d;
     SignalSemaphoreKHR := SignalSemaphoreKHR d;
     WaitSemaphoresKHR := WaitSemaphoresKHR d;
     SetDebugUtilsObjectNameEXT := SetDebugUtilsObjectNameEXT d;
     commandPools := commandPools d; commandPool := commandPool d;
     deviceExtensions := deviceExtensions d;
     computeShaderModule := computeShaderModule d;
     descriptorSetLayout := descriptorSetLayout d;
     pipelineLayout := pipelineLayout d; pipeline := pipeline d;
     descriptorPool := descriptorPool d; descriptorSet := descriptorSet d;
     bufferIn := bufferIn d; bufferOut := bufferOut d;
     bufferMemory := bufferMemory d; numBuffers := numBuffers d;
     numBufferEntries := numBufferEntries d; bufferSize := bufferSize d;
     memorySize := memorySize d |}.

Definition set_physicalDevice (v : option VkPhysicalDevice) (d : VulkanDevice) : VulkanDevice :=
  {| device := device d; physicalDevice := v; queues := queues d;
     queue := queue d; CmdWriteBufferMarkerAMD := CmdWriteBufferMarkerAMD d;
     SignalSemaphoreKHR := SignalSemaphoreKHR d;
     WaitSemaphoresKHR := WaitSemaphoresKHR d;
     SetDebugUtilsObjectNameEXT := SetDebugUtilsObjectNameEXT d;
     commandPools := commandPools d; commandPool := commandPool d;
     deviceExtensions := deviceExtensions d;
     computeShaderModule := computeShaderModule d;
     descriptorSetLayout := descriptorSetLayout d;
     pipelineLayout := pipelineLayout d; pipeline := pipeline d;
     descriptorPool := descriptorPool d; descriptorSet := descriptorSet d;
     bufferIn := bufferIn d; bufferOut := bufferOut d;
     bufferMemory := bufferMemory d; numBuffers := numBuffers d;
     numBufferEntries := numBufferEntries d; bufferSize := bufferSize d;
     memorySize := memorySize d |}.

Definition set_queues (v : list Handle) (d : VulkanDevice) : VulkanDevice :=
  {| device := device d; physicalDevice := physicalDevice d; queues := v;
     queue := queue d; CmdWriteBufferMarkerAMD := CmdWriteBufferMarkerAMD d;
     SignalSemaphoreKHR := SignalSemaphoreKHR d;
     WaitSemaphoresKHR := WaitSemaphoresKHR d;
     SetDebugUtilsObjectNameEXT := SetDebugUtilsObjectNameEXT d;
     commandPools := commandPools d; commandPool := commandPool d;
     deviceExtensions := deviceExtensions d;
     computeShaderModule := computeShaderModule d;
     descriptorSetLayout := descriptorSetLayout d;
     pipelineLayout := pipelineLayout d; pipeline := pipeline d;
     descriptorPool := descriptorPool d; descriptorSet := descriptorSet d;
     bufferIn := bufferIn d; bufferOut := bufferOut d;
     bufferMemory := bufferMemory d; numBuffers := numBuffers d;
     numBufferEntries := numBufferEntries d; bufferSize := bufferSize d;
     memorySize := memorySize d |}.

Definition set_queue (v : option Handle) (d : VulkanDevice) : VulkanDevice :=
  {| device := device d; physicalDevice := physicalDevice d;
     queues := queues d; queue := v;
     CmdWriteBufferMarkerAMD := CmdWriteBufferMarkerAMD d;
     SignalSemaphoreKHR := SignalSemaphoreKHR d;
     WaitSemaphoresKHR := WaitSemaphoresKHR d;
     SetDebugUtilsObjectNameEXT := SetDebugUtilsObjectNameEXT d;
     commandPools := commandPools d; commandPool := commandPool d;
     deviceExtensions := deviceExtensions d;
     computeShaderModule := computeShaderModule d;
     descriptorSetLayout := descriptorSetLayout d;
     pipelineLayout := pipelineLayout d; pipeline := pipeline d;
     descriptorPool := descriptorPool d; descriptorSet := descriptorSet d;
     bufferIn := bufferIn d; bufferOut := bufferOut d;
     bufferMemory := bufferMemory d; numBuffers := numBuffers d;
     numBufferEntries := numBufferEntries d; bufferSize := bufferSize d;
     memorySize := memorySize d |}.

Definition set_CmdWriteBufferMarkerAMD (v : Handle) (d : VulkanDevice) : VulkanDevice :=
  {| device := device d; physicalDevice := physicalDevice d;
     queues := queues d; queue := queue d; CmdWriteBufferMarkerAMD := v;
     SignalSemaphoreKHR := SignalSemaphoreKHR d;
     WaitSemaphoresKHR := WaitSemaphoresKHR d;
     SetDebugUtilsObjectNameEXT := SetDebugUtilsObjectNameEXT d;
     commandPools := commandPools d; commandPool := commandPool d;
     deviceExtensions := deviceExtensions d;
     computeShaderModule := computeShaderModule d;
     descriptorSetLayout := descriptorSetLayout d;
     pipelineLayout := pipelineLayout d; pipeline := pipeline d;
     descriptorPool := descriptorPool d; descriptorSet := descriptorSet d;
     bufferIn := bufferIn d; bufferOut := bufferOut d;
     bufferMemory := bufferMemory d; numBuffers := numBuffers d;
     numBufferEntries := numBufferEntries d; bufferSize := bufferSize d;
     memorySize := memorySize d |}.

Definition set_SignalSemaphoreKHR (v : Handle) (d : VulkanDevice) : VulkanDevice :=
  {| device := device d; physicalDevice := physicalDevice d;
     queues := queues d; queue := queue d;
     CmdWriteBufferMarkerAMD := CmdWriteBufferMarkerAMD d;
     SignalSemaphoreKHR := v; WaitSemaphoresKHR := WaitSemaphoresKHR d;
     SetDebugUtilsObjectNameEXT := SetDebugUtilsObjectNameEXT d;
     commandPools := commandPools d; commandPool := commandPool d;
     deviceExtensions := deviceExtensions d;
     computeShaderModule := computeShaderModule d;
     descriptorSetLayout := descriptorSetLayout d;
     pipelineLayout := pipelineLayout d; pipeline := pipeline d;
     descriptorPool := descriptorPool d; descriptorSet := descriptorSet d;
     bufferIn := bufferIn d; bufferOut := bufferOut d;
     bufferMemory := bufferMemory d; numBuffers := numBuffers d;
     numBufferEntries := numBufferEntries d; bufferSize := bufferSize d;
     memorySize := memorySize d |}.

Definition set_WaitSemaphoresKHR (v : Handle) (d : VulkanDevice) : VulkanDevice :=
  {| device := device d; physicalDevice := physicalDevice d;
     queues := queues d; queue := queue d;
     CmdWriteBufferMarkerAMD := CmdWriteBufferMarkerAMD d;
     SignalSemaphoreKHR := SignalSemaphoreKHR d; WaitSemaphoresKHR := v;
     SetDebugUtilsObjectNameEXT := SetDebugUtilsObjectNameEXT d;
     commandPools := commandPools d; commandPool := commandPool d;
     deviceExtensions := deviceExtensions d;
     computeShaderModule := computeShaderModule d;
     descriptorSetLayout := descriptorSetLayout d;
     pipelineLayout := pipelineLayout d; pipeline := pipeline d;
     descriptorPool := descriptorPool d; descriptorSet := descriptorSet d;
     bufferIn := bufferIn d; bufferOut := bufferOut d;
     bufferMemory := bufferMemory d; numBuffers := numBuffers d;
     numBufferEntries := numBufferEntries d; bufferSize := bufferSize d;
     memorySize := memorySize d |}.

Definition set_SetDebugUtilsObjectNameEXT (v : DebugNameFn) (d : VulkanDevice) : VulkanDevice :=
  {| device := device d; physicalDevice := physicalDevice d;
     queues := queues d; queue := queue d;
     CmdWriteBufferMarkerAMD := CmdWriteBufferMarkerAMD d;
     SignalSemaphoreKHR := SignalSemaphoreKHR d;
     WaitSemaphoresKHR := WaitSemaphoresKHR d; SetDebugUtilsObjectNameEXT := v;
     commandPools := commandPools d; commandPool := commandPool d;
     deviceExtensions := deviceExtensions d;
     computeShaderModule := computeShaderModule d;
     descriptorSetLayout := descriptorSetLayout d;
     pipelineLayout := pipelineLayout d; pipeline := pipeline d;
     descriptorPool := descriptorPool d; descriptorSet := descriptorSet d;
     bufferIn := bufferIn d; bufferOut := bufferOut d;
     bufferMemory := bufferMemory d; numBuffers := numBuffers d;
     numBufferEntries := numBufferEntries d; bufferSize := bufferSize d;
     memorySize := memorySize d |}.

Definition set_commandPools (v : list Handle) (d : VulkanDevice) : VulkanDevice :=
  {| device := device d; physicalDevice := physicalDevice d;
     queues := queues d; queue := queue d;
     CmdWriteBufferMarkerAMD := CmdWriteBufferMarkerAMD d;
     SignalSemaphoreKHR := SignalSemaphoreKHR d;
     WaitSemaphoresKHR := WaitSemaphoresKHR d;
     SetDebugUtilsObjectNameEXT := SetDebugUtilsObjectNameEXT d;
     commandPools := v; commandPool := commandPool d;
     deviceExtensions := deviceExtensions d;
     computeShaderModule := computeShaderModule d;
     descriptorSetLayout := descriptorSetLayout d;
     pipelineLayout := pipelineLayout d; pipeline := pipeline d;
     descriptorPool := descriptorPool d; descriptorSet := descriptorSet d;
     bufferIn := bufferIn d; bufferOut := bufferOut d;
     bufferMemory := bufferMemory d; numBuffers := numBuffers d;
     numBufferEntries := numBufferEntries d; bufferSize := bufferSize d;
     memorySize := memorySize d |}.

Definition set_commandPool (v : option Handle) (d : VulkanDevice) : VulkanDevice :=
  {| device := device d; physicalDevice := physicalDevice d;
     queues := queues d; queue := queue d;
     CmdWriteBufferMarkerAMD := CmdWriteBufferMarkerAMD d;
     SignalSemaphoreKHR := SignalSemaphoreKHR d;
     WaitSemaphoresKHR := WaitSemaphoresKHR d;
     SetDebugUtilsObjectNameEXT := SetDebugUtilsObjectNameEXT d;
     commandPools := commandPools d; commandPool := v;
     deviceExtensions := deviceExtensions d;
     computeShaderModule := computeShaderModule d;
     descriptorSetLayout := descriptorSetLayout d;
     pipelineLayout := pipelineLayout d; pipeline := pipeline d;
     descriptorPool := descriptorPool d; descriptorSet := descriptorSet d;
     bufferIn := bufferIn d; bufferOut := bufferOut d;
     bufferMemory := bufferMemory d; numBuffers := numBuffers d;
     numBufferEntries := numBufferEntries d; bufferSize := bufferSize d;
     memorySize := memorySize d |}.

Definition set_computeShaderModule (v : option Handle) (d : VulkanDevice) : VulkanDevice :=
  {| device := device d; physicalDevice := physicalDevice d;
     queues := queues d; queue := queue d;
     CmdWriteBufferMarkerAMD := CmdWriteBufferMarkerAMD d;
     SignalSemaphoreKHR := SignalSemaphoreKHR d;
     WaitSemaphoresKHR := WaitSemaphoresKHR d;
     SetDebugUtilsObjectNameEXT := SetDebugUtilsObjectNameEXT d;
     commandPools := commandPools d; commandPool := commandPool d;
     deviceExtensions := deviceExtensions d; computeShaderModule := v;
     descriptorSetLayout := descriptorSetLayout d;
     pipelineLayout := pipelineLayout d; pipeline := pipeline d;
     descriptorPool := descriptorPool d; descriptorSet := descriptorSet d;
     bufferIn := bufferIn d; bufferOut := bufferOut d;
     bufferMemory := bufferMemory d; numBuffers := numBuffers d;
     numBufferEntries := numBufferEntries d; bufferSize := bufferSize d;
     memorySize := memorySize d |}.

Definition set_descriptorSetLayout (v : option Handle) (d : VulkanDevice) : VulkanDevice :=
  {| device := device d; physicalDevice := physicalDevice d;
     queues := queues d; queue := queue d;
     CmdWriteBufferMarkerAMD := CmdWriteBufferMarkerAMD d;
     SignalSemaphoreKHR := SignalSemaphoreKHR d;
     WaitSemaphoresKHR := WaitSemaphoresKHR d;
     SetDebugUtilsObjectNameEXT := SetDebugUtilsObjectNameEXT d;
     commandPools := commandPools d; commandPool := commandPool d;
     deviceExtensions := deviceExtensions d;
     computeShaderModule := computeShaderModule d; descriptorSetLayout := v;
     pipelineLayout := pipelineLayout d; pipeline := pipeline d;
     descriptorPool := descriptorPool d; descriptorSet := descriptorSet d;
     bufferIn := bufferIn d; bufferOut := bufferOut d;
     bufferMemory := bufferMemory d; numBuffers := numBuffers d;
     numBufferEntries := numBufferEntries d; bufferSize := bufferSize d;
     memorySize := memorySize d |}.

Definition set_pipelineLayout (v : option Handle) (d : VulkanDevice) : VulkanDevice :=
  {| device := device d; physicalDevice := physicalDevice d;
     queues := queues d; queue := queue d;
     CmdWriteBufferMarkerAMD := CmdWriteBufferMarkerAMD d;
     SignalSemaphoreKHR := SignalSemaphoreKHR d;
     WaitSemaphoresKHR := WaitSemaphoresKHR d;
     SetDebugUtilsObjectNameEXT := SetDebugUtilsObjectNameEXT d;
     commandPools := commandPools d; commandPool := commandPool d;
     deviceExtensions := deviceExtensions d;
     computeShaderModule := computeShaderModule d;
     descriptorSetLayout := descriptorSetLayout d; pipelineLayout := v;
     pipeline := pipeline d; descriptorPool := descriptorPool d;
     descriptorSet := descriptorSet d; bufferIn := bufferIn d;
     bufferOut := bufferOut d; bufferMemory := bufferMemory d;
     numBuffers := numBuffers d; numBufferEntries := numBufferEntries d;
     bufferSize := bufferSize d; memorySize := memorySize d |}.

Definition set_pipeline (v : option Handle) (d : VulkanDevice) : VulkanDevice :=
  {| device := device d; physicalDevice := physicalDevice d;
     queues := queues d; queue := queue d;
     CmdWriteBufferMarkerAMD := CmdWriteBufferMarkerAMD d;
     SignalSemaphoreKHR := SignalSemaphoreKHR d;
     WaitSemaphoresKHR := WaitSemaphoresKHR d;
     SetDebugUtilsObjectNameEXT := SetDebugUtilsObjectNameEXT d;
     commandPools := commandPools d; commandPool := commandPool d;
     deviceExtensions := deviceExtensions d;
     computeShaderModule := computeShaderModule d;
     descriptorSetLayout := descriptorSetLayout d;
     pipelineLayout := pipelineLayout d; pipeline := v;
     descriptorPool := descriptorPool d; descriptorSet := descriptorSet d;
     bufferIn := bufferIn d; bufferOut := bufferOut d;
     bufferMemory := bufferMemory d; numBuffers := numBuffers d;
     numBufferEntries := numBufferEntries d; bufferSize := bufferSize d;
     memorySize := memorySize d |}.

Definition set_descriptorPool (v : option Handle) (d : VulkanDevice) : VulkanDevice :=
  {| device := device d; physicalDevice := physicalDevice d;
     queues := queues d; queue := queue d;
     CmdWriteBufferMarkerAMD := CmdWriteBufferMarkerAMD d;
     SignalSemaphoreKHR := SignalSemaphoreKHR d;
     WaitSemaphoresKHR := WaitSemaphoresKHR d;
     SetDebugUtilsObjectNameEXT := SetDebugUtilsObjectNameEXT d;
     commandPools := commandPools d; commandPool := commandPool d;
     deviceExtensions := deviceExtensions d;
     computeShaderModule := computeShaderModule d;
     descriptorSetLayout := descriptorSetLayout d;
     pipelineLayout := pipelineLayout d; pipeline := pipeline d;
     descriptorPool := v; descriptorSet := descriptorSet d;
     bufferIn := bufferIn d; bufferOut := bufferOut d;
     bufferMemory := bufferMemory d; numBuffers := numBuffers d;
     numBufferEntries := numBufferEntries d; bufferSize := bufferSize d;
     memorySize := memorySize d |}.

Definition set_bufferIn (v : option Handle) (d : VulkanDevice) : VulkanDevice :=
  {| device := device d; physicalDevice := physicalDevice d;
     queues := queues d; queue := queue d;
     CmdWriteBufferMarkerAMD := CmdWriteBufferMarkerAMD d;
     SignalSemaphoreKHR := SignalSemaphoreKHR d;
     WaitSemaphoresKHR := WaitSemaphoresKHR d;
     SetDebugUtilsObjectNameEXT := SetDebugUtilsObjectNameEXT d;
     commandPools := commandPools d; commandPool := commandPool d;
     deviceExtensions := deviceExtensions d;
     computeShaderModule := computeShaderModule d;
     descriptorSetLayout := descriptorSetLayout d;
     pipelineLayout := pipelineLayout d; pipeline := pipeline d;
     descriptorPool := descriptorPool d; descriptorSet := descriptorSet d;
     bufferIn := v; bufferOut := bufferOut d; bufferMemory := bufferMemory d;
     numBuffers := numBuffers d; numBufferEntries := numBufferEntries d;
     bufferSize := bufferSize d; memorySize := memorySize d |}.

Definition set_bufferOut (v : option Handle) (d : VulkanDevice) : VulkanDevice :=
  {| device := device d; physicalDevice := physicalDevice d;
     queues := queues d; queue := queue d;
     CmdWriteBufferMarkerAMD := CmdWriteBufferMarkerAMD d;
     SignalSemaphoreKHR := SignalSemaphoreKHR d;
     WaitSemaphoresKHR := WaitSemaphoresKHR d;
     SetDebugUtilsObjectNameEXT := SetDebugUtilsObjectNameEXT d;
     commandPools := commandPools d; commandPool := commandPool d;
     deviceExtensions := deviceExtensions d;
     computeShaderModule := computeShaderModule d;
     descriptorSetLayout := descriptorSetLayout d;
     pipelineLayout := pipelineLayout d; pipeline := pipeline d;
     descriptorPool := descriptorPool d; descriptorSet := descriptorSet d;
     bufferIn := bufferIn d; bufferOut := v; bufferMemory := bufferMemory d;
     numBuffers := numBuffers d; numBufferEntries := numBufferEntries d;
     bufferSize := bufferSize d; memorySize := memorySize d |}.

Definition set_bufferMemory (v : option Handle) (d : VulkanDevice) : VulkanDevice :=
  {| device := device d; physicalDevice := physicalDevice d;
     queues := queues d; queue := queue d;
     CmdWriteBufferMarkerAMD := CmdWriteBufferMarkerAMD d;
     SignalSemaphoreKHR := SignalSemaphoreKHR d;
     WaitSemaphoresKHR := WaitSemaphoresKHR d;
     SetDebugUtilsObjectNameEXT := SetDebugUtilsObjectNameEXT d;
     commandPools := commandPools d; commandPool := commandPool d;
     deviceExtensions := deviceExtensions d;
     computeShaderModule := computeShaderModule d;
     descriptorSetLayout := descriptorSetLayout d;
     pipelineLayout := pipelineLayout d; pipeline := pipeline d;
     descriptorPool := descriptorPool d; descriptorSet := descriptorSet d;
     bufferIn := bufferIn d; bufferOut := bufferOut d; bufferMemory := v;
     numBuffers := numBuffers d; numBufferEntries := numBufferEntries d;
     bufferSize := bufferSize d; memorySize := memorySize d |}.

Definition kTestTerminationTimerMsDefault : Z := 120000.

(** [struct VulkanContext]; [devices_lock] guards [devices] and has no
    counterpart in a sequential run. *)
Record VulkanContext := {
  instance : Handle;
  ctx_physicalDevice : option VkPhysicalDevice;
  devices : list VulkanDevice;
  apiVersion : Z;
  instanceExtensions : list string;
  instanceLayers : list string;
  test_termination_timer_ms : Z
}.

Definition set_ctx_physicalDevice (v : option VkPhysicalDevice)
    (c : VulkanContext) : VulkanContext :=
  {| instance := instance c; ctx_physicalDevice := v; devices := devices c;
     apiVersion := apiVersion c; instanceExtensions := instanceExtensions c;
     instanceLayers := instanceLayers c;
     test_termination_timer_ms := test_termination_timer_ms c |}.

Definition set_devices (v : list VulkanDevice) (c : VulkanContext)
    : VulkanContext :=
  {| instance := instance c; ctx_physicalDevice := ctx_physicalDevice c;
     devices := v; apiVersion := apiVersion c;
     instanceExtensions := instanceExtensions c;
     instanceLayers := instanceLayers c;
     test_termination_timer_ms := test_termination_timer_ms c |}.

(** [enum class BufferInitialization]. *)
Inductive BufferInitialization :=
| None_
| Default
| MinusOne
| _64K
| Transfer_.

(* ===================================================================== *)
(** ** Driver calls and programs *)
(* ===================================================================== *)

Record VkDeviceQueueCreateInfo := {
  qci_queueFamilyIndex : Z;
  qci_queueCount : Z;
  (** [pQueuePriorities] points at [queue_priorites]: that many 1.0f *)
  qci_queuePriorities : nat
}.

Record VkDeviceCreateInfo := {
  pQueueCreateInfos : list VkDeviceQueueCreateInfo;
  queueCreateInfoCount : Z;
  ppEnabledExtensionNames : option (list string)
}.

Record VkDescriptorSetLayoutBinding := {
  binding : Z;
  descriptorType : Z;
  descriptorCount : Z;
  stageFlags : Z
}.

Record VkComputePipelineCreateInfo := {
  cp_flags : Z;
  cp_stage : Z;
  cp_module : option Handle;
  cp_pName : string;
  cp_layout : option Handle
}.

(** Where a pointer points: a named local of the running function, or the
    heap storage of a [std::vector]. *)
Inductive Loc :=
| Local (name : string)
| Heap (address : Z).

(** A non-null pointer into an array: where it points and what is there. *)
Record ptr (A : Type) := {
  loc : Loc;
  pointee : list A
}.
Arguments loc {A} _.
Arguments pointee {A} _.

(** [std::vector<A>]: its storage and its elements. *)
Record vector (A : Type) := {
  storage : Z;
  elems : list A
}.
Arguments storage {A} _.
Arguments elems {A} _.

Definition data {A : Type} (v : vector A) : ptr A :=
  {| loc := Heap (storage v); pointee := elems v |}.

Definition size {A : Type} (v : vector A) : Z := Z.of_nat (length (elems v)).

(** [VkSubmitInfo]; a null pointer member is [None]. *)
Record VkSubmitInfo := {
  sType : Z;
  pNext : option Loc;
  waitSemaphoreCount : Z;
  pWaitSemaphores : option (ptr Handle);
  pWaitDstStageMask : option (ptr Z);
  commandBufferCount : Z;
  pCommandBuffers : option (ptr Handle);
  signalSemaphoreCount : Z;
  pSignalSemaphores : option (ptr Handle)
}.

(** The driver entry points common.cc reaches, with the arguments that
    matter here. *)
Inductive VkCall :=
| vkEnumeratePhysicalDevices (instance : Handle) (withData : bool)
| vkCreateDevice (physical : Handle) (info : VkDeviceCreateInfo)
| vkGetDeviceProcAddr (dev : Handle) (name : string)
| vkSetDebugUtilsObjectNameEXT (dev : Handle) (type : VkObjectType)
    (object : Z) (name : string)
| vkGetDeviceQueue (dev : Handle) (family index : Z)
| vkCreateCommandPool (dev : Handle) (family : Z)
| vkCreateShaderModule (dev : Handle) (code : list Z) (codeSize : Z)
| vkCreateDescriptorPool (dev : Handle) (maxSets : Z) (poolSizes : list (Z * Z))
| vkCreateDescriptorSetLayout (dev : Handle)
    (bindings : list VkDescriptorSetLayoutBinding)
| vkCreatePipelineLayout (dev : Handle) (setLayouts : list (option Handle))
| vkCreateComputePipelines (dev : Handle) (cache : Handle)
    (infos : list VkComputePipelineCreateInfo)
| vkCreateBuffer (dev : Handle) (size usage : Z)
| vkGetBufferMemoryRequirements (dev : Handle) (buffer : Handle)
| vkAllocateMemory (dev : Handle) (allocationSize memoryTypeIndex : Z)
| vkBindBufferMemory (dev : Handle) (buffer memory : Handle) (offset : Z)
| vkMapMemory (dev : Handle) (memory : Handle) (offset size : Z)
| vkUnmapMemory (dev : Handle) (memory : Handle)
| vkAllocateCommandBuffers (dev : Handle) (pool : Handle)
    (level : VkCommandBufferLevel) (count : Z)
| vkBeginCommandBuffer (cb : Handle) (flags : Z)
| vkEndCommandBuffer (cb : Handle)
| vkCreateFence (dev : Handle)
| vkQueueWaitIdle (queue : Handle)
| vkQueueSubmit (queue : Handle) (submits : list VkSubmitInfo) (fence : Handle)
| vkWaitForFences (dev : Handle) (fences : list Handle) (waitAll : bool)
    (timeout : Z).

(** What a call that returns hands back: its [VkResult] (meaningless for
    the entry points declared [void]), the scalar written through its
    out-parameter (a handle, a procedure address, a bit mask), and, for
    [vkAllocateMemory], the bytes the new allocation happens to hold. *)
Record Reply := {
  result : VkResult;
  out : Z;
  contents : list Z
}.

(** Host code interleaved with driver calls. *)
Inductive Prog (A : Type) : Type :=
| Ret (a : A)
| Call (c : VkCall) (k : Reply -> Prog A)
| AssertFail                  (* assert() fired: abort *)
| Exit (status : Z)           (* exit(status) *)
| Crash.                      (* undefined behaviour *)
Arguments Ret {A} _.
Arguments Call {A} _ _.
Arguments AssertFail {A}.
Arguments Exit {A} _.
Arguments Crash {A}.

Fixpoint bind {A B : Type} (p : Prog A) (f : A -> Prog B) : Prog B :=
  match p with
  | Ret a => f a
  | Call c k => Call c (fun r => bind (k r) f)
  | AssertFail => AssertFail
  | Exit s => Exit s
  | Crash => Crash
  end.

Declare Scope prog_scope.
Delimit Scope prog_scope with prog.
Notation "x <- p ;; q" := (bind p (fun x => q))
  (at level 100, p at next level, right associativity) : prog_scope.
Notation "p ;;; q" := (bind p (fun _ => q))
  (at level 100, right associativity) : prog_scope.
Local Open Scope prog_scope.

(** How a program ends. *)
Inductive Outcome (A : Type) : Type :=
| Done (a : A)
| Asserted
| Exited (status : Z)
| Crashed
| Hung.                       (* a driver call never returned *)
Arguments Done {A} _.
Arguments Asserted {A}.
Arguments Exited {A} _.
Arguments Crashed {A}.
Arguments Hung {A}.

(** One entry of the trace: the call and its reply, [None] when the call
    never returned. *)
Definition Event : Type := VkCall * option Reply.

(** A driver decides each reply from everything that happened before. *)
Definition Driver : Type := list Event -> VkCall -> option Reply.

(** [run drv hist p]: play [p] against [drv] after the history [hist];
    returns the outcome and the events [p] added. *)
Fixpoint run {A : Type} (drv : Driver) (hist : list Event) (p : Prog A)
    : Outcome A * list Event :=
  match p with
  | Ret a => (Done a, [])
  | Call c k =>
      match drv hist c with
      | None => (Hung, [(c, None)])
      | Some r =>
          let '(o, t) := run drv (hist ++ [(c, Some r)]) (k r) in
          (o, (c, Some r) :: t)
      end
  | AssertFail => (Asserted, [])
  | Exit s => (Exited s, [])
  | Crash => (Crashed, [])
  end.

(** [VK_CHECK_RESULT(f)]: log and assert on anything but VK_SUCCESS. *)
Definition VK_CHECK_RESULT (c : VkCall) : Prog Reply :=
  Call c (fun r => if result r =? VK_SUCCESS then Ret r else AssertFail).

(** [VK_RETURN_IF_FAIL(f)] inside a function returning [VkResult]: the
    rest of the function [k] runs only on VK_SUCCESS. *)
Definition VK_RETURN_IF_FAIL (c : VkCall) (k : Reply -> Prog VkResult)
    : Prog VkResult :=
  Call c (fun r => if result r =? VK_SUCCESS then k r else Ret (result r)).

(** Reading a handle member; an unassigned one is an indeterminate value. *)
Definition read {A : Type} (member : option A) : Prog A :=
  match member with
  | Some v => Ret v
  | None => Crash
  end.

Definition SetObjectDebugName (device_ : VulkanDevice) (handle : Z)
    (object_type : VkObjectType) (name : option string) : Prog unit :=
  match name with
  | None => Ret tt
  | Some n =>
      match SetDebugUtilsObjectNameEXT device_ with
      | DummySetDebugUtilsObjectNameEXT => Ret tt
      | DriverSetDebugUtilsObjectNameEXT proc =>
          if proc =? 0 then Crash
          else Call (vkSetDebugUtilsObjectNameEXT (device device_)
                       object_type handle n) (fun _ => Ret tt)
      end
  end.

(* ===================================================================== *)
(** ** The host: flags, devices, files *)
(* ===================================================================== *)

(** What [LoadShader] finds under a file name. *)
Inductive FileStatus :=
| FileMissing                    (* fopen fails *)
| FileNoLength                   (* ftell returns -1 *)
| FileBytes (bytes : list Z).

(** What the program runs on: the parsed command line
    ([GlobalFlags().values]), the physical devices the loader enumerates,
    and the files [fopen] can see. *)
Record Host := {
  flag_values : gmap string string;
  gpus : list VkPhysicalDevice;
  files : string -> FileStatus
}.

(** [GetFlag]: [nullptr] when the flag was not given. *)
Definition GetFlag (host : Host) (key : string) : option string :=
  flag_values host !! key.

Definition EXIT_FAILURE : Z := 1.

Definition QueueTypeFromString (s : option string) (default_type : QueueType)
    : Prog QueueType :=
  match s with
  | None => Ret default_type
  | Some s =>
      if decide (s = EmptyString) then Ret default_type
      else if decide (s = "graphics" \/ s = "Graphics") then Ret Graphics
      else if decide (s = "compute" \/ s = "Compute") then Ret Compute
      else if decide (s = "transfer" \/ s = "Transfer") then Ret Transfer
      else Exit EXIT_FAILURE
  end.

(* ===================================================================== *)
(** ** The submission descriptor builder *)
(* ===================================================================== *)

(** [VkSubmitInfo submit_info = {};] *)
Definition zero_VkSubmitInfo : VkSubmitInfo :=
  {| sType := 0; pNext := None;
     waitSemaphoreCount := 0; pWaitSemaphores := None;
     pWaitDstStageMask := None;
     commandBufferCount := 0; pCommandBuffers := None;
     signalSemaphoreCount := 0; pSignalSemaphores := None |}.

Definition CreateSubmitInfo
    (command_buffer : option (ptr Handle))
    (wait_semaphores : option (vector Handle))
    (wait_dst_stage_masks : option (vector Z))
    (signal_semaphores : option (vector Handle))
    (pnext : option Loc) : Prog VkSubmitInfo :=
  let submit_info := zero_VkSubmitInfo in
  waits <-
    match wait_semaphores with
    | Some ws =>
        match wait_dst_stage_masks with
        | Some ms =>
            (* assert(wait_semaphores->size() == wait_dst_stage_masks->size()) *)
            if size ws =? size ms
            then Ret (to_uint32 (size ws), Some (data ws), Some (data ms))
            else AssertFail
        | None => Crash            (* ->size() through a null pointer *)
        end
    | None =>
        Ret (waitSemaphoreCount submit_info, pWaitSemaphores submit_info,
             pWaitDstStageMask submit_info)
    end;;
  let signals :=
    match signal_semaphores with
    | Some ss => (to_uint32 (size ss), Some (data ss))
    | None => (signalSemaphoreCount submit_info, pSignalSemaphores submit_info)
    end in
  Ret {| sType := VK_STRUCTURE_TYPE_SUBMIT_INFO;
         pNext := pnext;
         waitSemaphoreCount := fst (fst waits);
         pWaitSemaphores := snd (fst waits);
         pWaitDstStageMask := snd waits;
         commandBufferCount := 1;
         pCommandBuffers := command_buffer;
         signalSemaphoreCount := fst signals;
         pSignalSemaphores := snd signals |}.

(* ===================================================================== *)
(** ** IEEE-754 binary32 and the mapped allocation *)
(* ===================================================================== *)

(** [float] is binary32: 24 bits of precision, exponents up to 128.
    Arithmetic is the Standard Library's executable specification, with
    round-to-nearest-even. *)
Module F32.

Definition prec : Z := 24.
Definition emax : Z := 128.

(** Conversion of an [int] to [float]. *)
Definition of_int (z : Z) : spec_float := binary_normalize prec emax z 0 false.

Definition add : spec_float -> spec_float -> spec_float := SFadd prec emax.
Definition mul : spec_float -> spec_float -> spec_float := SFmul prec emax.

(** The 32-bit pattern: sign, 8-bit biased exponent, 23-bit fraction. *)
Definition bits (x : spec_float) : Z :=
  match x with
  | S754_zero s => if s then 2 ^ 31 else 0
  | S754_infinity s => (if s then 2 ^ 31 else 0) + 255 * 2 ^ 23
  | S754_nan => 255 * 2 ^ 23 + 2 ^ 22
  | S754_finite s m e =>
      (if s then 2 ^ 31 else 0) +
      (if Z.pos m <? 2 ^ 23 then Z.pos m
       else (e + 150) * 2 ^ 23 + (Z.pos m - 2 ^ 23))
  end.

End F32.

(** Host-visible memory: a list of bytes.  A 32-bit store writes four
    bytes, least significant first; a store that does not fit in the
    mapped range is undefined behaviour ([None]). *)
Definition byte_of (w : Z) (k : Z) : Z := (w / 256 ^ k) mod 256.

Definition store32 (mem : list Z) (addr : nat) (w : Z) : option (list Z) :=
  if decide (addr + 4 <= length mem)%nat then
    Some (<[(addr + 3)%nat := byte_of w 3]>
            (<[(addr + 2)%nat := byte_of w 2]>
               (<[(addr + 1)%nat := byte_of w 1]>
                  (<[addr := byte_of w 0]> mem))))
  else None.

Definition load32 (mem : list Z) (addr : nat) : option Z :=
  match mem !! addr, mem !! (addr + 1)%nat,
        mem !! (addr + 2)%nat, mem !! (addr + 3)%nat with
  | Some b0, Some b1, Some b2, Some b3 =>
      Some (b0 + 256 * b1 + 256 ^ 2 * b2 + 256 ^ 3 * b3)
  | _, _, _, _ => None
  end.

(** [for (int i = 0; i < n; ++i) *p++ = value(i);] with [p] a pointer to a
    4-byte type: [count] iterations left, the next one with index [i] and
    byte address [p]. *)
Fixpoint fill_loop (count : nat) (i : Z) (p : nat) (value : Z -> Z)
    (mem : list Z) : option (list Z) :=
  match count with
  | O => Some mem
  | S count' =>
      match store32 mem p (value i) with
      | Some mem' => fill_loop count' (i + 1) (p + 4)%nat value mem'
      | None => None
      end
  end.

Definition fill (n : Z) (p : nat) (value : Z -> Z) (mem : list Z)
    : option (list Z) :=
  fill_loop (Z.to_nat n) 0 p value mem.

(** [2 + i * 2.0f] *)
Definition default_entry (i : Z) : spec_float :=
  F32.add (F32.of_int 2) (F32.mul (F32.of_int i) (F32.of_int 2)).

(** The body of [if (initialization != BufferInitialization::None)]
    between vkMapMemory and vkUnmapMemory, on the mapped bytes. *)
Definition initialize_buffers (initialization : BufferInitialization)
    (numBufferEntries : Z) (pBuffer : list Z) : option (list Z) :=
  match
    match initialization with
    | Default =>
        fill numBufferEntries 0 (fun i => F32.bits (default_entry i)) pBuffer
    | MinusOne =>
        fill numBufferEntries 0 (fun _ => F32.bits (F32.of_int (-1))) pBuffer
    | _64K =>
        fill numBufferEntries 0 (fun _ => 65535) pBuffer
    | _ => Some pBuffer
    end
  with
  | Some mem =>
      fill numBufferEntries (Z.to_nat (sizeof_float * numBufferEntries))
        (fun _ => F32.bits (F32.of_int 0)) mem
  | None => None
  end.

Definition to_uint64 (z : Z) : Z := z mod 2 ^ 64.

(** Returns the device as the call leaves it, and the bytes of
    [device->bufferMemory] when the call returns. *)
Definition AllocateInputOutputBuffers (dev : VulkanDevice)
    (initialization : BufferInitialization)
    : Prog (VulkanDevice * list Z) :=
  let size := to_uint64 (bufferSize dev) in
  let usage :=
    match initialization with
    | Transfer_ =>
        Z.lor VK_BUFFER_USAGE_STORAGE_BUFFER_BIT VK_BUFFER_USAGE_TRANSFER_SRC_BIT
    | _ => VK_BUFFER_USAGE_STORAGE_BUFFER_BIT
    end in
  let vk_device := device dev in
  rIn <- VK_CHECK_RESULT (vkCreateBuffer vk_device size usage);;
  let dev := set_bufferIn (Some (out rIn)) dev in
  SetObjectDebugName dev (out rIn) VK_OBJECT_TYPE_BUFFER (Some "Input Buffer");;;
  let usage :=
    match initialization with
    | Transfer_ =>
        Z.lor VK_BUFFER_USAGE_STORAGE_BUFFER_BIT VK_BUFFER_USAGE_TRANSFER_DST_BIT
    | _ => usage
    end in
  rOut <- VK_CHECK_RESULT (vkCreateBuffer vk_device size usage);;
  let dev := set_bufferOut (Some (out rOut)) dev in
  SetObjectDebugName dev (out rOut) VK_OBJECT_TYPE_BUFFER (Some "Output Buffer");;;
  memoryRequirements <-
    Call (vkGetBufferMemoryRequirements vk_device (out rIn)) Ret;;
  let bufferMemoryType :=
    Z.lor VK_MEMORY_PROPERTY_HOST_VISIBLE_BIT
          VK_MEMORY_PROPERTY_HOST_COHERENT_BIT in
  physical <- read (physicalDevice dev);;
  let memoryTypeIndex :=
    FindMemoryType physical (to_uint32 (out memoryRequirements))
      bufferMemoryType in
  rMem <- VK_CHECK_RESULT
            (vkAllocateMemory vk_device (to_uint64 (memorySize dev))
               memoryTypeIndex);;
  let dev := set_bufferMemory (Some (out rMem)) dev in
  SetObjectDebugName dev (out rMem) VK_OBJECT_TYPE_DEVICE_MEMORY
    (Some "DeviceMemory for I/O");;;
  VK_CHECK_RESULT (vkBindBufferMemory vk_device (out rIn) (out rMem) 0);;;
  VK_CHECK_RESULT
    (vkBindBufferMemory vk_device (out rOut) (out rMem)
       (to_uint64 (bufferSize dev)));;;
  match initialization with
  | None_ => Ret (dev, contents rMem)
  | _ =>
      VK_CHECK_RESULT (vkMapMemory vk_device (out rMem) 0 VK_WHOLE_SIZE);;;
      match initialize_buffers initialization (numBufferEntries dev)
              (contents rMem) with
      | Some mem =>
          Call (vkUnmapMemory vk_device (out rMem)) (fun _ => Ret (dev, mem))
      | None => Crash
      end
  end.

(* ===================================================================== *)
(** ** Device initialisation *)
(* ===================================================================== *)

(** [CreateShader]: always returns [true] once the module exists. *)
Definition CreateShader (vk_device : Handle) (code : list Z) (codeSize : Z)
    : Prog (bool * Handle) :=
  r <- VK_CHECK_RESULT (vkCreateShaderModule vk_device code codeSize);;
  Ret (true, out r).

(** [LoadShader]: the second component is the value of the [shader]
    reference afterwards; [shader] is what it held before. *)
Definition LoadShader (host : Host) (vk_device : Handle) (filename : string)
    (shader : option Handle) : Prog (bool * option Handle) :=
  match files host filename with
  | FileMissing => Ret (false, shader)
  | FileNoLength => Ret (false, shader)
  | FileBytes buffer =>
      r <- CreateShader vk_device buffer (Z.of_nat (length buffer));;
      Ret (fst r, Some (snd r))
  end.

(** The locals the queue-request loop of [InitVulkanDevice] maintains. *)
Record QueueRequests := {
  queue_create_infos : list VkDeviceQueueCreateInfo;
  queue_indices : list (Z * Z);
  create_info_indices : gmap Z nat
}.

Definition no_QueueRequests : QueueRequests :=
  {| queue_create_infos := []; queue_indices := []; create_info_indices := ∅ |}.

(** One iteration of [for (auto queue_type : *queues)]. *)
Definition request_queue (physical : VkPhysicalDevice) (priorities : nat)
    (st : QueueRequests) (queue_type : QueueType) : QueueRequests :=
  let queue_family_index := SelectQueue physical queue_type in
  let st :=
    match create_info_indices st !! queue_family_index with
    | Some _ => st
    | None =>
        let queue_info :=
          {| qci_queueFamilyIndex := queue_family_index;
             qci_queueCount := 0;
             qci_queuePriorities := priorities |} in
        {| queue_create_infos := queue_create_infos st ++ [queue_info];
           queue_indices := queue_indices st;
           create_info_indices :=
             <[queue_family_index := length (queue_create_infos st)]>
               (create_info_indices st) |}
    end in
  let create_info_index :=
    default O (create_info_indices st !! queue_family_index) in
  match queue_create_infos st !! create_info_index with
  | Some info =>
      let queue_index := qci_queueCount info in
      {| queue_create_infos :=
           <[create_info_index :=
               {| qci_queueFamilyIndex := qci_queueFamilyIndex info;
                  qci_queueCount := to_uint32 (qci_queueCount info + 1);
                  qci_queuePriorities := qci_queuePriorities info |}]>
             (queue_create_infos st);
         queue_indices :=
           queue_indices st ++ [(queue_family_index, queue_index)];
         create_info_indices := create_info_indices st |}
  | None => st
  end.

(** [for (auto queue_index : queue_indices)]: fetch each queue and create
    its command pool. *)
Fixpoint create_queues (vk_device : Handle) (indices : list (Z * Z))
    (dev : VulkanDevice) : Prog VulkanDevice :=
  match indices with
  | [] => Ret dev
  | queue_index :: rest =>
      q <- Call (vkGetDeviceQueue vk_device (fst queue_index)
                   (snd queue_index)) Ret;;
      let dev := set_queues (queues dev ++ [out q]) dev in
      pool <- VK_CHECK_RESULT (vkCreateCommandPool vk_device (fst queue_index));;
      let dev := set_commandPools (commandPools dev ++ [out pool]) dev in
      create_queues vk_device rest dev
  end.

Definition storage_binding (b : Z) : VkDescriptorSetLayoutBinding :=
  {| binding := b;
     descriptorType := VK_DESCRIPTOR_TYPE_STORAGE_BUFFER;
     descriptorCount := 1;
     stageFlags := VK_SHADER_STAGE_ALL |}.

(** The block under [if (nullptr != shader_module_path)]. *)
Definition build_compute_pipeline (host : Host) (vk_device : Handle)
    (shader_module_path : string) (dev : VulkanDevice) : Prog VulkanDevice :=
  loaded <- LoadShader host vk_device shader_module_path
              (computeShaderModule dev);;
  let dev := set_computeShaderModule (snd loaded) dev in
  let descriptorPoolSizes := [(VK_DESCRIPTOR_TYPE_STORAGE_BUFFER, 2)] in
  pool <- VK_CHECK_RESULT
            (vkCreateDescriptorPool vk_device 2 descriptorPoolSizes);;
  let dev := set_descriptorPool (Some (out pool)) dev in
  let descriptorSetLayoutBindings := [storage_binding 0; storage_binding 1] in
  layout <- VK_CHECK_RESULT
              (vkCreateDescriptorSetLayout vk_device
                 descriptorSetLayoutBindings);;
  let dev := set_descriptorSetLayout (Some (out layout)) dev in
  playout <- VK_CHECK_RESULT
               (vkCreatePipelineLayout vk_device [descriptorSetLayout dev]);;
  let dev := set_pipelineLayout (Some (out playout)) dev in
  SetObjectDebugName dev (out playout) VK_OBJECT_TYPE_PIPELINE_LAYOUT
    (Some "Default PipelineLayout");;;
  let pipelineCreateInfo :=
    {| cp_flags := 0;
       cp_stage := VK_SHADER_STAGE_COMPUTE_BIT;
       cp_module := computeShaderModule dev;
       cp_pName := "main";
       cp_layout := pipelineLayout dev |} in
  pipe <- VK_CHECK_RESULT
            (vkCreateComputePipelines vk_device VK_NULL_HANDLE
               [pipelineCreateInfo]);;
  let dev := set_pipeline (Some (out pipe)) dev in
  SetObjectDebugName dev (out pipe) VK_OBJECT_TYPE_PIPELINE
    (Some "Default ComputePipeline");;;
  Ret dev.

(** [context->devices.push_back(device); return vk_device;] *)
Definition register_device (context : VulkanContext) (dev : VulkanDevice)
    : Prog (VulkanContext * Handle) :=
  Ret (set_devices (devices context ++ [dev]) context, device dev).

(** Returns the context as the call leaves it and the [VkDevice] handle.
    The second enumeration passes [physicalDevices.data()], which is null
    when the vector is empty.  The per-device property queries of the
    logging loop have no effect and are left out, and so is [pNext] of the
    device description: the structure it is pointed at for
    VK_KHR_timeline_semaphore is a local of a block that has ended when
    [vkCreateDevice] is called. *)
Definition InitVulkanDevice (host : Host) (context : VulkanContext)
    (device_extensions : option (list string))
    (shader_module_path : option string)
    (queues_ : option (list QueueType)) : Prog (VulkanContext * Handle) :=
  queues_ <-
    match queues_ with
    | Some qs => Ret qs
    | None =>
        queue_type <- QueueTypeFromString (GetFlag host "--queue") Graphics;;
        Ret [queue_type]
    end;;
  VK_CHECK_RESULT (vkEnumeratePhysicalDevices (instance context) false);;;
  let physicalDevices := gpus host in
  VK_CHECK_RESULT
    (vkEnumeratePhysicalDevices (instance context)
       match physicalDevices with [] => false | _ :: _ => true end);;;
  match physicalDevices with
  | [] => Crash                                  (* front() of an empty vector *)
  | physical :: _ =>
      let context := set_ctx_physicalDevice (Some physical) context in
      let requests :=
        fold_left (request_queue physical (length queues_)) queues_
          no_QueueRequests in
      let deviceInfo :=
        {| pQueueCreateInfos := queue_create_infos requests;
           queueCreateInfoCount :=
             to_uint32 (Z.of_nat (length (queue_create_infos requests)));
           ppEnabledExtensionNames := device_extensions |} in
      let dev := default_VulkanDevice in
      created <- VK_CHECK_RESULT
                   (vkCreateDevice (physical_handle physical) deviceInfo);;
      let dev := set_device (out created) dev in
      let dev := set_physicalDevice (Some physical) dev in
      let vk_device := device dev in
      marker <- Call (vkGetDeviceProcAddr vk_device
                        "vkCmdWriteBufferMarkerAMD") Ret;;
      let dev := set_CmdWriteBufferMarkerAMD (out marker) dev in
      signal <- Call (vkGetDeviceProcAddr vk_device "vkSignalSemaphoreKHR") Ret;;
      let dev := set_SignalSemaphoreKHR (out signal) dev in
      wait <- Call (vkGetDeviceProcAddr vk_device "vkWaitSemaphoresKHR") Ret;;
      let dev := set_WaitSemaphoresKHR (out wait) dev in
      dev <-
        match GetFlag host "--debug_utils" with
        | Some _ =>
            name <- Call (vkGetDeviceProcAddr vk_device
                            "vkSetDebugUtilsObjectNameEXT") Ret;;
            Ret (set_SetDebugUtilsObjectNameEXT
                   (DriverSetDebugUtilsObjectNameEXT (out name)) dev)
        | None =>
            Ret (set_SetDebugUtilsObjectNameEXT
                   DummySetDebugUtilsObjectNameEXT dev)
        end;;
      SetObjectDebugName dev vk_device VK_OBJECT_TYPE_DEVICE
        (Some "Default Device");;;
      SetObjectDebugName dev (instance context) VK_OBJECT_TYPE_INSTANCE
        (Some "Default Instance");;;
      SetObjectDebugName dev (physical_handle physical)
        VK_OBJECT_TYPE_PHYSICAL_DEVICE (Some "Default PhysicalDevice");;;
      match queue_indices requests with
      | [] => register_device context dev
      | _ :: _ =>
          dev <- create_queues vk_device (queue_indices requests) dev;;
          let dev := set_queue (head (queues dev)) dev in
          SetObjectDebugName dev (default 0 (queue dev)) VK_OBJECT_TYPE_QUEUE
            (Some "Default Queue");;;
          let dev := set_commandPool (head (commandPools dev)) dev in
          SetObjectDebugName dev (default 0 (commandPool dev))
            VK_OBJECT_TYPE_COMMAND_POOL (Some "Default CommandPool");;;
          dev <-
            match shader_module_path with
            | Some path => build_compute_pipeline host vk_device path dev
            | None => Ret dev
            end;;
          register_device context dev
      end
  end.

(* ===================================================================== *)
(** ** The crash-check envelope *)
(* ===================================================================== *)

(** [VulkanContext::GetSingleDevice]. *)
Definition GetSingleDevice (ctx : VulkanContext) : Prog VulkanDevice :=
  match devices ctx with
  | [dev] => Ret dev
  | _ => AssertFail
  end.

(** [constexpr std::chrono::nanoseconds kFenceTimeout = 30s;] and its
    [count()]. *)
Definition kFenceTimeout : Z := 30 * 1000000000.

(** [f] is the payload.  It receives the context by reference; the context
    it returns is the one the envelope's [device] pointer is read through
    afterwards. *)
Definition RunWithCrashCheck (ctx : VulkanContext)
    (f : VulkanContext -> Prog VulkanContext) : Prog VkResult :=
  dev <- GetSingleDevice ctx;;
  pool <- read (commandPool dev);;
  VK_RETURN_IF_FAIL
    (vkAllocateCommandBuffers (device dev) pool
       VK_COMMAND_BUFFER_LEVEL_PRIMARY 1) (fun allocated =>
  let cb := out allocated in
  SetObjectDebugName dev cb VK_OBJECT_TYPE_COMMAND_BUFFER
    (Some "Hang/crash detection CommandBuffer");;;
  VK_RETURN_IF_FAIL
    (vkBeginCommandBuffer cb VK_COMMAND_BUFFER_USAGE_ONE_TIME_SUBMIT_BIT)
    (fun _ =>
  VK_RETURN_IF_FAIL (vkEndCommandBuffer cb) (fun _ =>
  VK_RETURN_IF_FAIL (vkCreateFence (device dev)) (fun created =>
  let fence := out created in
  SetObjectDebugName dev fence VK_OBJECT_TYPE_FENCE
    (Some "Hang/crash detection Fence");;;
  ctx <- f ctx;;
  dev <- read (head (devices ctx));;
  queue_ <- read (queue dev);;
  VK_RETURN_IF_FAIL (vkQueueWaitIdle queue_) (fun _ =>
  submit_info <-
    CreateSubmitInfo (Some {| loc := Local "cb"; pointee := [cb] |})
      None None None None;;
  queue_ <- read (queue dev);;
  VK_RETURN_IF_FAIL (vkQueueSubmit queue_ [submit_info] fence) (fun _ =>
  VK_RETURN_IF_FAIL
    (vkWaitForFences (device dev) [fence] true kFenceTimeout) (fun _ =>
  queue_ <- read (queue dev);;
  final <- Call (vkQueueWaitIdle queue_) Ret;;
  Ret (result final)))))))).

(* ===================================================================== *)
(** ** The watchdog *)
(* ===================================================================== *)

Module Watchdog.

(** [std::cv_status], the value [wait_for] returns. *)
Inductive cv_status := no_timeout | timeout.

(** Where the thread running [WatchdogTimer] is. *)
Inductive ThreadState :=
| Running            (* blocked in test_is_finished.wait_for *)
| NotifiedFinished   (* wait_for returned no_timeout; the thread returned *)
| TimedOut.          (* wait_for returned timeout; the thread called exit *)

(** A [std::thread] started on [WatchdogTimer]. *)
Record Thread := {
  deadline_ms : Z;             (* the argument test_termination_timer_ms *)
  state : ThreadState
}.

Inductive AtExitHandler := atexit_WaitForWatchdogThread.

(** The process-wide state the watchdog code touches. *)
Record Process := {
  watchdog_thread : option nat;   (* static std::thread*: index in threads *)
  test_timedout : bool;           (* static std::atomic<bool> *)
  threads : list Thread;          (* every std::thread constructed *)
  atexit_handlers : list AtExitHandler;   (* in registration order *)
  exit_status : option Z          (* set once exit() has run *)
}.

(** Static initialisation: null pointer, flag false. *)
Definition initial_process : Process :=
  {| watchdog_thread := None; test_timedout := false; threads := [];
     atexit_handlers := []; exit_status := None |}.

Definition set_thread_state (i : nat) (s : ThreadState) (p : Process)
    : Process :=
  {| watchdog_thread := watchdog_thread p;
     test_timedout := test_timedout p;
     threads :=
       match threads p !! i with
       | Some t =>
           <[i := {| deadline_ms := deadline_ms t; state := s |}]> (threads p)
       | None => threads p
       end;
     atexit_handlers := atexit_handlers p;
     exit_status := exit_status p |}.

(** The state of the thread [watchdog_thread] points at. *)
Definition watchdog_state (p : Process) : option ThreadState :=
  match watchdog_thread p with
  | Some i => state <$> threads p !! i
  | None => None
  end.

(** [WaitForWatchdogThread]: notify and join, unless the watchdog has
    fired.  A watchdog that is blocked in [wait_for] when it is notified
    leaves it with [no_timeout] and returns, after which the join
    completes.  [wait_for] is called without a predicate, so a
    notification sent before the thread has got there is lost; that
    interleaving is not part of this model, where a thread is blocked in
    [wait_for] from the moment it is started. *)
Definition WaitForWatchdogThread (p : Process) : Process :=
  if test_timedout p then p
  else
    match watchdog_thread p with
    | Some i =>
        match state <$> threads p !! i with
        | Some Running => set_thread_state i NotifiedFinished p
        | _ => p
        end
    | None => p
    end.

Definition run_handler (h : AtExitHandler) (p : Process) : Process :=
  match h with
  | atexit_WaitForWatchdogThread => WaitForWatchdogThread p
  end.

(** [exit(status)]: the registered handlers run, last registered first,
    then the process ends with [status]. *)
Definition exit (status : Z) (p : Process) : Process :=
  let p' := fold_left (fun q h => run_handler h q)
              (rev (atexit_handlers p)) p in
  {| watchdog_thread := watchdog_thread p';
     test_timedout := test_timedout p';
     threads := threads p';
     atexit_handlers := atexit_handlers p';
     exit_status := Some status |}.

(** [WatchdogTimer], run by thread [i], from the moment [wait_for]
    returns [status] to it. *)
Definition WatchdogTimer (i : nat) (status : cv_status) (p : Process)
    : Process :=
  match state <$> threads p !! i with
  | Some Running =>
      match status with
      | timeout =>
          let p :=
            {| watchdog_thread := watchdog_thread p;
               test_timedout := true;
               threads := threads p;
               atexit_handlers := atexit_handlers p;
               exit_status := exit_status p |} in
          exit 0 (set_thread_state i TimedOut p)
      | no_timeout => set_thread_state i NotifiedFinished p
      end
  | _ => p                     (* the thread is no longer waiting *)
  end.

Definition SetupWatchdogTimer (context : VulkanContext) (p : Process)
    : Process :=
  match watchdog_thread p with
  | None =>
      {| watchdog_thread := Some (length (threads p));
         test_timedout := test_timedout p;
         threads :=
           threads p ++
             [{| deadline_ms := test_termination_timer_ms context;
                 state := Running |}];
         atexit_handlers :=
           atexit_handlers p ++ [atexit_WaitForWatchdogThread];
         exit_status := exit_status p |}
  | Some _ => p
  end.

End Watchdog.

(* ===================================================================== *)
(** ** Sample inputs *)
(* ===================================================================== *)

(** A machine with a graphics+compute+transfer family, a compute+transfer
    family and a transfer-only family. *)
Definition three_family_gpu : VkPhysicalDevice :=
  {| physical_handle := 1;
     deviceName := "gpu0";
     queueFamilyProperties :=
       [ {| queueFlags := 7; queueCount := 1 |};
         {| queueFlags := 6; queueCount := 2 |};
         {| queueFlags := 4; queueCount := 1 |} ];
     memoryTypes :=
       [ {| propertyFlags := 1; heapIndex := 0 |};
         {| propertyFlags := 6; heapIndex := 1 |};
         {| propertyFlags := 14; heapIndex := 1 |} ] |}.

(** A context as [VulkanContext context;] leaves it, and one whose
    watchdog deadline was shortened to 5 ms. *)
Definition started_context : VulkanContext :=
  {| instance := 1; ctx_physicalDevice := None; devices := [];
     apiVersion := 4194304; instanceExtensions := []; instanceLayers := [];
     test_termination_timer_ms := kTestTerminationTimerMsDefault |}.

Definition impatient_context : VulkanContext :=
  {| instance := 2; ctx_physicalDevice := None; devices := [];
     apiVersion := 4194304; instanceExtensions := []; instanceLayers := [];
     test_termination_timer_ms := 5 |}.

(** Two wait semaphores with two stage masks, one signal semaphore, and a
    stage-mask vector that is one entry short. *)
Definition two_semaphores : vector Handle :=
  {| storage := 4096; elems := [11; 12] |}.
Definition two_masks : vector Z :=
  {| storage := 8192; elems := [1; 2048] |}.
Definition one_mask : vector Z :=
  {| storage := 8192; elems := [1] |}.
Definition one_signal : vector Handle :=
  {| storage := 12288; elems := [13] |}.
Definition a_command_buffer : option (ptr Handle) :=
  Some {| loc := Local "commandBuffer"; pointee := [21] |}.

(** The relation the default member initialisers of [VulkanDevice]
    establish between the buffer members, within the range of [int]. *)
Definition layout_as_initialised (dev : VulkanDevice) : Prop :=
  0 <= numBufferEntries dev /\
  bufferSize dev = sizeof_float * numBufferEntries dev /\
  memorySize dev = 2 * bufferSize dev /\
  memorySize dev < 2 ^ 31.

(** The event is a call of [vkMapMemory]. *)
Definition maps_memory (e : Event) : bool :=
  match fst e with
  | vkMapMemory _ _ _ _ => true
  | _ => false
  end.

(** A driver that lets every call succeed, numbers the objects it hands
    out, and hands out allocations filled with 0xFF bytes. *)
Definition obliging_driver : Driver :=
  fun hist c =>
    Some {| result := VK_SUCCESS;
            out := 100 + Z.of_nat (length hist);
            contents :=
              match c with
              | vkAllocateMemory _ allocationSize _ =>
                  repeat 255 (Z.to_nat allocationSize)
              | _ => []
              end |}.

(** A device as [InitVulkanDevice] registers it for one graphics queue on
    [three_family_gpu], without a kernel. *)
Definition plain_device : VulkanDevice :=
  set_commandPool (Some 31) (set_commandPools [31]
    (set_queue (Some 30) (set_queues [30]
      (set_physicalDevice (Some three_family_gpu)
        (set_device 7 default_VulkanDevice))))).





(* ===================================================================== *)
(** ** The crash-check protocol in terms of traces *)
(* ===================================================================== *)

(** The event is a call that attaches a debug name to an object. *)
Definition is_debug_name (e : Event) : Prop :=
  match fst e with
  | vkSetDebugUtilsObjectNameEXT _ _ _ _ => True
  | _ => False
  end.

(** Calls that only attach a debug name to an object; their result is
    ignored by [SetObjectDebugName]. *)
Definition names_object (e : Event) : bool :=
  match fst e with
  | vkSetDebugUtilsObjectNameEXT _ _ _ _ => true
  | _ => false
  end.

(** A trace without its naming calls. *)
Definition own (t : list Event) : list Event :=
  List.filter (fun e => negb (names_object e)) t.

(** The call returned VK_SUCCESS. *)
Definition succeeded (e : Event) : Prop :=
  exists r : Reply, snd e = Some r /\ result r = VK_SUCCESS.




(** The pointer was resolved: naming an object can be attempted. *)
Definition naming_resolved (dev : VulkanDevice) : Prop :=
  match SetDebugUtilsObjectNameEXT dev with
  | DummySetDebugUtilsObjectNameEXT => True
  | DriverSetDebugUtilsObjectNameEXT proc => proc <> 0
  end.


(** The descriptor that submits just the sentinel. *)
Definition sentinel_submit (cb : Handle) : VkSubmitInfo :=
  {| sType := VK_STRUCTURE_TYPE_SUBMIT_INFO; pNext := None;
     waitSemaphoreCount := 0; pWaitSemaphores := None;
     pWaitDstStageMask := None;
     commandBufferCount := 1;
     pCommandBuffers := Some {| loc := Local "cb"; pointee := [cb] |};
     signalSemaphoreCount := 0; pSignalSemaphores := None |}.


(** A context holding just [plain_device]. *)
Definition single_device_context : VulkanContext :=
  set_devices [plain_device] started_context.

(** A payload that submits one command buffer and returns. *)
Definition submitting_payload (ctx : VulkanContext) : Prog VulkanContext :=
  Call (vkQueueSubmit 30 [sentinel_submit 77] VK_NULL_HANDLE)
    (fun _ => Ret ctx).

(** A driver on which the device is lost by the time the fence is waited
    for: everything succeeds, except that [vkWaitForFences] reports
    VK_ERROR_DEVICE_LOST. *)
Definition losing_driver : Driver :=
  fun hist c =>
    Some {| result :=
              match c with
              | vkWaitForFences _ _ _ _ => VK_ERROR_DEVICE_LOST
              | _ => VK_SUCCESS
              end;
            out := 100 + Z.of_nat (length hist);
            contents := [] |}.




(* ===================================================================== *)
(** ** What "the kernel's pipeline was built" means *)
(* ===================================================================== *)

(** The compute pipeline description [InitVulkanDevice] submits. *)
Definition main_pipeline_info (module_ layout : Handle)
    : VkComputePipelineCreateInfo :=
  {| cp_flags := 0;
     cp_stage := VK_SHADER_STAGE_COMPUTE_BIT;
     cp_module := Some module_;
     cp_pName := "main";
     cp_layout := Some layout |}.

(** In [trace], on device [vk]: a shader module was created from [code],
    a descriptor set layout with storage-buffer bindings 0 and 1, a
    pipeline layout over that set layout, and a compute pipeline from the
    module's "main" with that pipeline layout; every creation succeeded and
    [d] holds the four handles. *)
Definition kernel_pipeline_built (vk : Handle) (code : list Z)
    (d : VulkanDevice) (trace : list Event) : Prop :=
  exists rm rl rpl rp : Reply,
    (vkCreateShaderModule vk code (Z.of_nat (length code)), Some rm) ∈ trace /\
    result rm = VK_SUCCESS /\
    computeShaderModule d = Some (out rm) /\
    (vkCreateDescriptorSetLayout vk [storage_binding 0; storage_binding 1],
     Some rl) ∈ trace /\
    result rl = VK_SUCCESS /\
    descriptorSetLayout d = Some (out rl) /\
    (vkCreatePipelineLayout vk [Some (out rl)], Some rpl) ∈ trace /\
    result rpl = VK_SUCCESS /\
    pipelineLayout d = Some (out rpl) /\
    (vkCreateComputePipelines vk VK_NULL_HANDLE
       [main_pipeline_info (out rm) (out rpl)], Some rp) ∈ trace /\
    result rp = VK_SUCCESS /\
    pipeline d = Some (out rp).

(** Nothing of a kernel is on the device record. *)
Definition no_kernel_pipeline (d : VulkanDevice) : Prop :=
  computeShaderModule d = None /\ descriptorPool d = None /\
  descriptorSetLayout d = None /\ pipelineLayout d = None /\
  pipeline d = None.

(** The event is one of the creations of the kernel block: the shader
    module, the descriptor pool, the descriptor set layout, the pipeline
    layout or the compute pipeline. *)
Definition creates_kernel_object (e : Event) : bool :=
  match fst e with
  | vkCreateShaderModule _ _ _ => true
  | vkCreateDescriptorPool _ _ _ => true
  | vkCreateDescriptorSetLayout _ _ => true
  | vkCreatePipelineLayout _ _ => true
  | vkCreateComputePipelines _ _ _ => true
  | _ => false
  end.

(** Every family index recorded in [create_info_indices] points into
    [queue_create_infos]. *)
Definition requests_ok (st : QueueRequests) : Prop :=
  forall (family : Z) (i : nat),
    create_info_indices st !! family = Some i ->
    (i < length (queue_create_infos st))%nat.

(** A machine with [three_family_gpu], no flags on the command line, and
    one kernel file of eight bytes. *)
Definition kernel_host : Host :=
  {| flag_values := ∅;
     gpus := [three_family_gpu];
     files := fun name =>
       if decide (name = "read_write.comp.spv")
       then FileBytes [3; 2; 35; 7; 0; 0; 1; 0]
       else FileMissing |}.

(* ===================================================================== *)
(** ** Command-line flags *)
(* ===================================================================== *)

(** [struct Flags], the object behind [GlobalFlags()]: [names] maps a
    flag to its help string, [values] maps a flag given on the command
    line to its value. *)
Record Flags := {
  names : gmap string string;
  values : gmap string string
}.

(** [GlobalFlags().names[name] = help;] *)
Definition DefineFlag (name help : string) (flags : Flags) : Flags :=
  {| names := <[name := help]> (names flags); values := values flags |}.

Definition CommonFlags (flags : Flags) : Flags :=
  DefineFlag "--debug_utils" "Add debug utils names and labels."
    (DefineFlag "--secondary" "Use secondary command buffer."
       (DefineFlag "--queue"
          "Type of queue to use, can be graphics/compute/transfer." flags)).

(** [PrintHelpAndExit]: what it prints goes to stderr; it ends the
    process with EXIT_FAILURE whatever [flag] is. *)
Definition PrintHelpAndExit {A : Type} (flags : Flags) (flag : option string)
    : Prog A :=
  Exit EXIT_FAILURE.

(** [std::string::find(char)]: the position of the first occurrence,
    [None] for [npos]. *)
Fixpoint find_char (c : Ascii.ascii) (s : string) : option nat :=
  match s with
  | EmptyString => None
  | String a rest =>
      if decide (a = c) then Some O else S <$> find_char c rest
  end.

(** [s.substr(pos)] and [s.substr(0, n)] for positions inside [s]. *)
Definition substr_from (pos : nat) (s : string) : string :=
  String.substring pos (String.length s - pos) s.

Definition substr_to (n : nat) (s : string) : string := String.substring 0 n s.

(** The character ['='], code 61. *)
Definition equals_sign : Ascii.ascii := Ascii.ascii_of_nat 61.

(** The key [k] and the value [v] the loop of [InitFlags] reads off one
    argument. *)
Definition flag_key_value (arg : string) : string * string :=
  match find_char equals_sign arg with
  | Some eqidx => (substr_to eqidx arg, substr_from (eqidx + 1) arg)
  | None => (arg, EmptyString)
  end.

(** [for (int i = 1; i < argc; i++)] over the arguments still to read. *)
Fixpoint InitFlags_loop (args : list string) (flags : Flags) : Prog Flags :=
  match args with
  | [] => Ret flags
  | arg :: rest =>
      let k := fst (flag_key_value arg) in
      let v := snd (flag_key_value arg) in
      match names flags !! k with
      | None => PrintHelpAndExit flags (Some k)
      | Some _ =>
          InitFlags_loop rest
            {| names := names flags; values := <[k := v]> (values flags) |}
      end
  end.

(** [argv] holds [argc] strings; [argv[0]] is the program's name. *)
Definition InitFlags (argv : list string) (flags : Flags) : Prog Flags :=
  InitFlags_loop (drop 1 argv) (CommonFlags flags).

(** The value the command line gives [key]: that of the last argument
    whose key it is. *)
Definition given_value (key : string) (args : list string) : option string :=
  last (omap (fun arg =>
                if decide (fst (flag_key_value arg) = key)
                then Some (snd (flag_key_value arg)) else None) args).

(** No ['='] occurs in [s]. *)
Fixpoint no_equals_sign (s : string) : Prop :=
  match s with
  | EmptyString => True
  | String a rest => a <> equals_sign /\ no_equals_sign rest
  end.

(** A program started without flags of its own. *)
Definition no_flags : Flags := {| names := ∅; values := ∅ |}.

(** A host whose parsed command line is [flags]. *)
Definition host_of (flags : Flags) : Host :=
  {| flag_values := values flags; gpus := [three_family_gpu];
     files := fun _ => FileMissing |}.

(* ===================================================================== *)
(** ** The devices of a context *)
(* ===================================================================== *)

(** [VulkanContext::GetDevice]: the pointer it returns is the position in
    [devices] of the first device with that handle, [None] for nullptr. *)
Definition GetDevice (ctx : VulkanContext) (vk_device : Handle) : option nat :=
  let it := find_if (fun d => device d =? vk_device) (devices ctx) in
  if decide (it < length (devices ctx))%nat then Some it else None.

(* ===================================================================== *)
(** ** The calls behind the input/output buffers *)
(* ===================================================================== *)

(** The usage the input and the output buffer are created with. *)
Definition input_usage (initialization : BufferInitialization) : Z :=
  match initialization with
  | Transfer_ =>
      Z.lor VK_BUFFER_USAGE_STORAGE_BUFFER_BIT VK_BUFFER_USAGE_TRANSFER_SRC_BIT
  | _ => VK_BUFFER_USAGE_STORAGE_BUFFER_BIT
  end.

Definition output_usage (initialization : BufferInitialization) : Z :=
  match initialization with
  | Transfer_ =>
      Z.lor VK_BUFFER_USAGE_STORAGE_BUFFER_BIT VK_BUFFER_USAGE_TRANSFER_DST_BIT
  | _ => VK_BUFFER_USAGE_STORAGE_BUFFER_BIT
  end.

(** Host-visible and host-coherent, the properties asked of the memory. *)
Definition host_memory_properties : Z :=
  Z.lor VK_MEMORY_PROPERTY_HOST_VISIBLE_BIT VK_MEMORY_PROPERTY_HOST_COHERENT_BIT.

(** The driver calls of a completed [AllocateInputOutputBuffers], debug
    names aside, given the handles and the memory-type mask the driver
    handed out. *)
Definition buffer_calls (dev : VulkanDevice) (physical : VkPhysicalDevice)
    (initialization : BufferInitialization)
    (bufferIn_ bufferOut_ typeBits memory : Z) : list VkCall :=
  [ vkCreateBuffer (device dev) (to_uint64 (bufferSize dev))
      (input_usage initialization);
    vkCreateBuffer (device dev) (to_uint64 (bufferSize dev))
      (output_usage initialization);
    vkGetBufferMemoryRequirements (device dev) bufferIn_;
    vkAllocateMemory (device dev) (to_uint64 (memorySize dev))
      (FindMemoryType physical (to_uint32 typeBits) host_memory_properties);
    vkBindBufferMemory (device dev) bufferIn_ memory 0;
    vkBindBufferMemory (device dev) bufferOut_ memory
      (to_uint64 (bufferSize dev)) ] ++
  match initialization with
  | None_ => []
  | _ => [ vkMapMemory (device dev) memory 0 VK_WHOLE_SIZE;
           vkUnmapMemory (device dev) memory ]
  end.

(** A physical device none of whose memory types is host-visible. *)
Definition device_local_gpu : VkPhysicalDevice :=
  {| physical_handle := 2;
     deviceName := "gpu1";
     queueFamilyProperties := [ {| queueFlags := 7; queueCount := 1 |} ];
     memoryTypes := [ {| propertyFlags := 1; heapIndex := 0 |} ] |}.

Definition device_local_device : VulkanDevice :=
  set_physicalDevice (Some device_local_gpu) plain_device.

(* ===================================================================== *)
(** ** What the queue-request loop computes *)
(* ===================================================================== *)

(** How often family [f] occurs in [fams]. *)
Definition occurrences (f : Z) (fams : list Z) : nat :=
  length (filter (fun g => g = f) fams).

(** The (family, index in family) pair of each request: the index is the
    number of earlier requests for the same family. *)
Definition queue_slots (fams : list Z) : list (Z * Z) :=
  imap (fun i f => (f, Z.of_nat (occurrences f (take i fams)))) fams.

(** What the loop maintains after the requests for [fams]. *)
Definition requests_match (priorities : nat) (fams : list Z)
    (st : QueueRequests) : Prop :=
  queue_indices st = queue_slots fams /\
  NoDup (qci_queueFamilyIndex <$> queue_create_infos st) /\
  (forall (f : Z) (i : nat),
      create_info_indices st !! f = Some i <->
      (qci_queueFamilyIndex <$> queue_create_infos st) !! i = Some f) /\
  (forall f : Z,
      f ∈ fams <-> f ∈ qci_queueFamilyIndex <$> queue_create_infos st) /\
  (forall info : VkDeviceQueueCreateInfo,
      info ∈ queue_create_infos st ->
      qci_queueCount info
        = Z.of_nat (occurrences (qci_queueFamilyIndex info) fams) /\
      qci_queuePriorities info = priorities).

(* ===================================================================== *)
(** ** What device initialisation leaves behind *)
(* ===================================================================== *)

(** The queue types a call of [InitVulkanDevice] works with: the ones it
    was given, or the one the [--queue] flag names. *)
Definition requested_queues (host : Host) (queues_ : option (list QueueType))
    (qs : list QueueType) : Prop :=
  match queues_ with
  | Some l => qs = l
  | None =>
      exists queue_type : QueueType,
        QueueTypeFromString (GetFlag host "--queue") Graphics
          = Ret queue_type /\
        qs = [queue_type]
  end.

(** Two devices agree on everything but what belongs to the kernel. *)
Definition same_queues (d d' : VulkanDevice) : Prop :=
  device d' = device d /\
  physicalDevice d' = physicalDevice d /\
  queues d' = queues d /\
  queue d' = queue d /\
  commandPools d' = commandPools d /\
  commandPool d' = commandPool d /\
  SetDebugUtilsObjectNameEXT d' = SetDebugUtilsObjectNameEXT d.

(** The event is a call of [vkCreateShaderModule]. *)
Definition creates_shader_module (e : Event) : bool :=
  match fst e with
  | vkCreateShaderModule _ _ _ => true
  | _ => false
  end.

(** A driver that has no [vkSetDebugUtilsObjectNameEXT] to offer: it
    answers that lookup with a null address and lets every other call
    succeed. *)
Definition driver_without_debug_utils : Driver :=
  fun hist c =>
    Some {| result := VK_SUCCESS;
            out := match c with
                   | vkGetDeviceProcAddr _ name =>
                       if decide (name = "vkSetDebugUtilsObjectNameEXT")
                       then 0 else 100 + Z.of_nat (length hist)
                   | _ => 100 + Z.of_nat (length hist)
                   end;
            contents := [] |}.

(** A machine like [kernel_host] whose command line gave [--debug_utils],
    and one on which no physical device is found. *)
Definition debug_utils_host : Host :=
  {| flag_values := {[ "--debug_utils" := EmptyString ]};
     gpus := [three_family_gpu];
     files := files kernel_host |}.

Definition host_without_gpu : Host :=
  {| flag_values := ∅; gpus := []; files := files kernel_host |}.

(* ===================================================================== *)
(** ** Command buffers from the default pool *)
(* ===================================================================== *)

(** [AllocateDefaultCommandBuffer]: one command buffer of the given level
    from [pool], or from the device's default pool when [pool] is
    VK_NULL_HANDLE.  The reply carries the [VkResult] the function returns
    and the handle written to [*cb]. *)
Definition AllocateDefaultCommandBuffer (device_ : VulkanDevice)
    (level : VkCommandBufferLevel) (pool : Handle) : Prog Reply :=
  pool <- (if pool =? VK_NULL_HANDLE then read (commandPool device_)
           else Ret pool);;
  Call (vkAllocateCommandBuffers (device device_) pool level 1) Ret.

(* ===================================================================== *)
(** ** More of the driver's interface *)
(* ===================================================================== *)

Definition VK_SEMAPHORE_TYPE_BINARY_KHR : Z := 0.
Definition VK_SEMAPHORE_TYPE_TIMELINE_KHR : Z := 1.

(** [VkSemaphoreTypeCreateInfoKHR], and [VkSemaphoreCreateInfo] with the
    structure its [pNext] points at, if any. *)
Record VkSemaphoreTypeCreateInfoKHR := {
  semaphoreType : Z;
  initialValue : Z
}.

Record VkSemaphoreCreateInfo := {
  sci_pNext : option VkSemaphoreTypeCreateInfoKHR
}.

(** Further entry points of the driver: those the semaphore, recording
    and teardown functions of common.cc reach besides the ones of
    [VkCall]. *)
Inductive VkCallExt :=
| vkDestroyInstance (instance : Handle)
| vkDestroyDevice (dev : Handle)
| vkCreateSemaphore (dev : Handle) (info : VkSemaphoreCreateInfo)
| vkCmdExecuteCommands (cb : Handle) (commandBuffers : list Handle).

(** Host code over the whole interface: as [Prog], with a call drawn from
    either list of entry points. *)
Inductive ProgX (A : Type) : Type :=
| RetX (a : A)
| CallX (c : VkCall + VkCallExt) (k : Reply -> ProgX A)
| AssertFailX
| ExitX (status : Z)
| CrashX.
Arguments RetX {A} _.
Arguments CallX {A} _ _.
Arguments AssertFailX {A}.
Arguments ExitX {A} _.
Arguments CrashX {A}.

Fixpoint bindX {A B : Type} (p : ProgX A) (f : A -> ProgX B) : ProgX B :=
  match p with
  | RetX a => f a
  | CallX c k => CallX c (fun r => bindX (k r) f)
  | AssertFailX => AssertFailX
  | ExitX s => ExitX s
  | CrashX => CrashX
  end.

Declare Scope progx_scope.
Delimit Scope progx_scope with progx.
Notation "x <- p ;; q" := (bindX p (fun x => q))
  (at level 100, p at next level, right associativity) : progx_scope.
Notation "p ;;; q" := (bindX p (fun _ => q))
  (at level 100, right associativity) : progx_scope.

(** A [Prog] as a [ProgX]. *)
Fixpoint liftX {A : Type} (p : Prog A) : ProgX A :=
  match p with
  | Ret a => RetX a
  | Call c k => CallX (inl c) (fun r => liftX (k r))
  | AssertFail => AssertFailX
  | Exit s => ExitX s
  | Crash => CrashX
  end.

Definition EventX : Type := (VkCall + VkCallExt) * option Reply.

Definition DriverX : Type := list EventX -> VkCall + VkCallExt -> option Reply.

Fixpoint runX {A : Type} (drv : DriverX) (hist : list EventX) (p : ProgX A)
    : Outcome A * list EventX :=
  match p with
  | RetX a => (Done a, [])
  | CallX c k =>
      match drv hist c with
      | None => (Hung, [(c, None)])
      | Some r =>
          let '(o, t) := runX drv (hist ++ [(c, Some r)]) (k r) in
          (o, (c, Some r) :: t)
      end
  | AssertFailX => (Asserted, [])
  | ExitX s => (Exited s, [])
  | CrashX => (Crashed, [])
  end.

(** An event of a [Prog] among those of a [ProgX], and the driver a
    lifted program sees after [hist]. *)
Definition core_event (e : Event) : EventX := (inl (fst e), snd e).

Definition core_driver (drv : DriverX) (hist : list EventX) : Driver :=
  fun past c => drv (hist ++ (core_event <$> past)) (inl c).

(** [VK_CHECK_RESULT(f)] around a call of a function that returns a
    [VkResult]. *)
Definition VK_CHECK_RESULT_of (p : ProgX Reply) : ProgX Reply :=
  (r <- p;; if result r =? VK_SUCCESS then RetX r else AssertFailX)%progx.

(** Naming calls among the events of a [ProgX], and a trace without
    them. *)
Definition names_objectX (e : EventX) : bool :=
  match fst e with
  | inl (vkSetDebugUtilsObjectNameEXT _ _ _ _) => true
  | _ => false
  end.

Definition ownX (t : list EventX) : list EventX :=
  List.filter (fun e => negb (names_objectX e)) t.

(* ===================================================================== *)
(** ** Recording command buffers *)
(* ===================================================================== *)

(** [CreateAndRecordCommandBuffers].  [secondary] tells whether the
    [secondary] pointer is non-null.  Returns the [VkResult], the handle
    written to [*primary] and the one written to [*secondary], if any. *)
Definition CreateAndRecordCommandBuffers (host : Host)
    (device_ : VulkanDevice) (secondary : bool)
    (f : Handle -> ProgX unit) (debug_name : option string) (pool : Handle)
    : ProgX (VkResult * Handle * option Handle) :=
  (let secondary :=
     match GetFlag host "--secondary" with
     | None => false
     | Some _ => secondary
     end in
   allocated <- VK_CHECK_RESULT_of
                  (liftX (AllocateDefaultCommandBuffer device_
                            VK_COMMAND_BUFFER_LEVEL_PRIMARY pool));;
   let primary := out allocated in
   match debug_name with
   | Some n =>
       liftX (SetObjectDebugName device_ primary
                VK_OBJECT_TYPE_COMMAND_BUFFER
                (Some (n +:+ " Primary Command Buffer")))
   | None => RetX tt
   end;;;
   written <-
     (if secondary then
        allocated <- VK_CHECK_RESULT_of
                       (liftX (AllocateDefaultCommandBuffer device_
                                 VK_COMMAND_BUFFER_LEVEL_SECONDARY pool));;
        match debug_name with
        | Some n =>
            liftX (SetObjectDebugName device_ (out allocated)
                     VK_OBJECT_TYPE_COMMAND_BUFFER
                     (Some (n +:+ " Secondary Command Buffer")))
        | None => RetX tt
        end;;;
        RetX (Some (out allocated))
      else RetX None);;
   let cb := default primary written in
   liftX (VK_CHECK_RESULT
            (vkBeginCommandBuffer cb
               VK_COMMAND_BUFFER_USAGE_ONE_TIME_SUBMIT_BIT));;;
   f cb;;;
   liftX (VK_CHECK_RESULT (vkEndCommandBuffer cb));;;
   (if secondary then
      liftX (VK_CHECK_RESULT
               (vkBeginCommandBuffer primary
                  VK_COMMAND_BUFFER_USAGE_ONE_TIME_SUBMIT_BIT));;;
      CallX (inr (vkCmdExecuteCommands primary [cb])) (fun _ => RetX tt);;;
      liftX (VK_CHECK_RESULT (vkEndCommandBuffer primary));;;
      RetX tt
    else RetX tt);;;
   RetX (VK_SUCCESS, primary, written))%progx.

(** The calls of a recording, debug names aside, before and after those
    of the recorded function. *)
Definition recording_prologue (vk pool primary : Handle)
    (written : option Handle) : list (VkCall + VkCallExt) :=
  match written with
  | None =>
      [ inl (vkAllocateCommandBuffers vk pool VK_COMMAND_BUFFER_LEVEL_PRIMARY 1);
        inl (vkBeginCommandBuffer primary
               VK_COMMAND_BUFFER_USAGE_ONE_TIME_SUBMIT_BIT) ]
  | Some cb =>
      [ inl (vkAllocateCommandBuffers vk pool VK_COMMAND_BUFFER_LEVEL_PRIMARY 1);
        inl (vkAllocateCommandBuffers vk pool
               VK_COMMAND_BUFFER_LEVEL_SECONDARY 1);
        inl (vkBeginCommandBuffer cb
               VK_COMMAND_BUFFER_USAGE_ONE_TIME_SUBMIT_BIT) ]
  end.

Definition recording_epilogue (primary : Handle) (written : option Handle)
    : list (VkCall + VkCallExt) :=
  match written with
  | None => [ inl (vkEndCommandBuffer primary) ]
  | Some cb =>
      [ inl (vkEndCommandBuffer cb);
        inl (vkBeginCommandBuffer primary
               VK_COMMAND_BUFFER_USAGE_ONE_TIME_SUBMIT_BIT);
        inr (vkCmdExecuteCommands primary [cb]);
        inl (vkEndCommandBuffer primary) ]
  end.

(* ===================================================================== *)
(** ** Semaphores *)
(* ===================================================================== *)

(** [for (uint32_t i = 0; i < count; i++)] around one checked
    [vkCreateSemaphore]; returns what was written to [semaphores[i]]. *)
Fixpoint create_semaphores (vk_device : Handle) (info : VkSemaphoreCreateInfo)
    (count : nat) : ProgX (list Handle) :=
  match count with
  | O => RetX []
  | S count' =>
      (r <- VK_CHECK_RESULT_of
              (CallX (inr (vkCreateSemaphore vk_device info)) RetX);;
       rest <- create_semaphores vk_device info count';;
       RetX (out r :: rest))%progx
  end.

Definition CreateSemaphores (device_ : VulkanDevice) (count : Z) (type : Z)
    (initial_value : Z) : ProgX (list Handle) :=
  let vk_device := device device_ in
  if type =? VK_SEMAPHORE_TYPE_BINARY_KHR then
    create_semaphores vk_device {| sci_pNext := None |} (Z.to_nat count)
  else
    let semaphoreTypeCreateInfo :=
      {| semaphoreType := VK_SEMAPHORE_TYPE_TIMELINE_KHR;
         initialValue := initial_value |} in
    create_semaphores vk_device
      {| sci_pNext := Some semaphoreTypeCreateInfo |} (Z.to_nat count).

Definition CreateBinarySemaphores (device_ : VulkanDevice) (count : Z)
    : ProgX (list Handle) :=
  CreateSemaphores device_ count VK_SEMAPHORE_TYPE_BINARY_KHR 0.

Definition CreateTimelineSemaphores (device_ : VulkanDevice) (count : Z)
    (initial_value : Z) : ProgX (list Handle) :=
  CreateSemaphores device_ count VK_SEMAPHORE_TYPE_TIMELINE_KHR initial_value.

(* ===================================================================== *)
(** ** Taking devices and contexts down *)
(* ===================================================================== *)

(** The loop of [DeleteVulkanDevice]: erase the first device with that
    handle and stop. *)
Fixpoint erase_device (vk_device : Handle) (devices_ : list VulkanDevice)
    : list VulkanDevice :=
  match devices_ with
  | [] => []
  | d :: rest =>
      if device d =? vk_device then rest
      else d :: erase_device vk_device rest
  end.

Definition DeleteVulkanDevice (context : VulkanContext) (vk_device : Handle)
    : ProgX VulkanContext :=
  let context := set_devices (erase_device vk_device (devices context))
                   context in
  CallX (inr (vkDestroyDevice vk_device)) (fun _ => RetX context).

(** [for (auto& device : context->devices) vkDestroyDevice(...)] *)
Fixpoint destroy_devices (devices_ : list VulkanDevice) : ProgX unit :=
  match devices_ with
  | [] => RetX tt
  | d :: rest =>
      CallX (inr (vkDestroyDevice (device d))) (fun _ => destroy_devices rest)
  end.

Definition CleanupVulkan (context : VulkanContext) : ProgX VulkanContext :=
  (destroy_devices (devices context);;;
   let context := set_devices [] context in
   CallX (inr (vkDestroyInstance (instance context)))
     (fun _ => RetX context))%progx.

(* ===================================================================== *)
(** ** More sample inputs *)
(* ===================================================================== *)

(** A driver over the whole interface that lets every call succeed and
    numbers the objects it hands out. *)
Definition obliging_driverX : DriverX :=
  fun hist c =>
    Some {| result := VK_SUCCESS;
            out := 100 + Z.of_nat (length hist);
            contents := [] |}.

(** A machine whose command line gave [--secondary]. *)
Definition secondary_host : Host :=
  {| flag_values := {[ "--secondary" := EmptyString ]};
     gpus := [three_family_gpu];
     files := files kernel_host |}.

(** A payload that records nothing. *)
Definition empty_payload (cb : Handle) : ProgX unit := RetX tt.

(** A context with three devices, two of which share a handle. *)
Definition crowded_context : VulkanContext :=
  set_devices
    [ set_device 7 default_VulkanDevice;
      set_device 8 plain_device;
      set_device 7 plain_device ] started_context.


(* ##################################################################### *)
(** * Properties *)
(* ##################################################################### *)

(* ===================================================================== *)
(** ** Selection: proofs *)
(* ===================================================================== *)

Section Selection.

Lemma nonzero_true (z : Z) : nonzero z = true <-> z <> 0.
Proof.
  unfold nonzero. rewrite negb_true_iff. apply Z.eqb_neq.
Qed.

Lemma nonzero_false (z : Z) : nonzero z = false <-> z = 0.
Proof.
  unfold nonzero. rewrite negb_false_iff. apply Z.eqb_eq.
Qed.

Lemma land_graphics_bit (x : Z) :
  Z.land x VK_QUEUE_GRAPHICS_BIT = 0 \/
  Z.land x VK_QUEUE_GRAPHICS_BIT = VK_QUEUE_GRAPHICS_BIT.
Proof.
  unfold VK_QUEUE_GRAPHICS_BIT.
  change 1 with (Z.ones 1). rewrite Z.land_ones by lia.
  change (Z.ones 1) with 1. change (2 ^ 1) with 2.
  pose proof (Z.mod_pos_bound x 2). lia.
Qed.

Lemma queue_predicate_spec (queue_type : QueueType)
    (q : VkQueueFamilyProperties) :
  queue_predicate queue_type q = true <-> class_rule queue_type q.
Proof.
  unfold queue_predicate, class_rule, advertises.
  destruct queue_type;
    rewrite ?andb_true_iff, ?negb_true_iff, ?nonzero_true, ?nonzero_false,
      ?Z.eqb_eq;
    try (destruct (land_graphics_bit (queueFlags q)) as [E | E];
         rewrite E; unfold VK_QUEUE_GRAPHICS_BIT; split; intros; lia).
Qed.

Lemma find_if_le {A : Type} (p : A -> bool) (l : list A) :
  (find_if p l <= length l)%nat.
Proof.
  induction l as [| x l IH]; simpl; [lia |]. destruct (p x); lia.
Qed.

Lemma find_if_before {A : Type} (p : A -> bool) (l : list A) (j : nat) (x : A) :
  (j < find_if p l)%nat -> l !! j = Some x -> p x = false.
Proof.
  revert j. induction l as [| y l IH]; intros j Hj Hx; simpl in *; [lia |].
  destruct (p y) eqn:Ey; [lia |].
  destruct j as [| j]; simpl in Hx.
  - by inversion Hx; subst.
  - apply (IH j); [lia | done].
Qed.

Lemma find_if_found {A : Type} (p : A -> bool) (l : list A) :
  (find_if p l < length l)%nat ->
  exists x, l !! find_if p l = Some x /\ p x = true.
Proof.
  induction l as [| y l IH]; simpl; intros H; [lia |].
  destruct (p y) eqn:Ey.
  - exists y. by split.
  - simpl. apply IH. lia.
Qed.

Lemma land_shiftl_bit (bits i : Z) :
  0 <= i < 32 ->
  nonzero (Z.land bits (to_uint32 (Z.shiftl 1 i))) = Z.testbit bits i.
Proof.
  intros Hi. rewrite Z.shiftl_1_l. unfold to_uint32, UINT32_MOD.
  rewrite Z.mod_small
    by (split; [apply Z.pow_nonneg; lia | apply Z.pow_lt_mono_r; lia]).
  destruct (Z.testbit bits i) eqn:Eb.
  - apply nonzero_true. intros Hz.
    assert (Ht : Z.testbit (Z.land bits (2 ^ i)) i = true).
    { rewrite Z.land_spec, Eb, Z.pow2_bits_true by lia. reflexivity. }
    rewrite Hz, Z.bits_0 in Ht. discriminate.
  - apply nonzero_false. apply Z.bits_inj'. intros k Hk.
    rewrite Z.land_spec, Z.bits_0, Z.pow2_bits_eqb by lia.
    destruct (Z.eqb_spec i k) as [-> | Hne].
    + rewrite Eb. reflexivity.
    + apply andb_false_r.
Qed.

Lemma land_superset (a b : Z) : Z.land a b = b <-> flags_superset a b.
Proof.
  unfold flags_superset. split.
  - intros H k Hk Hb.
    assert (Hl : Z.testbit (Z.land a b) k = true) by (rewrite H; exact Hb).
    rewrite Z.land_spec in Hl. apply andb_true_iff in Hl. tauto.
  - intros H. apply Z.bits_inj'. intros k Hk. rewrite Z.land_spec.
    destruct (Z.testbit b k) eqn:Eb.
    + rewrite (H k Hk Eb). reflexivity.
    + apply andb_false_r.
Qed.

(** The test of one loop iteration is the specification's condition. *)
Lemma memory_type_test (bits props : Z) (i : nat) (t : VkMemoryType) :
  (i < 32)%nat ->
  nonzero (Z.land bits (to_uint32 (Z.shiftl 1 (Z.of_nat i)))) &&
    (Z.land (propertyFlags t) (to_uint32 props) =? to_uint32 props) = true
  <-> memory_type_ok bits props i t.
Proof.
  intros Hi. unfold memory_type_ok.
  rewrite andb_true_iff, land_shiftl_bit, Z.eqb_eq, land_superset by lia.
  reflexivity.
Qed.

Lemma FindMemoryType_loop_spec (bits props : Z) (types : list VkMemoryType) :
  forall base : nat,
    (base + length types <= 32)%nat ->
    (exists (i : nat) (t : VkMemoryType),
        FindMemoryType_loop types (Z.of_nat base) bits props
          = Z.of_nat (base + i) /\
        types !! i = Some t /\
        memory_type_ok bits props (base + i) t /\
        (forall (j : nat) (u : VkMemoryType),
            (j < i)%nat -> types !! j = Some u ->
            ~ memory_type_ok bits props (base + j) u))
    \/
    (FindMemoryType_loop types (Z.of_nat base) bits props = to_uint32 (-1) /\
     forall (j : nat) (u : VkMemoryType),
       types !! j = Some u -> ~ memory_type_ok bits props (base + j) u).
Proof.
  induction types as [| t rest IH]; intros base Hlen; simpl in *.
  - right. split; [reflexivity |]. intros j u Hj. discriminate.
  - destruct (nonzero _ && _) eqn:Etest.
    + left. exists O, t. rewrite Nat.add_0_r.
      apply memory_type_test in Etest; [| lia].
      split; [reflexivity |]. split; [reflexivity |]. split; [exact Etest |].
      intros j u Hj. lia.
    + assert (Hbad : ~ memory_type_ok bits props base t).
      { intros Hok. apply memory_type_test in Hok; [| lia]. congruence. }
      replace (Z.of_nat base + 1) with (Z.of_nat (S base)) by lia.
      destruct (IH (S base)) as [(i & u & Hr & Hu & Hok & Hlow) | [Hr Hnone]];
        [lia | |].
      * left. exists (S i), u.
        replace (base + S i)%nat with (S base + i)%nat by lia.
        split; [exact Hr |]. split; [exact Hu |]. split; [exact Hok |].
        intros [| j] v Hj Hv; simpl in Hv.
        -- inversion Hv; subst. by rewrite Nat.add_0_r.
        -- replace (base + S j)%nat with (S base + j)%nat by lia.
           apply (Hlow j v); [lia | done].
      * right. split; [done |].
        intros [| j] v Hv; simpl in Hv.
        -- inversion Hv; subst. by rewrite Nat.add_0_r.
        -- replace (base + S j)%nat with (S base + j)%nat by lia.
           by apply Hnone.
Qed.

End Selection.

(** C2.  [SelectQueue] returns the index of the first queue family that
    satisfies the rule of the requested class (Compute: compute without
    graphics; Transfer: transfer without graphics and compute; Graphics and
    anything else: graphics).  When no family satisfies it the result is
    the family count, an index past the end of the family list. *)
Theorem SelectQueue_first_match
    (physical_device : VkPhysicalDevice) (queue_type : QueueType) :
  let families := queueFamilyProperties physical_device in
  Z.of_nat (length families) < UINT32_MOD ->
  exists i : nat,
    SelectQueue physical_device queue_type = Z.of_nat i /\
    (forall (j : nat) (q : VkQueueFamilyProperties),
        (j < i)%nat -> families !! j = Some q -> ~ class_rule queue_type q) /\
    ((exists q, families !! i = Some q /\ class_rule queue_type q) \/
     (i = length families /\ families !! i = None)).
Proof.
  intros families Hcount.
  exists (find_if (queue_predicate queue_type) families).
  pose proof (find_if_le (queue_predicate queue_type) families) as Hle.
  split; [| split].
  - unfold SelectQueue, to_uint32. fold families.
    apply Z.mod_small. lia.
  - intros j q Hj Hq Hrule.
    apply queue_predicate_spec in Hrule.
    rewrite (find_if_before _ _ _ _ Hj Hq) in Hrule. discriminate.
  - destruct (decide (find_if (queue_predicate queue_type) families
                      < length families)%nat) as [Hlt | Hge].
    + left. destruct (find_if_found _ _ Hlt) as (q & Hq & Hp).
      exists q. split; [done |]. by apply queue_predicate_spec.
    + right. assert (E : find_if (queue_predicate queue_type) families
                         = length families) by lia.
      split; [done |]. rewrite E. apply lookup_ge_None. lia.
Qed.

Lemma SelectQueue_first_match_witness :
  exists i : nat,
    SelectQueue three_family_gpu Transfer = Z.of_nat i /\
    (forall (j : nat) (q : VkQueueFamilyProperties),
        (j < i)%nat ->
        queueFamilyProperties three_family_gpu !! j = Some q ->
        ~ class_rule Transfer q) /\
    ((exists q, queueFamilyProperties three_family_gpu !! i = Some q /\
                class_rule Transfer q) \/
     (i = length (queueFamilyProperties three_family_gpu) /\
      queueFamilyProperties three_family_gpu !! i = None)).
Proof.
  apply (SelectQueue_first_match three_family_gpu Transfer).
  vm_compute. reflexivity.
Defined.

(** C5.  [FindMemoryType] returns the lowest index whose bit is set in the
    type bitmask and whose property flags contain every required flag; when
    no memory type qualifies it returns (uint32_t)-1, which is no index of
    the memory-type table. *)
Theorem FindMemoryType_lowest_match
    (physical_device : VkPhysicalDevice) (memoryTypeBits memoryProperties : Z) :
  let types := memoryTypes physical_device in
  Z.of_nat (length types) <= VK_MAX_MEMORY_TYPES ->
  (exists (i : nat) (t : VkMemoryType),
      FindMemoryType physical_device memoryTypeBits memoryProperties
        = Z.of_nat i /\
      types !! i = Some t /\
      memory_type_ok memoryTypeBits memoryProperties i t /\
      (forall (j : nat) (u : VkMemoryType),
          (j < i)%nat -> types !! j = Some u ->
          ~ memory_type_ok memoryTypeBits memoryProperties j u))
  \/
  (FindMemoryType physical_device memoryTypeBits memoryProperties
     = 4294967295 /\
   Z.of_nat (length types) < 4294967295 /\
   forall (j : nat) (u : VkMemoryType),
     types !! j = Some u ->
     ~ memory_type_ok memoryTypeBits memoryProperties j u).
Proof.
  intros types Hcount. unfold VK_MAX_MEMORY_TYPES in Hcount.
  destruct (FindMemoryType_loop_spec memoryTypeBits memoryProperties types O)
    as [(i & t & Hr & Ht & Hok & Hlow) | [Hr Hnone]]; [simpl; lia | |].
  - left. exists i, t. simpl in Hr, Hok, Hlow.
    split; [exact Hr |]. split; [exact Ht |]. split; [exact Hok | exact Hlow].
  - right. split; [exact Hr |]. split; [lia | exact Hnone].
Qed.

Lemma FindMemoryType_lowest_match_witness :
  let types := memoryTypes three_family_gpu in
  (exists (i : nat) (t : VkMemoryType),
      FindMemoryType three_family_gpu 6 6 = Z.of_nat i /\
      types !! i = Some t /\
      memory_type_ok 6 6 i t /\
      (forall (j : nat) (u : VkMemoryType),
          (j < i)%nat -> types !! j = Some u -> ~ memory_type_ok 6 6 j u))
  \/
  (FindMemoryType three_family_gpu 6 6 = 4294967295 /\
   Z.of_nat (length types) < 4294967295 /\
   forall (j : nat) (u : VkMemoryType),
     types !! j = Some u -> ~ memory_type_ok 6 6 j u).
Proof.
  apply (FindMemoryType_lowest_match three_family_gpu 6 6).
  vm_compute. discriminate.
Defined.

(* ===================================================================== *)
(** ** The watchdog: proofs *)
(* ===================================================================== *)

Section WatchdogFacts.

Import Watchdog.

Lemma set_thread_state_lookup (i : nat) (s s0 : ThreadState) (p : Process) :
  state <$> threads p !! i = Some s0 ->
  state <$> threads (set_thread_state i s p) !! i = Some s.
Proof.
  intros H. unfold set_thread_state; simpl.
  destruct (threads p !! i) as [t |] eqn:Et; [| discriminate].
  rewrite list_lookup_insert_eq; [reflexivity |].
  by apply lookup_lt_Some in Et.
Qed.

(** Once the flag is set, the exit handlers leave the process alone. *)
Lemma handlers_after_timeout (hs : list AtExitHandler) (p : Process) :
  test_timedout p = true ->
  fold_left (fun q h => run_handler h q) hs p = p.
Proof.
  intros Hflag. induction hs as [| h hs IH]; simpl; [reflexivity |].
  assert (E : run_handler h p = p).
  { destruct h. unfold run_handler, WaitForWatchdogThread.
    by rewrite Hflag. }
  rewrite E. exact IH.
Qed.

(** A thread that has left [wait_for] takes no further step. *)
Lemma WatchdogTimer_finished (i : nat) (p : Process) (s : ThreadState) :
  state <$> threads p !! i = Some s -> s <> Running ->
  forall later : list cv_status,
    fold_left (fun q w => WatchdogTimer i w q) later p = p.
Proof.
  intros Hs Hne later. induction later as [| w later IH]; simpl; [done |].
  unfold WatchdogTimer at 2. rewrite Hs.
  destruct s; [congruence | exact IH | exact IH].
Qed.

Lemma SetupWatchdogTimer_started (context : VulkanContext) (p : Process) :
  is_Some (watchdog_thread (SetupWatchdogTimer context p)).
Proof.
  unfold SetupWatchdogTimer.
  destruct (watchdog_thread p) eqn:E; simpl; [rewrite E |]; eauto.
Qed.

Lemma SetupWatchdogTimer_noop (context : VulkanContext) (p : Process) :
  is_Some (watchdog_thread p) -> SetupWatchdogTimer context p = p.
Proof.
  intros [i Hi]. unfold SetupWatchdogTimer. by rewrite Hi.
Qed.

End WatchdogFacts.

(** C6.  From the running state the watchdog thread takes exactly one of
    two steps, decided by what [wait_for] returns, and never another one
    afterwards.  On [timeout] it ends timed-out: the process-wide flag is
    set and the process has exited with status 0.  On [no_timeout] it ends
    notified-finished: the flag and the exit status are what they were. *)
Theorem watchdog_one_directional
    (p : Watchdog.Process) (i : nat) (status : Watchdog.cv_status)
    (later : list Watchdog.cv_status) :
  Watchdog.watchdog_thread p = Some i ->
  Watchdog.watchdog_state p = Some Watchdog.Running ->
  let p' := Watchdog.WatchdogTimer i status p in
  fold_left (fun q w => Watchdog.WatchdogTimer i w q) later p' = p' /\
  match status with
  | Watchdog.timeout =>
      Watchdog.watchdog_state p' = Some Watchdog.TimedOut /\
      Watchdog.test_timedout p' = true /\
      Watchdog.exit_status p' = Some 0
  | Watchdog.no_timeout =>
      Watchdog.watchdog_state p' = Some Watchdog.NotifiedFinished /\
      Watchdog.test_timedout p' = Watchdog.test_timedout p /\
      Watchdog.exit_status p' = Watchdog.exit_status p
  end.
Proof.
  intros Hthread Hrun p'.
  unfold Watchdog.watchdog_state in Hrun. rewrite Hthread in Hrun.
  destruct status.
  - (* no_timeout *)
    assert (Hp' : p' = Watchdog.set_thread_state i Watchdog.NotifiedFinished p).
    { unfold p', Watchdog.WatchdogTimer. by rewrite Hrun. }
    assert (Hst : Watchdog.state <$> Watchdog.threads p' !! i
                  = Some Watchdog.NotifiedFinished).
    { rewrite Hp'. eapply set_thread_state_lookup, Hrun. }
    split.
    + by apply (WatchdogTimer_finished i p' Watchdog.NotifiedFinished).
    + unfold Watchdog.watchdog_state.
      replace (Watchdog.watchdog_thread p') with (Some i)
        by (rewrite Hp'; simpl; congruence).
      split; [exact Hst |]. rewrite Hp'. by simpl.
  - (* timeout *)
    set (q := Watchdog.set_thread_state i Watchdog.TimedOut
                {| Watchdog.watchdog_thread := Watchdog.watchdog_thread p;
                   Watchdog.test_timedout := true;
                   Watchdog.threads := Watchdog.threads p;
                   Watchdog.atexit_handlers := Watchdog.atexit_handlers p;
                   Watchdog.exit_status := Watchdog.exit_status p |}).
    assert (Hp' : p' = Watchdog.exit 0 q).
    { unfold p', Watchdog.WatchdogTimer. by rewrite Hrun. }
    assert (Hq : Watchdog.state <$> Watchdog.threads q !! i
                 = Some Watchdog.TimedOut).
    { unfold q. eapply set_thread_state_lookup. simpl. exact Hrun. }
    assert (Hfold :
      fold_left (fun r h => Watchdog.run_handler h r)
        (rev (Watchdog.atexit_handlers q)) q = q).
    { apply handlers_after_timeout. reflexivity. }
    assert (Hst : Watchdog.state <$> Watchdog.threads p' !! i
                  = Some Watchdog.TimedOut).
    { rewrite Hp'. unfold Watchdog.exit. rewrite Hfold. simpl. exact Hq. }
    split.
    + by apply (WatchdogTimer_finished i p' Watchdog.TimedOut).
    + unfold Watchdog.watchdog_state.
      replace (Watchdog.watchdog_thread p') with (Some i)
        by (rewrite Hp'; unfold Watchdog.exit; rewrite Hfold; simpl; congruence).
      split; [exact Hst |].
      rewrite Hp'. unfold Watchdog.exit. rewrite Hfold. by simpl.
Qed.

Lemma watchdog_one_directional_witness :
  let p := Watchdog.SetupWatchdogTimer started_context Watchdog.initial_process in
  let p' := Watchdog.WatchdogTimer 0 Watchdog.timeout p in
  fold_left (fun q w => Watchdog.WatchdogTimer 0 w q)
    [Watchdog.no_timeout; Watchdog.timeout] p' = p' /\
  (Watchdog.watchdog_state p' = Some Watchdog.TimedOut /\
   Watchdog.test_timedout p' = true /\
   Watchdog.exit_status p' = Some 0).
Proof.
  apply (watchdog_one_directional
           (Watchdog.SetupWatchdogTimer started_context Watchdog.initial_process)
           0%nat Watchdog.timeout [Watchdog.no_timeout; Watchdog.timeout]);
    reflexivity.
Defined.

(** C7.  Two calls of [SetupWatchdogTimer] on one context, in a process
    whose watchdog has not been started, start exactly one thread and
    register the exit handler once: the second call changes nothing. *)
Theorem SetupWatchdogTimer_twice
    (context : VulkanContext) (p : Watchdog.Process) :
  Watchdog.watchdog_thread p = None ->
  let once := Watchdog.SetupWatchdogTimer context p in
  let twice := Watchdog.SetupWatchdogTimer context once in
  twice = once /\
  Watchdog.threads twice =
    Watchdog.threads p ++
      [{| Watchdog.deadline_ms := test_termination_timer_ms context;
          Watchdog.state := Watchdog.Running |}] /\
  Watchdog.atexit_handlers twice =
    Watchdog.atexit_handlers p ++ [Watchdog.atexit_WaitForWatchdogThread].
Proof.
  intros Hnull once twice.
  assert (E : twice = once).
  { apply SetupWatchdogTimer_noop, SetupWatchdogTimer_started. }
  rewrite E. unfold once, Watchdog.SetupWatchdogTimer. rewrite Hnull.
  by simpl.
Qed.

Lemma SetupWatchdogTimer_twice_witness :
  let once := Watchdog.SetupWatchdogTimer started_context Watchdog.initial_process in
  let twice := Watchdog.SetupWatchdogTimer started_context once in
  twice = once /\
  Watchdog.threads twice =
    [] ++ [{| Watchdog.deadline_ms := 120000;
              Watchdog.state := Watchdog.Running |}] /\
  Watchdog.atexit_handlers twice =
    [] ++ [Watchdog.atexit_WaitForWatchdogThread].
Proof.
  apply (SetupWatchdogTimer_twice started_context Watchdog.initial_process).
  reflexivity.
Defined.

(** C10.  The guard is the process-wide [watchdog_thread] pointer, not a
    member of the context: after the first call has started the thread,
    calls on any contexts whatsoever change nothing, so the process has the
    one watchdog thread, and its deadline is the
    [test_termination_timer_ms] of the context of the first call. *)
Theorem watchdog_guard_is_process_global
    (first : VulkanContext) (others : list VulkanContext)
    (p : Watchdog.Process) :
  Watchdog.watchdog_thread p = None ->
  let started := Watchdog.SetupWatchdogTimer first p in
  let final :=
    fold_left (fun q c => Watchdog.SetupWatchdogTimer c q) others started in
  final = started /\
  Watchdog.threads final =
    Watchdog.threads p ++
      [{| Watchdog.deadline_ms := test_termination_timer_ms first;
          Watchdog.state := Watchdog.Running |}] /\
  Watchdog.watchdog_thread final = Some (length (Watchdog.threads p)).
Proof.
  intros Hnull started final.
  assert (E : final = started).
  { unfold final.
    assert (Hs : is_Some (Watchdog.watchdog_thread started))
      by apply SetupWatchdogTimer_started.
    clearbody started. induction others as [| c others IH]; simpl; [done |].
    rewrite (SetupWatchdogTimer_noop c started Hs). exact IH. }
  rewrite E. unfold started, Watchdog.SetupWatchdogTimer. rewrite Hnull.
  by simpl.
Qed.

Lemma watchdog_guard_is_process_global_witness :
  let started := Watchdog.SetupWatchdogTimer started_context Watchdog.initial_process in
  let final :=
    fold_left (fun q c => Watchdog.SetupWatchdogTimer c q)
      [impatient_context; started_context] started in
  final = started /\
  Watchdog.threads final =
    [] ++ [{| Watchdog.deadline_ms := 120000;
              Watchdog.state := Watchdog.Running |}] /\
  Watchdog.watchdog_thread final = Some O.
Proof.
  apply (watchdog_guard_is_process_global started_context
           [impatient_context; started_context] Watchdog.initial_process).
  reflexivity.
Defined.

(* ===================================================================== *)
(** ** The submission descriptor: proofs *)
(* ===================================================================== *)

(** Under C8 as written a mismatch of the two wait counts would go
    unnoticed; the assert in [CreateSubmitInfo] notices it: with two wait
    semaphores and one stage mask no descriptor is returned. *)
Lemma CreateSubmitInfo_checks_wait_counts :
  CreateSubmitInfo a_command_buffer (Some two_semaphores) (Some one_mask)
    None None = AssertFail /\
  ~ exists info : VkSubmitInfo,
      CreateSubmitInfo a_command_buffer (Some two_semaphores) (Some one_mask)
        None None = Ret info.
Proof.
  split; [reflexivity |]. intros [info H]. discriminate H.
Qed.

(** C8, amended.  With wait semaphores and stage masks of the same length N
    the descriptor has one command buffer, the given pointer; wait count N
    with both wait pointers at the storage of the given vectors; and the
    signal count and pointer of the signal vector (zero and null without
    one); [pNext] is the given chain.  With different lengths the assert
    fires and no descriptor is built. *)
Theorem CreateSubmitInfo_round_trip
    (command_buffer : option (ptr Handle))
    (wait_semaphores : vector Handle) (wait_dst_stage_masks : vector Z)
    (signal_semaphores : option (vector Handle)) (pnext : option Loc) :
  size wait_semaphores < UINT32_MOD ->
  (forall ss, signal_semaphores = Some ss -> size ss < UINT32_MOD) ->
  (size wait_semaphores = size wait_dst_stage_masks ->
   CreateSubmitInfo command_buffer (Some wait_semaphores)
     (Some wait_dst_stage_masks) signal_semaphores pnext =
   Ret {| sType := VK_STRUCTURE_TYPE_SUBMIT_INFO;
          pNext := pnext;
          waitSemaphoreCount := size wait_semaphores;
          pWaitSemaphores := Some (data wait_semaphores);
          pWaitDstStageMask := Some (data wait_dst_stage_masks);
          commandBufferCount := 1;
          pCommandBuffers := command_buffer;
          signalSemaphoreCount :=
            match signal_semaphores with Some ss => size ss | None => 0 end;
          pSignalSemaphores := data <$> signal_semaphores |}) /\
  (size wait_semaphores <> size wait_dst_stage_masks ->
   CreateSubmitInfo command_buffer (Some wait_semaphores)
     (Some wait_dst_stage_masks) signal_semaphores pnext = AssertFail).
Proof.
  intros Hw Hs.
  assert (Hsz : forall A (v : vector A), 0 <= size v) by (intros; unfold size; lia).
  split; intros Hlen; unfold CreateSubmitInfo.
  - rewrite (proj2 (Z.eqb_eq _ _) Hlen). simpl.
    unfold to_uint32. rewrite Z.mod_small by (split; [apply Hsz | exact Hw]).
    destruct signal_semaphores as [ss |]; simpl; [| reflexivity].
    rewrite Z.mod_small by (split; [apply Hsz | by apply Hs]).
    reflexivity.
  - rewrite (proj2 (Z.eqb_neq _ _) Hlen). reflexivity.
Qed.

Lemma CreateSubmitInfo_round_trip_witness :
  (size two_semaphores = size two_masks ->
   CreateSubmitInfo a_command_buffer (Some two_semaphores)
     (Some two_masks) (Some one_signal) (Some (Local "timeline")) =
   Ret {| sType := VK_STRUCTURE_TYPE_SUBMIT_INFO;
          pNext := Some (Local "timeline");
          waitSemaphoreCount := size two_semaphores;
          pWaitSemaphores := Some (data two_semaphores);
          pWaitDstStageMask := Some (data two_masks);
          commandBufferCount := 1;
          pCommandBuffers := a_command_buffer;
          signalSemaphoreCount := size one_signal;
          pSignalSemaphores := data <$> Some one_signal |}) /\
  (size two_semaphores <> size two_masks ->
   CreateSubmitInfo a_command_buffer (Some two_semaphores)
     (Some two_masks) (Some one_signal) (Some (Local "timeline"))
   = AssertFail).
Proof.
  apply (CreateSubmitInfo_round_trip a_command_buffer two_semaphores
           two_masks (Some one_signal) (Some (Local "timeline"))).
  - vm_compute. reflexivity.
  - intros ss E. inversion E; subst. vm_compute. reflexivity.
Defined.

(* ===================================================================== *)
(** ** Programs and traces: how [run] decomposes *)
(* ===================================================================== *)

Section RunFacts.

Context {A B : Type}.

Lemma run_bind (drv : Driver) (p : Prog A) (f : A -> Prog B) :
  forall hist : list Event,
    run drv hist (bind p f) =
    match run drv hist p with
    | (Done a, t) =>
        let '(o, t') := run drv (hist ++ t) (f a) in (o, t ++ t')
    | (Asserted, t) => (Asserted, t)
    | (Exited st, t) => (Exited st, t)
    | (Crashed, t) => (Crashed, t)
    | (Hung, t) => (Hung, t)
    end.
Proof.
  induction p as [a | c k IH | | st |]; intros hist; simpl; try reflexivity.
  - rewrite app_nil_r. by destruct (run drv hist (f a)).
  - destruct (drv hist c) as [r |]; [| reflexivity].
    rewrite IH.
    destruct (run drv (hist ++ [(c, Some r)]) (k r)) as [[a | | st | |] t];
      try reflexivity.
    rewrite <- app_assoc. simpl. unfold Event.
    match goal with
    | |- context [run ?d ?h ?q] => by destruct (run d h q)
    end.
Qed.

(** A sequence that ran to completion: both halves did. *)
Lemma run_bind_Done (drv : Driver) (p : Prog A) (f : A -> Prog B)
    (hist : list Event) (b : B) (t : list Event) :
  run drv hist (bind p f) = (Done b, t) ->
  exists (a : A) (t1 t2 : list Event),
    run drv hist p = (Done a, t1) /\
    run drv (hist ++ t1) (f a) = (Done b, t2) /\
    t = t1 ++ t2.
Proof.
  rewrite run_bind.
  destruct (run drv hist p) as [[a | | st | |] t1]; try discriminate.
  destruct (run drv (hist ++ t1) (f a)) as [o t2] eqn:E2.
  intros H. inversion H; subst. by exists a, t1, t2.
Qed.

End RunFacts.

Lemma run_check_Done (drv : Driver) (hist : list Event) (c : VkCall)
    (r : Reply) (t : list Event) :
  run drv hist (VK_CHECK_RESULT c) = (Done r, t) ->
  drv hist c = Some r /\ result r = VK_SUCCESS /\ t = [(c, Some r)].
Proof.
  unfold VK_CHECK_RESULT. simpl.
  destruct (drv hist c) as [r' |]; [| discriminate].
  destruct (Z.eqb_spec (result r') VK_SUCCESS) as [E | E]; simpl;
    [| discriminate].
  intros H. by inversion H; subst.
Qed.

Lemma run_call_Done (drv : Driver) (hist : list Event) (c : VkCall)
    (r : Reply) (t : list Event) :
  run drv hist (Call c Ret) = (Done r, t) ->
  drv hist c = Some r /\ t = [(c, Some r)].
Proof.
  simpl. destruct (drv hist c) as [r' |]; [| discriminate].
  intros H. by inversion H; subst.
Qed.

Lemma run_read_Done {A : Type} (drv : Driver) (hist : list Event)
    (member : option A) (v : A) (t : list Event) :
  run drv hist (read member) = (Done v, t) -> member = Some v /\ t = [].
Proof.
  destruct member as [x |]; simpl; [| discriminate].
  intros H. by inversion H; subst.
Qed.

(** Naming an object adds nothing to the trace but naming calls. *)
Lemma run_SetObjectDebugName (drv : Driver) (hist : list Event)
    (dev : VulkanDevice) (handle : Z) (type : VkObjectType)
    (name : option string) (o : Outcome unit) (t : list Event) :
  run drv hist (SetObjectDebugName dev handle type name) = (o, t) ->
  Forall is_debug_name t.
Proof.
  unfold SetObjectDebugName.
  destruct name as [n |]; simpl; [| intros H; inversion H; constructor].
  destruct (SetDebugUtilsObjectNameEXT dev) as [| proc]; simpl;
    [intros H; inversion H; constructor |].
  destruct (proc =? 0); simpl; [intros H; inversion H; constructor |].
  destruct (drv hist _) as [r |]; intros H; inversion H; subst;
    repeat constructor.
Qed.

(* --------------------------------------------------------------------- *)
(** *** Traces without their naming calls *)

Lemma own_app (a b : list Event) : own (a ++ b) = own a ++ own b.
Proof. apply List.filter_app. Qed.


Lemma own_cons (e : Event) (t : list Event) :
  names_object e = false -> own (e :: t) = e :: own t.
Proof. intros H. unfold own. simpl. by rewrite H. Qed.

Lemma own_cons_name (e : Event) (t : list Event) :
  names_object e = true -> own (e :: t) = own t.
Proof. intros H. unfold own. simpl. by rewrite H. Qed.

Lemma own_debug_names (t : list Event) : Forall is_debug_name t -> own t = [].
Proof.
  induction 1 as [| e t He _ IH]; [reflexivity |].
  rewrite own_cons_name; [exact IH |].
  unfold is_debug_name in He. unfold names_object. by destruct (fst e).
Qed.

Lemma own_elem_of (e : Event) (t : list Event) : e ∈ own t -> e ∈ t.
Proof.
  rewrite !list_elem_of_In. unfold own. rewrite filter_In. tauto.
Qed.

Lemma elem_of_own (e : Event) (t : list Event) :
  e ∈ t -> names_object e = true \/ e ∈ own t.
Proof.
  intros He. destruct (names_object e) eqn:E; [by left | right].
  rewrite list_elem_of_In. unfold own. rewrite filter_In.
  rewrite <- list_elem_of_In. by rewrite E.
Qed.

(** With the local no-op in place of the driver's entry point, naming an
    object calls nothing. *)
Lemma run_SetObjectDebugName_Dummy (drv : Driver) (hist : list Event)
    (dev : VulkanDevice) (handle : Z) (type : VkObjectType)
    (name : option string) :
  SetDebugUtilsObjectNameEXT dev = DummySetDebugUtilsObjectNameEXT ->
  run drv hist (SetObjectDebugName dev handle type name) = (Done tt, []).
Proof.
  intros Hd. unfold SetObjectDebugName. rewrite Hd. by destruct name.
Qed.

(* ===================================================================== *)
(** ** Mapped memory: proofs *)
(* ===================================================================== *)

Section Memory.

Lemma bytes_recombine (w : Z) :
  byte_of w 0 + 256 * byte_of w 1 + 256 ^ 2 * byte_of w 2
    + 256 ^ 3 * byte_of w 3 = to_uint32 w.
Proof.
  unfold byte_of, to_uint32, UINT32_MOD.
  change (256 ^ 0) with 1. rewrite Z.div_1_r.
  change (2 ^ 32) with (256 * (256 * (256 * 256))).
  rewrite (Z.rem_mul_r w 256 (256 * (256 * 256))) by lia.
  rewrite (Z.rem_mul_r (w / 256) 256 (256 * 256)) by lia.
  rewrite (Z.rem_mul_r (w / 256 / 256) 256 256) by lia.
  rewrite !Z.div_div by lia.
  change (256 ^ 1) with 256. change (256 ^ 2) with (256 * 256).
  change (256 ^ 3) with (256 * 256 * 256).
  lia.
Qed.

Lemma store32_inv (mem mem' : list Z) (a : nat) (w : Z) :
  store32 mem a w = Some mem' ->
  (a + 4 <= length mem)%nat /\
  length mem' = length mem /\
  load32 mem' a = Some (to_uint32 w) /\
  forall k : nat, (k < a \/ a + 4 <= k)%nat -> mem' !! k = mem !! k.
Proof.
  unfold store32. case_decide as Hfit; [| discriminate].
  intros H. inversion H; subst; clear H.
  split; [exact Hfit |]. split; [by rewrite !length_insert |]. split.
  - unfold load32.
    rewrite (list_lookup_insert_ne _ (a + 3)%nat a) by lia.
    rewrite (list_lookup_insert_ne _ (a + 2)%nat a) by lia.
    rewrite (list_lookup_insert_ne _ (a + 1)%nat a) by lia.
    rewrite (list_lookup_insert_eq _ a) by lia.
    rewrite (list_lookup_insert_ne _ (a + 3)%nat (a + 1)%nat) by lia.
    rewrite (list_lookup_insert_ne _ (a + 2)%nat (a + 1)%nat) by lia.
    rewrite (list_lookup_insert_eq _ (a + 1)%nat)
      by (rewrite !length_insert; lia).
    rewrite (list_lookup_insert_ne _ (a + 3)%nat (a + 2)%nat) by lia.
    rewrite (list_lookup_insert_eq _ (a + 2)%nat)
      by (rewrite !length_insert; lia).
    rewrite (list_lookup_insert_eq _ (a + 3)%nat)
      by (rewrite !length_insert; lia).
    by rewrite bytes_recombine.
  - intros k Hk. rewrite !list_lookup_insert_ne by lia. reflexivity.
Qed.

(** A load only looks at its four bytes. *)
Lemma load32_frame (mem mem' : list Z) (a : nat) :
  (forall k : nat, (a <= k < a + 4)%nat -> mem' !! k = mem !! k) ->
  load32 mem' a = load32 mem a.
Proof.
  intros H. unfold load32.
  by rewrite (H a), (H (a + 1)%nat), (H (a + 2)%nat), (H (a + 3)%nat) by lia.
Qed.

Lemma fill_loop_Some (value : Z -> Z) (count : nat) :
  forall (i : Z) (p : nat) (mem mem' : list Z),
    fill_loop count i p value mem = Some mem' ->
    length mem' = length mem /\
    (forall j : nat, (j < count)%nat ->
        load32 mem' (p + 4 * j)%nat
          = Some (to_uint32 (value (i + Z.of_nat j)))) /\
    (forall k : nat, (k < p \/ p + 4 * count <= k)%nat ->
        mem' !! k = mem !! k).
Proof.
  induction count as [| count IH]; intros i p mem mem' H; simpl in H.
  - inversion H; subst. split; [done |]. split; [intros j Hj; lia | done].
  - destruct (store32 mem p (value i)) as [m1 |] eqn:Es; [| discriminate].
    destruct (store32_inv _ _ _ _ Es) as (Hfit & Hlen1 & Hload1 & Hframe1).
    destruct (IH _ _ _ _ H) as (Hlen & Hloads & Hframe).
    split; [congruence |]. split.
    + intros [| j] Hj.
      * rewrite Nat.mul_0_r, Nat.add_0_r, Z.add_0_r.
        rewrite <- Hload1. apply load32_frame.
        intros k Hk. apply Hframe. lia.
      * replace (p + 4 * S j)%nat with (p + 4 + 4 * j)%nat by lia.
        replace (i + Z.of_nat (S j)) with (i + 1 + Z.of_nat j) by lia.
        apply Hloads. lia.
    + intros k Hk. rewrite Hframe by lia. apply Hframe1. lia.
Qed.

Lemma fill_Some (value : Z -> Z) (n : Z) (p : nat) (mem mem' : list Z) :
  fill n p value mem = Some mem' ->
  length mem' = length mem /\
  (forall i : Z, 0 <= i < n ->
      load32 mem' (p + Z.to_nat (sizeof_float * i))%nat
        = Some (to_uint32 (value i))) /\
  (forall k : nat, (k < p \/ p + Z.to_nat (sizeof_float * n) <= k)%nat ->
      mem' !! k = mem !! k).
Proof.
  unfold fill, sizeof_float. intros H.
  destruct (fill_loop_Some _ _ _ _ _ _ H) as (Hlen & Hloads & Hframe).
  split; [exact Hlen |]. split.
  - intros i Hi.
    replace (Z.to_nat (4 * i)) with (4 * Z.to_nat i)%nat by lia.
    rewrite Hloads by lia. do 3 f_equal. lia.
  - intros k Hk. apply Hframe. lia.
Qed.

(** What the initialisation block leaves in the mapped bytes: the output
    half reads as zeros, the input half as the mode prescribes. *)
Lemma initialize_buffers_Some (mode : BufferInitialization) (n : Z)
    (mem0 mem : list Z) :
  initialize_buffers mode n mem0 = Some mem ->
  (forall j : Z, 0 <= j < n ->
      load32 mem (Z.to_nat (sizeof_float * n + sizeof_float * j)) = Some 0) /\
  (forall i : Z, 0 <= i < n ->
      match mode with
      | Default =>
          load32 mem (Z.to_nat (sizeof_float * i))
            = Some (to_uint32 (F32.bits (default_entry i)))
      | MinusOne =>
          load32 mem (Z.to_nat (sizeof_float * i)) = Some 3212836864
      | _64K =>
          load32 mem (Z.to_nat (sizeof_float * i)) = Some 65535
      | _ => True
      end).
Proof.
  unfold initialize_buffers. intros H.
  destruct (match mode with
            | Default => fill n 0 (fun i => F32.bits (default_entry i)) mem0
            | MinusOne => fill n 0 (fun _ => F32.bits (F32.of_int (-1))) mem0
            | _64K => fill n 0 (fun _ => 65535) mem0
            | _ => Some mem0
            end) as [m1 |] eqn:Ein; [| discriminate].
  destruct (fill_Some _ _ _ _ _ H) as (Hlen & Hzero & Hframe).
  split.
  - intros j Hj. unfold sizeof_float in *.
    replace (Z.to_nat (4 * n + 4 * j))
      with (Z.to_nat (4 * n) + Z.to_nat (4 * j))%nat by lia.
    by rewrite (Hzero j Hj).
  - intros i Hi.
    assert (Hkeep : load32 mem (Z.to_nat (sizeof_float * i))
                    = load32 m1 (Z.to_nat (sizeof_float * i))).
    { apply load32_frame. intros k Hk. apply Hframe.
      unfold sizeof_float in *. lia. }
    destruct mode; try exact I;
      destruct (fill_Some _ _ _ _ _ Ein) as (_ & Hin & _);
      rewrite Hkeep; specialize (Hin i Hi); simpl in Hin; exact Hin.
Qed.




End Memory.

(* ===================================================================== *)
(** ** The input/output buffers: proofs *)
(* ===================================================================== *)


(** The calls a completed [AllocateInputOutputBuffers] made, with their
    replies. *)
Lemma AllocateInputOutputBuffers_calls (drv : Driver) (hist : list Event)
    (dev : VulkanDevice) (mode : BufferInitialization)
    (dev' : VulkanDevice) (mem : list Z) (trace : list Event) :
  run drv hist (AllocateInputOutputBuffers dev mode)
    = (Done (dev', mem), trace) ->
  exists (physical : VkPhysicalDevice)
         (rIn rOut rReq rMem rBindIn rBindOut : Reply),
    physicalDevice dev = Some physical /\
    dev' = set_bufferMemory (Some (out rMem))
             (set_bufferOut (Some (out rOut))
                (set_bufferIn (Some (out rIn)) dev)) /\
    Forall (fun r => result r = VK_SUCCESS)
      [rIn; rOut; rMem; rBindIn; rBindOut] /\
    exists rest : list Event,
      own trace =
        zip (buffer_calls dev physical mode (out rIn) (out rOut)
               (out rReq) (out rMem))
            (Some <$> [rIn; rOut; rReq; rMem; rBindIn; rBindOut]) ++ rest /\
      match mode with
      | None_ => rest = [] /\ mem = contents rMem
      | _ =>
          exists rMap rUnmap : Reply,
            rest = [ (vkMapMemory (device dev) (out rMem) 0 VK_WHOLE_SIZE,
                      Some rMap);
                     (vkUnmapMemory (device dev) (out rMem), Some rUnmap) ] /\
            result rMap = VK_SUCCESS /\
            initialize_buffers mode (numBufferEntries dev) (contents rMem)
              = Some mem
      end.
Proof.
  intros H. unfold AllocateInputOutputBuffers in H. cbv zeta in H.
  apply run_bind_Done in H as (rIn & t1 & ? & H1 & H & ->).
  apply run_check_Done in H1 as (_ & HrIn & ->).
  apply run_bind_Done in H as (u1 & t2 & ? & H2 & H & ->).
  apply run_SetObjectDebugName, own_debug_names in H2.
  apply run_bind_Done in H as (rOut & t3 & ? & H3 & H & ->).
  apply run_check_Done in H3 as (_ & HrOut & ->).
  apply run_bind_Done in H as (u2 & t4 & ? & H4 & H & ->).
  apply run_SetObjectDebugName, own_debug_names in H4.
  apply run_bind_Done in H as (rReq & t5 & ? & H5 & H & ->).
  apply run_call_Done in H5 as (_ & ->).
  apply run_bind_Done in H as (physical & t6 & ? & H6 & H & ->).
  apply run_read_Done in H6 as (Hphys & ->).
  apply run_bind_Done in H as (rMem & t7 & ? & H7 & H & ->).
  apply run_check_Done in H7 as (_ & HrMem & ->).
  apply run_bind_Done in H as (u3 & t8 & ? & H8 & H & ->).
  apply run_SetObjectDebugName, own_debug_names in H8.
  apply run_bind_Done in H as (rBindIn & t9 & ? & H9 & H & ->).
  apply run_check_Done in H9 as (_ & HokIn & ->).
  apply run_bind_Done in H as (rBindOut & t10 & ? & H10 & H & ->).
  apply run_check_Done in H10 as (_ & HokOut & ->).
  exists physical, rIn, rOut, rReq, rMem, rBindIn, rBindOut.
  simpl physicalDevice in Hphys. simpl bufferSize. simpl numBufferEntries in H.
  split; [exact Hphys |].
  match type of H with
  | run _ ?h _ = _ => set (past := h) in H; clearbody past
  end.
  assert (Hown : forall tail : list Event,
    own ([(vkCreateBuffer (device dev) (to_uint64 (bufferSize dev))
             (input_usage mode), Some rIn)] ++ t2 ++
         [(vkCreateBuffer (device dev) (to_uint64 (bufferSize dev))
             (output_usage mode), Some rOut)] ++ t4 ++
         [(vkGetBufferMemoryRequirements (device dev) (out rIn),
           Some rReq)] ++ [] ++
         [(vkAllocateMemory (device dev) (to_uint64 (memorySize dev))
             (FindMemoryType physical (to_uint32 (out rReq))
                host_memory_properties), Some rMem)] ++ t8 ++
         [(vkBindBufferMemory (device dev) (out rIn) (out rMem) 0,
           Some rBindIn)] ++
         [(vkBindBufferMemory (device dev) (out rOut) (out rMem)
             (to_uint64 (bufferSize dev)), Some rBindOut)] ++ tail)
    = zip (buffer_calls dev physical mode (out rIn) (out rOut)
             (out rReq) (out rMem))
          (Some <$> [rIn; rOut; rReq; rMem; rBindIn; rBindOut]) ++ own tail).
  { intros tail. rewrite !own_app, H2, H4, H8.
    rewrite !own_cons by reflexivity. by destruct mode. }
  split; [| split].
  - destruct mode; cbv iota in H;
      try (apply run_bind_Done in H as (rMap & t11 & ? & H11 & H & ->);
           destruct (initialize_buffers _ _ _); [| discriminate];
           simpl in H; destruct (drv _ _));
      by inversion H.
  - by repeat constructor.
  - exists (own x0). split.
    + rewrite <- Hown. by destruct mode.
    + destruct mode; cbv iota in H; [by inversion H | ..];
        (apply run_bind_Done in H as (rMap & t11 & ? & H11 & H & ->);
         apply run_check_Done in H11 as (_ & HrMap & ->);
         destruct (initialize_buffers _ _ _) as [m |] eqn:E; [| discriminate];
         simpl in H; destruct (drv _ _) as [rUnmap |]; [| discriminate];
         inversion H; subst; exists rMap, rUnmap;
         split; [reflexivity | by split]).
Qed.





(* --------------------------------------------------------------------- *)
(** *** binary32: when [2 + i * 2.0f] is exact *)

Section Float.















End Float.


(** With mode [None] nothing is mapped or written: on a driver whose
    allocations come filled with 0xFF, the first element of the output
    region reads 0xFFFFFFFF after a successful call, not zero. *)
Lemma output_region_untouched_without_initialization :
  exists (dev' : VulkanDevice) (mem : list Z) (trace : list Event),
    run obliging_driver [] (AllocateInputOutputBuffers plain_device None_)
      = (Done (dev', mem), trace) /\
    load32 mem (Z.to_nat (bufferSize plain_device)) = Some 4294967295 /\
    load32 mem (Z.to_nat (bufferSize plain_device)) <> Some 0.
Proof.
  eexists _, _, _. split; [vm_compute; reflexivity |].
  split; [vm_compute; reflexivity | vm_compute; discriminate].
Qed.

(** C3, amended.  After a successful call on a device whose buffer members
    are related as the struct initialises them, both buffers are bound to
    the one allocation [bufferMemory], "in" at offset 0 and "out" at offset
    exactly [bufferSize].  For every initialisation mode other than [None]
    the [numBufferEntries] elements read from that offset on are all zero.
    With mode [None] the trace holds no [vkMapMemory] call, and the bytes
    of the allocation are the ones the driver handed out with it. *)
Theorem AllocateInputOutputBuffers_output_region
    (drv : Driver) (hist : list Event) (dev : VulkanDevice)
    (mode : BufferInitialization)
    (dev' : VulkanDevice) (mem : list Z) (trace : list Event) :
  layout_as_initialised dev ->
  run drv hist (AllocateInputOutputBuffers dev mode)
    = (Done (dev', mem), trace) ->
  exists (bIn bOut memory : Handle) (rIn rOut : Reply),
    bufferIn dev' = Some bIn /\
    bufferOut dev' = Some bOut /\
    bufferMemory dev' = Some memory /\
    (vkBindBufferMemory (device dev) bIn memory 0, Some rIn) ∈ trace /\
    result rIn = VK_SUCCESS /\
    (vkBindBufferMemory (device dev) bOut memory (bufferSize dev), Some rOut)
      ∈ trace /\
    result rOut = VK_SUCCESS /\
    (mode <> None_ ->
     forall j : Z, 0 <= j < numBufferEntries dev ->
       load32 mem (Z.to_nat (bufferSize dev + sizeof_float * j)) = Some 0) /\
    (mode = None_ ->
     Forall (fun e => maps_memory e = false) trace /\
     exists (index : Z) (allocated : Reply),
       (vkAllocateMemory (device dev) (memorySize dev) index, Some allocated)
         ∈ trace /\
       out allocated = memory /\
       mem = contents allocated).
Proof.
  intros (Hn & Hsize & Hmem & Hint) H.
  destruct (AllocateInputOutputBuffers_calls _ _ _ _ _ _ _ H)
    as (physical & rIn & rOut & rReq & rMem & rBindIn & rBindOut &
        Hphys & -> & Hok & rest & Hown & Hrest).
  exists (out rIn), (out rOut), (out rMem), rBindIn, rBindOut.
  assert (Hu64 : to_uint64 (bufferSize dev) = bufferSize dev).
  { unfold to_uint64. apply Z.mod_small. unfold sizeof_float in *. lia. }
  assert (Hm64 : to_uint64 (memorySize dev) = memorySize dev).
  { unfold to_uint64. apply Z.mod_small. unfold sizeof_float in *. lia. }
  apply Forall_cons in Hok as [_ Hok]. apply Forall_cons in Hok as [_ Hok].
  apply Forall_cons in Hok as [_ Hok]. apply Forall_cons in Hok as [HokIn Hok].
  apply Forall_cons in Hok as [HokOut _].
  unfold buffer_calls in Hown. rewrite Hu64, Hm64 in Hown.
  split; [reflexivity |]. split; [reflexivity |]. split; [reflexivity |].
  split.
  { apply own_elem_of. rewrite Hown. apply elem_of_app. left. simpl.
    do 4 apply list_elem_of_further. apply list_elem_of_here. }
  split; [exact HokIn |]. split.
  { apply own_elem_of. rewrite Hown. apply elem_of_app. left. simpl.
    do 5 apply list_elem_of_further. apply list_elem_of_here. }
  split; [exact HokOut |]. split.
  - intros Hmode j Hj. rewrite Hsize.
    assert (Hi : initialize_buffers mode (numBufferEntries dev) (contents rMem)
                 = Some mem).
    { destruct mode; [done | ..]; by destruct Hrest as (? & ? & _ & _ & ?). }
    by apply (initialize_buffers_Some _ _ _ _ Hi).
  - intros ->. destruct Hrest as [-> ->]. split.
    + apply Forall_forall. intros e He.
      apply elem_of_own in He as [He | He].
      * unfold names_object in He. unfold maps_memory. by destruct (fst e).
      * rewrite Hown in He. simpl in He.
        repeat (apply elem_of_cons in He as [-> | He]; [reflexivity |]).
        by apply elem_of_nil in He.
    + eexists _, rMem. split; [| by split].
      apply own_elem_of. rewrite Hown. apply elem_of_app. left. simpl.
      do 3 apply list_elem_of_further. apply list_elem_of_here.
Qed.

Lemma AllocateInputOutputBuffers_output_region_witness :
  exists (dev' : VulkanDevice) (mem : list Z) (trace : list Event),
    run obliging_driver [] (AllocateInputOutputBuffers plain_device Transfer_)
      = (Done (dev', mem), trace) /\
    exists (bIn bOut memory : Handle) (rIn rOut : Reply),
      bufferIn dev' = Some bIn /\
      bufferOut dev' = Some bOut /\
      bufferMemory dev' = Some memory /\
      (vkBindBufferMemory (device plain_device) bIn memory 0, Some rIn)
        ∈ trace /\
      result rIn = VK_SUCCESS /\
      (vkBindBufferMemory (device plain_device) bOut memory
         (bufferSize plain_device), Some rOut) ∈ trace /\
      result rOut = VK_SUCCESS /\
      (Transfer_ <> None_ ->
       forall j : Z, 0 <= j < numBufferEntries plain_device ->
         load32 mem (Z.to_nat (bufferSize plain_device + sizeof_float * j))
           = Some 0) /\
      (Transfer_ = None_ ->
       Forall (fun e => maps_memory e = false) trace /\
       exists (index : Z) (allocated : Reply),
         (vkAllocateMemory (device plain_device) (memorySize plain_device)
            index, Some allocated) ∈ trace /\
         out allocated = memory /\
         mem = contents allocated).
Proof.
  assert (E : exists d m t,
             run obliging_driver []
               (AllocateInputOutputBuffers plain_device Transfer_)
             = (Done (d, m), t))
    by (eexists _, _, _; vm_compute; reflexivity).
  destruct E as (d & m & t & E).
  exists d, m, t. split; [exact E |].
  apply (AllocateInputOutputBuffers_output_region obliging_driver []
           plain_device Transfer_ d m t).
  - vm_compute. repeat split; congruence.
  - exact E.
Defined.




(** The first words of the default sequence and the last one: the floats
    2, 4, 6 and 512. *)
Example default_sequence_words :
  exists (dev' : VulkanDevice) (mem : list Z) (trace : list Event),
    run obliging_driver [] (AllocateInputOutputBuffers plain_device Default)
      = (Done (dev', mem), trace) /\
    load32 mem 0 = Some 1073741824 /\
    load32 mem 4 = Some 1082130432 /\
    load32 mem 8 = Some 1086324736 /\
    load32 mem 1020 = Some 1140850688.
Proof.
  eexists _, _, _. split; [vm_compute; reflexivity |].
  repeat split; vm_compute; reflexivity.
Qed.

(* ===================================================================== *)
(** ** The crash-check envelope: proofs *)
(* ===================================================================== *)

Section Envelope.



End Envelope.






(** On that driver the envelope reports the loss: the fence wait is the
    last call made and its VK_ERROR_DEVICE_LOST is the result. *)
Example device_loss_is_reported :
  let '(out_, trace) :=
    run losing_driver []
      (RunWithCrashCheck single_device_context submitting_payload) in
  out_ = Done VK_ERROR_DEVICE_LOST /\
  map fst trace =
    [ vkAllocateCommandBuffers 7 31 VK_COMMAND_BUFFER_LEVEL_PRIMARY 1;
      vkBeginCommandBuffer 100 1;
      vkEndCommandBuffer 100;
      vkCreateFence 7;
      vkQueueSubmit 30 [sentinel_submit 77] 0;
      vkQueueWaitIdle 30;
      vkQueueSubmit 30 [sentinel_submit 100] 103;
      vkWaitForFences 7 [103] true 30000000000 ].
Proof. vm_compute. split; reflexivity. Qed.

(* ===================================================================== *)
(** ** Device initialisation: proofs *)
(* ===================================================================== *)

Section DeviceInit.

Lemma request_queue_step (physical : VkPhysicalDevice) (priorities : nat)
    (st : QueueRequests) (queue_type : QueueType) :
  requests_ok st ->
  requests_ok (request_queue physical priorities st queue_type) /\
  length (queue_indices (request_queue physical priorities st queue_type))
    = S (length (queue_indices st)).
Proof.
  intros Hok. unfold request_queue.
  destruct (create_info_indices st !! SelectQueue physical queue_type)
    as [i |] eqn:Efam.
  - rewrite Efam. simpl.
    destruct (queue_create_infos st !! i) as [info |] eqn:Ei.
    + split.
      * intros family j Hj. simpl in *. rewrite length_insert. by eapply Hok.
      * simpl. rewrite length_app. simpl. lia.
    + apply Hok in Efam. apply lookup_ge_None in Ei. lia.
  - simpl. rewrite lookup_insert_eq. simpl.
    rewrite list_lookup_middle by reflexivity.
    split.
    + intros family j Hj. simpl in *.
      rewrite length_insert, length_app. simpl.
      destruct (decide (family = SelectQueue physical queue_type)) as [-> | Hne].
      * rewrite lookup_insert_eq in Hj. inversion Hj; subst. lia.
      * rewrite lookup_insert_ne in Hj by done. apply Hok in Hj. lia.
    + simpl. rewrite length_app. simpl. lia.
Qed.

Lemma request_queues_length (physical : VkPhysicalDevice) (priorities : nat)
    (qs : list QueueType) :
  forall st : QueueRequests,
    requests_ok st ->
    length (queue_indices
              (fold_left (request_queue physical priorities) qs st))
      = (length (queue_indices st) + length qs)%nat.
Proof.
  induction qs as [| q qs IH]; intros st Hok; simpl; [lia |].
  destruct (request_queue_step physical priorities st q Hok) as [Hok' Hlen].
  rewrite (IH _ Hok'), Hlen. lia.
Qed.

Lemma create_queues_Done (drv : Driver) (vk : Handle)
    (indices : list (Z * Z)) :
  forall (hist : list Event) (dev dev' : VulkanDevice) (t : list Event),
    run drv hist (create_queues vk indices dev) = (Done dev', t) ->
    device dev' = device dev.
Proof.
  induction indices as [| qi rest IH]; intros hist dev dev' t H.
  - simpl in H. by inversion H.
  - cbn [create_queues] in H.
    apply run_bind_Done in H as (q & ta & tb & _ & H & _).
    apply run_bind_Done in H as (pool & tc & td & _ & H & _).
    apply IH in H. exact H.
Qed.

End DeviceInit.

Lemma kernel_pipeline_built_mono (vk : Handle) (code : list Z)
    (d : VulkanDevice) (t t' : list Event) :
  (forall e : Event, e ∈ t -> e ∈ t') ->
  kernel_pipeline_built vk code d t -> kernel_pipeline_built vk code d t'.
Proof.
  intros Hsub (rm & rl & rpl & rp & H1 & ? & ? & H2 & ? & ? & H3 & ? & ?
               & H4 & ? & ?).
  exists rm, rl, rpl, rp. repeat split; try done; by apply Hsub.
Qed.

Lemma build_compute_pipeline_Done (host : Host) (drv : Driver)
    (hist : list Event) (vk : Handle) (path : string) (code : list Z)
    (dev dev' : VulkanDevice) (t : list Event) :
  files host path = FileBytes code ->
  run drv hist (build_compute_pipeline host vk path dev) = (Done dev', t) ->
  kernel_pipeline_built vk code dev' t /\ device dev' = device dev.
Proof.
  intros Hfile H. unfold build_compute_pipeline, LoadShader in H.
  rewrite Hfile in H. cbv zeta in H.
  apply run_bind_Done in H as (loaded & t1 & ? & H1 & H & ->).
  apply run_bind_Done in H1 as (created & t2 & ? & H2 & H1 & ->).
  unfold CreateShader in H2.
  apply run_bind_Done in H2 as (rm & t3 & ? & H3 & H2 & ->).
  apply run_check_Done in H3 as (_ & Hrm & ->).
  simpl in H2. inversion H2; subst; clear H2.
  simpl in H1. inversion H1; subst; clear H1.
  apply run_bind_Done in H as (rpool & t4 & ? & H4 & H & ->).
  apply run_check_Done in H4 as (_ & _ & ->).
  apply run_bind_Done in H as (rl & t5 & ? & H5 & H & ->).
  apply run_check_Done in H5 as (_ & Hrl & ->).
  apply run_bind_Done in H as (rpl & t6 & ? & H6 & H & ->).
  apply run_check_Done in H6 as (_ & Hrpl & ->).
  apply run_bind_Done in H as (u1 & t7 & ? & H7 & H & ->). clear H7.
  apply run_bind_Done in H as (rp & t8 & ? & H8 & H & ->).
  apply run_check_Done in H8 as (_ & Hrp & ->).
  apply run_bind_Done in H as (u2 & t9 & ? & H9 & H & ->). clear H9.
  simpl in H. inversion H; subst; clear H.
  split; [| reflexivity].
  exists rm, rl, rpl, rp. simpl.
  repeat split; try done; set_solver.
Qed.

Lemma run_QueueTypeFromString (drv : Driver) (hist : list Event)
    (s : option string) (default_type : QueueType)
    (o : Outcome QueueType) (t : list Event) :
  run drv hist (QueueTypeFromString s default_type) = (o, t) -> t = [].
Proof.
  unfold QueueTypeFromString. destruct s as [s |]; simpl.
  - repeat case_decide; simpl; intros Hr; by inversion Hr.
  - intros Hr. by inversion Hr.
Qed.

Lemma naming_creates_nothing (t : list Event) :
  Forall is_debug_name t ->
  Forall (fun e => creates_kernel_object e = false) t.
Proof.
  intros Hn. eapply Forall_impl; [exact Hn |].
  intros [c r]. unfold is_debug_name, creates_kernel_object.
  simpl. by destruct c.
Qed.

Lemma naming_creates_no_module (t : list Event) :
  Forall is_debug_name t ->
  Forall (fun e => creates_shader_module e = false) t.
Proof.
  intros Hn. eapply Forall_impl; [exact Hn |].
  intros [c r]. unfold is_debug_name, creates_shader_module.
  simpl. by destruct c.
Qed.

(** With an empty list of requested queues [InitVulkanDevice] returns
    before it looks at the kernel path: on a machine where the kernel file
    is there and every driver call succeeds, the registered device has no
    shader module, layouts or pipeline, and no shader module was created. *)
Lemma kernel_not_loaded_without_queues :
  exists (ctx' : VulkanContext) (h : Handle) (trace : list Event)
         (d : VulkanDevice),
    run obliging_driver []
      (InitVulkanDevice kernel_host started_context None
         (Some "read_write.comp.spv") (Some []))
      = (Done (ctx', h), trace) /\
    devices ctx' = [d] /\
    computeShaderModule d = None /\
    descriptorSetLayout d = None /\
    pipelineLayout d = None /\
    pipeline d = None /\
    ~ kernel_pipeline_built h [3; 2; 35; 7; 0; 0; 1; 0] d trace.
Proof.
  eexists _, _, _, _. split; [vm_compute; reflexivity |].
  split; [reflexivity |]. repeat (split; [reflexivity |]).
  intros (rm & rl & rpl & rp & _ & _ & Hm & _). discriminate Hm.
Qed.

(** C4, amended.  A call with a kernel path naming a readable file that
    runs to completion registers one more device, whose handle it
    returns.  When at least one queue is requested, that record holds the
    shader module made from the file, the descriptor set layout with
    storage-buffer bindings 0 and 1, the pipeline layout and the compute
    pipeline built from the module's "main".  When the list of requested
    queues is empty, the record has no queues and no command pools and
    nothing of the kernel, and the trace holds no creation of a shader
    module, descriptor pool, descriptor set layout, pipeline layout or
    compute pipeline. *)
Theorem InitVulkanDevice_kernel
    (host : Host) (drv : Driver) (hist : list Event)
    (context : VulkanContext) (device_extensions : option (list string))
    (path : string) (queues_ : option (list QueueType)) (code : list Z)
    (ctx' : VulkanContext) (h : Handle) (trace : list Event) :
  files host path = FileBytes code ->
  run drv hist
    (InitVulkanDevice host context device_extensions (Some path) queues_)
    = (Done (ctx', h), trace) ->
  exists d : VulkanDevice,
    devices ctx' = devices context ++ [d] /\
    device d = h /\
    (queues_ <> Some [] -> kernel_pipeline_built h code d trace) /\
    (queues_ = Some [] ->
     queues d = [] /\ commandPools d = [] /\
     queue d = None /\ commandPool d = None /\
     no_kernel_pipeline d /\
     Forall (fun e => creates_kernel_object e = false) trace).
Proof.
  intros Hfile H. unfold InitVulkanDevice in H.
  apply run_bind_Done in H as (qs & t0 & ? & Hqs & H & ->).
  assert (Hqs' : t0 = [] /\
                 match queues_ with Some l => qs = l | None => qs <> [] end).
  { destruct queues_ as [l |].
    - simpl in Hqs. by inversion Hqs.
    - apply run_bind_Done in Hqs as (qt & t00 & ? & Hqt & Hqs & ->).
      apply run_QueueTypeFromString in Hqt as ->.
      simpl in Hqs. by inversion Hqs. }
  destruct Hqs' as [-> Hqs']. clear Hqs.
  apply run_bind_Done in H as (e1 & t1 & ? & He1 & H & ->).
  apply run_check_Done in He1 as (_ & _ & ->).
  apply run_bind_Done in H as (e2 & t2 & ? & He2 & H & ->).
  apply run_check_Done in He2 as (_ & _ & ->).
  destruct (gpus host) as [| physical others]; [discriminate H |].
  cbv zeta in H.
  apply run_bind_Done in H as (created & t3 & ? & Hc & H & ->).
  apply run_check_Done in Hc as (_ & _ & ->).
  apply run_bind_Done in H as (marker & t4 & ? & H4 & H & ->).
  apply run_call_Done in H4 as (_ & ->).
  apply run_bind_Done in H as (signal & t5 & ? & H5 & H & ->).
  apply run_call_Done in H5 as (_ & ->).
  apply run_bind_Done in H as (wait & t6 & ? & H6 & H & ->).
  apply run_call_Done in H6 as (_ & ->).
  apply run_bind_Done in H as (dev1 & t7 & ? & H7 & H & ->).
  set (dev0 := set_WaitSemaphoresKHR (out wait)
                 (set_SignalSemaphoreKHR (out signal)
                    (set_CmdWriteBufferMarkerAMD (out marker)
                       (set_physicalDevice (Some physical)
                          (set_device (out created) default_VulkanDevice)))))
    in *.
  assert (Hd1 : (exists fn, dev1 = set_SetDebugUtilsObjectNameEXT fn dev0) /\
                Forall (fun e => creates_kernel_object e = false) t7).
  { destruct (GetFlag host "--debug_utils").
    - apply run_bind_Done in H7 as (name & t70 & ? & Hname & H7 & ->).
      apply run_call_Done in Hname as (_ & ->).
      simpl in H7. inversion H7; subst. split; [by eexists |].
      by repeat constructor.
    - simpl in H7. inversion H7; subst. split; [by eexists | constructor]. }
  destruct Hd1 as [[fn ->] Ht7]. clear H7.
  apply run_bind_Done in H as (u1 & t8 & ? & H8 & H & ->).
  apply run_SetObjectDebugName in H8.
  apply run_bind_Done in H as (u2 & t9 & ? & H9 & H & ->).
  apply run_SetObjectDebugName in H9.
  apply run_bind_Done in H as (u3 & t10 & ? & H10 & H & ->).
  apply run_SetObjectDebugName in H10.
  apply naming_creates_nothing in H8, H9, H10.
  pose proof (request_queues_length physical (length qs) qs no_QueueRequests)
    as Hlen.
  destruct (queue_indices
              (fold_left (request_queue physical (length qs)) qs
                 no_QueueRequests)) as [| qi indices] eqn:Eqi.
  - (* no queue was requested: the early return *)
    simpl in H. inversion H; subst; clear H.
    exists (set_SetDebugUtilsObjectNameEXT fn dev0).
    split; [reflexivity |]. split; [reflexivity |].
    assert (Hempty : qs = []).
    { destruct qs; [reflexivity |]. simpl in Hlen.
      assert (Hok : requests_ok no_QueueRequests).
      { intros family i Hf. simpl in Hf. by rewrite lookup_empty in Hf. }
      specialize (Hlen Hok). simpl in Hlen. lia. }
    split.
    + intros Hne. destruct queues_ as [l |]; congruence.
    + intros _. repeat (split; [reflexivity |]).
      split; [by repeat split |].
      rewrite !Forall_app. repeat split; try done; by repeat constructor.
  - (* queues were requested *)
    assert (Hsome : queues_ <> Some []).
    { intros ->. subst qs. simpl in Eqi. discriminate Eqi. }
    apply run_bind_Done in H as (dev2 & t11 & ? & H11 & H & ->).
    apply create_queues_Done in H11.
    apply run_bind_Done in H as (u4 & t12 & ? & H12 & H & ->). clear H12.
    apply run_bind_Done in H as (u5 & t13 & ? & H13 & H & ->). clear H13.
    apply run_bind_Done in H as (dev3 & t14 & ? & H14 & H & ->).
    apply (build_compute_pipeline_Done _ _ _ _ _ code) in H14
      as [Hbuilt Hdev3]; [| exact Hfile].
    simpl in H. inversion H; subst; clear H.
    exists dev3. split; [reflexivity |]. split; [reflexivity |].
    split; [| intros Hq; congruence].
    intros _. simpl in Hdev3. rewrite Hdev3, H11. simpl.
    eapply kernel_pipeline_built_mono; [| exact Hbuilt].
    intros e He. set_solver.
Qed.

Lemma InitVulkanDevice_kernel_witness :
  exists (ctx' : VulkanContext) (h : Handle) (trace : list Event),
    run obliging_driver []
      (InitVulkanDevice kernel_host started_context None
         (Some "read_write.comp.spv") None)
      = (Done (ctx', h), trace) /\
    exists d : VulkanDevice,
      devices ctx' = devices started_context ++ [d] /\
      device d = h /\
      ((None : option (list QueueType)) <> Some [] ->
       kernel_pipeline_built h [3; 2; 35; 7; 0; 0; 1; 0] d trace) /\
      ((None : option (list QueueType)) = Some [] ->
       queues d = [] /\ commandPools d = [] /\
       queue d = None /\ commandPool d = None /\
       no_kernel_pipeline d /\
       Forall (fun e => creates_kernel_object e = false) trace).
Proof.
  assert (E : exists c h t,
             run obliging_driver []
               (InitVulkanDevice kernel_host started_context None
                  (Some "read_write.comp.spv") None)
             = (Done (c, h), t))
    by (eexists _, _, _; vm_compute; reflexivity).
  destruct E as (c & h & t & E). exists c, h, t. split; [exact E |].
  apply (InitVulkanDevice_kernel kernel_host obliging_driver []
           started_context None "read_write.comp.spv" None
           [3; 2; 35; 7; 0; 0; 1; 0] c h t).
  - reflexivity.
  - exact E.
Defined.

(* ===================================================================== *)
(** ** Command-line flags: proofs *)
(* ===================================================================== *)

Section FlagFacts.

Lemma substring_all (s : string) : String.substring 0 (String.length s) s = s.
Proof. induction s as [| a s IH]; simpl; [reflexivity | by rewrite IH]. Qed.

Lemma find_char_append (k v : string) :
  no_equals_sign k ->
  find_char equals_sign (k +:+ String equals_sign v) = Some (String.length k).
Proof.
  induction k as [| a k IH]; simpl.
  - reflexivity.
  - intros [Ha Hk]. rewrite decide_False by exact Ha. by rewrite (IH Hk).
Qed.

Lemma find_char_absent (s : string) :
  no_equals_sign s -> find_char equals_sign s = None.
Proof.
  induction s as [| a s IH]; simpl; [done |].
  intros [Ha Hs]. rewrite decide_False by exact Ha. by rewrite (IH Hs).
Qed.

Lemma substr_to_append (k s : string) :
  substr_to (String.length k) (k +:+ s) = k.
Proof.
  unfold substr_to. induction k as [| a k IH]; simpl.
  - by destruct s.
  - by rewrite IH.
Qed.

Lemma substr_from_append (k v : string) (c : Ascii.ascii) :
  substr_from (String.length k + 1) (k +:+ String c v) = v.
Proof.
  unfold substr_from. induction k as [| a k IH]; simpl.
  - rewrite Nat.sub_0_r. apply substring_all.
  - exact IH.
Qed.

(** What the loop leaves in [values], read through any key. *)
Lemma InitFlags_loop_values (args : list string) (flags flags' : Flags)
    (key : string) :
  InitFlags_loop args flags = Ret flags' ->
  values flags' !! key =
    match given_value key args with
    | Some v => Some v
    | None => values flags !! key
    end.
Proof.
  revert flags. induction args as [| arg rest IH]; intros flags H.
  - simpl in H. by inversion H.
  - simpl in H.
    destruct (names flags !! (flag_key_value arg).1) as [help |];
      [| discriminate].
    apply IH in H. rewrite H. unfold given_value. simpl.
    destruct (decide ((flag_key_value arg).1 = key)) as [-> | Hne].
    + rewrite last_cons.
      destruct (last _) as [v |]; [reflexivity |].
      simpl. by rewrite lookup_insert_eq.
    + destruct (last _) as [v |]; [reflexivity |].
      simpl. by rewrite lookup_insert_ne.
Qed.

Lemma InitFlags_loop_names (args : list string) (flags flags' : Flags) :
  InitFlags_loop args flags = Ret flags' -> names flags' = names flags.
Proof.
  revert flags. induction args as [| arg rest IH]; intros flags H.
  - simpl in H. by inversion H.
  - simpl in H.
    destruct (names flags !! (flag_key_value arg).1); [| discriminate].
    by apply IH in H.
Qed.

End FlagFacts.

(** One command-line argument splits at its first ['=']: an argument
    without one is a key with the empty value, and [key=value] gives back
    the key and the value, whatever the value contains. *)
Theorem flag_key_value_join (k : string) :
  no_equals_sign k ->
  flag_key_value k = (k, EmptyString) /\
  forall v : string, flag_key_value (k +:+ String equals_sign v) = (k, v).
Proof.
  intros Hk. split.
  - unfold flag_key_value. by rewrite find_char_absent.
  - intros v. unfold flag_key_value. rewrite (find_char_append k v Hk).
    by rewrite substr_to_append, substr_from_append.
Qed.

Lemma flag_key_value_join_witness :
  flag_key_value "--queue" = ("--queue", EmptyString) /\
  forall v : string,
    flag_key_value ("--queue" +:+ String equals_sign v) = ("--queue", v).
Proof.
  apply (flag_key_value_join "--queue").
  vm_compute. repeat split; discriminate.
Defined.

(** [InitFlags] returns exactly when every argument after [argv[0]] names
    a flag that is defined, the three common flags included; the set of
    defined flags is then the one it started from plus the common flags.
    Otherwise it exits with EXIT_FAILURE. *)
Theorem InitFlags_accepts_defined_flags_only (argv : list string)
    (flags : Flags) :
  (Forall (fun arg =>
             is_Some (names (CommonFlags flags) !! fst (flag_key_value arg)))
     (drop 1 argv) /\
   exists flags' : Flags,
     InitFlags argv flags = Ret flags' /\
     names flags' = names (CommonFlags flags))
  \/
  (Exists (fun arg =>
             names (CommonFlags flags) !! fst (flag_key_value arg) = None)
     (drop 1 argv) /\
   InitFlags argv flags = Exit EXIT_FAILURE).
Proof.
  unfold InitFlags.
  assert (G : forall (args : list string) (fl : Flags),
    (Forall (fun arg => is_Some (names fl !! fst (flag_key_value arg))) args /\
     exists fl', InitFlags_loop args fl = Ret fl')
    \/
    (Exists (fun arg => names fl !! fst (flag_key_value arg) = None) args /\
     InitFlags_loop args fl = Exit EXIT_FAILURE)).
  { induction args as [| arg rest IH]; intros fl.
    - left. split; [constructor | by exists fl].
    - simpl.
      destruct (names fl !! (flag_key_value arg).1) as [help |] eqn:E.
      + destruct (IH {| names := names fl;
                        values := <[(flag_key_value arg).1 :=
                                      (flag_key_value arg).2]> (values fl) |})
          as [[Hall Hret] | [Hex Hexit]].
        * left. split; [| exact Hret]. constructor; [by rewrite E | exact Hall].
        * right. split; [| exact Hexit]. by apply Exists_cons_tl.
      + right. split; [| reflexivity]. by apply Exists_cons_hd. }
  destruct (G (drop 1 argv) (CommonFlags flags))
    as [[Hall [fl' Hret]] | [Hex Hexit]].
  - left. split; [exact Hall |]. exists fl'. split; [exact Hret |].
    by apply InitFlags_loop_names in Hret.
  - right. by split.
Qed.

(** After [InitFlags] has returned, [GetFlag] gives a flag the value of
    the last argument that names it, and what was there before for a flag
    the command line does not name; [argv[0]] is not read. *)
Theorem GetFlag_after_InitFlags (argv : list string) (flags flags' : Flags)
    (host : Host) (key : string) :
  InitFlags argv flags = Ret flags' ->
  flag_values host = values flags' ->
  GetFlag host key =
    match given_value key (drop 1 argv) with
    | Some v => Some v
    | None => values flags !! key
    end.
Proof.
  intros Hinit Hhost. unfold GetFlag. rewrite Hhost.
  unfold InitFlags in Hinit.
  by rewrite (InitFlags_loop_values _ _ _ key Hinit).
Qed.

Lemma GetFlag_after_InitFlags_witness :
  exists flags' : Flags,
    InitFlags ["hang_test"; "--queue=compute"; "--secondary";
               "--queue=transfer"] no_flags = Ret flags' /\
    GetFlag (host_of flags') "--queue" = Some "transfer" /\
    GetFlag (host_of flags') "--secondary" = Some EmptyString /\
    GetFlag (host_of flags') "--debug_utils" = None.
Proof.
  assert (E : exists fl,
             InitFlags ["hang_test"; "--queue=compute"; "--secondary";
                        "--queue=transfer"] no_flags = Ret fl)
    by (eexists; vm_compute; reflexivity).
  destruct E as [fl E]. exists fl. split; [exact E |].
  split; [| split].
  - apply (GetFlag_after_InitFlags _ no_flags fl (host_of fl) "--queue" E).
    reflexivity.
  - apply (GetFlag_after_InitFlags _ no_flags fl (host_of fl) "--secondary" E).
    reflexivity.
  - apply (GetFlag_after_InitFlags _ no_flags fl (host_of fl) "--debug_utils" E).
    reflexivity.
Defined.

(* ===================================================================== *)
(** ** Queue types by name: proofs *)
(* ===================================================================== *)

(** For a string that is not empty the default plays no part: the six
    spellings (lower case, or with a capital first letter) give their
    queue type, never [Undefined], and every other string, other
    capitalisations included, ends the process with EXIT_FAILURE. *)
Theorem QueueTypeFromString_named (name : string)
    (default_type : QueueType) :
  name <> EmptyString ->
  QueueTypeFromString (Some name) default_type =
    QueueTypeFromString (Some name) Undefined /\
  QueueTypeFromString (Some name) default_type <> Ret Undefined /\
  (name ∉ ["graphics"; "Graphics"; "compute"; "Compute";
            "transfer"; "Transfer"] ->
   QueueTypeFromString (Some name) default_type = Exit EXIT_FAILURE).
Proof.
  intros Hne. unfold QueueTypeFromString.
  rewrite !(decide_False (P := name = EmptyString)) by exact Hne.
  split; [reflexivity |]. split.
  - repeat case_decide; discriminate.
  - intros Hnot.
    assert (H1 : ~ (name = "graphics" \/ name = "Graphics"))
      by (intros [-> | ->]; apply Hnot; repeat constructor).
    assert (H2 : ~ (name = "compute" \/ name = "Compute"))
      by (intros [-> | ->]; apply Hnot; repeat constructor).
    assert (H3 : ~ (name = "transfer" \/ name = "Transfer"))
      by (intros [-> | ->]; apply Hnot; repeat constructor).
    by rewrite !decide_False.
Qed.

Lemma QueueTypeFromString_named_witness :
  QueueTypeFromString (Some "COMPUTE") Graphics =
    QueueTypeFromString (Some "COMPUTE") Undefined /\
  QueueTypeFromString (Some "COMPUTE") Graphics <> Ret Undefined /\
  ("COMPUTE" ∉ ["graphics"; "Graphics"; "compute"; "Compute";
                 "transfer"; "Transfer"] ->
   QueueTypeFromString (Some "COMPUTE") Graphics = Exit EXIT_FAILURE).
Proof.
  apply (QueueTypeFromString_named "COMPUTE" Graphics). discriminate.
Defined.

(* ===================================================================== *)
(** ** The devices of a context: proofs *)
(* ===================================================================== *)

(** [GetDevice] returns the first device of the context that has the
    handle asked for, and nullptr exactly when no device has it. *)
Theorem GetDevice_first_match (ctx : VulkanContext) (vk_device : Handle) :
  match GetDevice ctx vk_device with
  | Some i =>
      (exists d : VulkanDevice,
          devices ctx !! i = Some d /\ device d = vk_device) /\
      (forall (j : nat) (d : VulkanDevice),
          (j < i)%nat -> devices ctx !! j = Some d -> device d <> vk_device)
  | None =>
      forall d : VulkanDevice, d ∈ devices ctx -> device d <> vk_device
  end.
Proof.
  unfold GetDevice. cbv zeta.
  set (p := fun d : VulkanDevice => device d =? vk_device).
  destruct (decide (find_if p (devices ctx) < length (devices ctx))%nat)
    as [Hlt | Hge].
  - split.
    + destruct (find_if_found p (devices ctx) Hlt) as (d & Hd & Hp).
      exists d. split; [exact Hd |]. by apply Z.eqb_eq.
    + intros j d Hj Hd. apply Z.eqb_neq.
      exact (find_if_before p (devices ctx) j d Hj Hd).
  - intros d Hd. apply list_elem_of_lookup in Hd as [j Hj].
    apply Z.eqb_neq. apply (find_if_before p (devices ctx) j d); [| exact Hj].
    apply lookup_lt_Some in Hj. lia.
Qed.

(* ===================================================================== *)
(** ** The calls behind the input/output buffers: proofs *)
(* ===================================================================== *)

(** Without a memory type that is both host-visible and host-coherent the
    search gives (uint32_t)-1 whatever the type mask. *)
Lemma FindMemoryType_no_host_memory (physical : VkPhysicalDevice) (bits : Z) :
  (length (memoryTypes physical) <= 32)%nat ->
  (forall u : VkMemoryType,
      u ∈ memoryTypes physical ->
      ~ flags_superset (propertyFlags u) host_memory_properties) ->
  FindMemoryType physical bits host_memory_properties = 4294967295.
Proof.
  intros Hlen Hnone. unfold FindMemoryType.
  destruct (FindMemoryType_loop_spec bits host_memory_properties
              (memoryTypes physical) O)
    as [(i & t & _ & Ht & [_ Hok] & _) | [Hr _]]; [simpl; lia | | exact Hr].
  exfalso. apply (Hnone t); [by eapply list_elem_of_lookup_2 | exact Hok].
Qed.

(** The calls a completed [AllocateInputOutputBuffers] made on the
    logical device, debug names aside, in order and with their replies:
    the input and the output buffer are created with the same size and
    as storage buffers, in mode Transfer also as transfer source and
    transfer destination; the memory requirements of the input buffer, and
    of no other, are queried; one allocation of [memorySize] bytes is made
    with the memory type [FindMemoryType] gives for host-visible,
    host-coherent memory and the type mask that query returned; the
    buffers are bound at offsets 0 and [bufferSize]; and the allocation is
    mapped, whole, and unmapped again exactly when the mode is not None.
    The device record ends up with the three handles the driver returned.
    ([FindMemoryType] reads the memory types off the physical device; it
    adds no event.) *)
Theorem AllocateInputOutputBuffers_call_sequence
    (drv : Driver) (hist : list Event) (dev : VulkanDevice)
    (mode : BufferInitialization)
    (dev' : VulkanDevice) (mem : list Z) (trace : list Event) :
  run drv hist (AllocateInputOutputBuffers dev mode)
    = (Done (dev', mem), trace) ->
  exists (physical : VkPhysicalDevice)
         (rIn rOut rReq rMem rBindIn rBindOut : Reply) (last : list Reply),
    physicalDevice dev = Some physical /\
    own trace =
      zip (buffer_calls dev physical mode (out rIn) (out rOut) (out rReq)
             (out rMem))
          (Some <$> [rIn; rOut; rReq; rMem; rBindIn; rBindOut] ++ last) /\
    length last = match mode with None_ => 0%nat | _ => 2%nat end /\
    bufferIn dev' = Some (out rIn) /\
    bufferOut dev' = Some (out rOut) /\
    bufferMemory dev' = Some (out rMem).
Proof.
  intros H.
  destruct (AllocateInputOutputBuffers_calls _ _ _ _ _ _ _ H)
    as (physical & rIn & rOut & rReq & rMem & rBindIn & rBindOut &
        Hphys & -> & _ & rest & Hown & Hrest).
  exists physical, rIn, rOut, rReq, rMem, rBindIn, rBindOut.
  destruct mode;
    [ destruct Hrest as [-> _]; exists []
    | destruct Hrest as (rMap & rUnmap & -> & _); exists [rMap; rUnmap] ..];
    (split; [exact Hphys |]; split; [exact Hown |]; by repeat split).
Qed.

Lemma AllocateInputOutputBuffers_call_sequence_witness :
  exists (dev' : VulkanDevice) (mem : list Z) (trace : list Event),
    run obliging_driver [] (AllocateInputOutputBuffers plain_device Transfer_)
      = (Done (dev', mem), trace) /\
    exists (physical : VkPhysicalDevice)
           (rIn rOut rReq rMem rBindIn rBindOut : Reply) (last : list Reply),
      physicalDevice plain_device = Some physical /\
      own trace =
        zip (buffer_calls plain_device physical Transfer_ (out rIn) (out rOut)
               (out rReq) (out rMem))
            (Some <$> [rIn; rOut; rReq; rMem; rBindIn; rBindOut] ++ last) /\
      length last = 2%nat /\
      bufferIn dev' = Some (out rIn) /\
      bufferOut dev' = Some (out rOut) /\
      bufferMemory dev' = Some (out rMem).
Proof.
  assert (E : exists d m t,
             run obliging_driver []
               (AllocateInputOutputBuffers plain_device Transfer_)
             = (Done (d, m), t))
    by (eexists _, _, _; vm_compute; reflexivity).
  destruct E as (d & m & t & E). exists d, m, t. split; [exact E |].
  exact (AllocateInputOutputBuffers_call_sequence obliging_driver []
           plain_device Transfer_ d m t E).
Defined.

(** [AllocateInputOutputBuffers] does not look at what [FindMemoryType]
    returns.  On a physical device without a host-visible, host-coherent
    memory type, whatever the driver replies: once the requirements query
    has returned, the allocation is requested, with memory type index
    4294967295, the (uint32_t)-1 of "not found"; no allocation is
    requested with any other index; and when the driver turns that
    request down, the run ends in the assertion of VK_CHECK_RESULT. *)
Theorem AllocateInputOutputBuffers_memory_type_unchecked
    (drv : Driver) (hist : list Event) (dev : VulkanDevice)
    (physical : VkPhysicalDevice) (mode : BufferInitialization)
    (o : Outcome (VulkanDevice * list Z)) (trace : list Event) :
  physicalDevice dev = Some physical ->
  (length (memoryTypes physical) <= 32)%nat ->
  (forall u : VkMemoryType,
      u ∈ memoryTypes physical ->
      ~ flags_superset (propertyFlags u) host_memory_properties) ->
  run drv hist (AllocateInputOutputBuffers dev mode) = (o, trace) ->
  let request :=
    vkAllocateMemory (device dev) (to_uint64 (memorySize dev)) 4294967295 in
  (forall (buffer : Handle) (requirements : Reply),
      (vkGetBufferMemoryRequirements (device dev) buffer, Some requirements)
        ∈ trace ->
      exists reply : option Reply, (request, reply) ∈ trace) /\
  (forall (d : Handle) (size index : Z) (reply : option Reply),
      (vkAllocateMemory d size index, reply) ∈ trace -> index = 4294967295) /\
  (forall reply : Reply,
      (request, Some reply) ∈ trace -> result reply <> VK_SUCCESS ->
      o = Asserted).
Proof.
  intros Hphys Hlen Hnone H request.
  assert (Hidx : forall bits : Z,
            FindMemoryType physical bits host_memory_properties = 4294967295)
    by (intros bits; by apply FindMemoryType_no_host_memory).
  unfold AllocateInputOutputBuffers, VK_CHECK_RESULT, SetObjectDebugName in H.
  cbv zeta in H.
  change (Z.lor VK_MEMORY_PROPERTY_HOST_VISIBLE_BIT
            VK_MEMORY_PROPERTY_HOST_COHERENT_BIT)
    with host_memory_properties in H.
  set (props := host_memory_properties) in *. clearbody props.
  cbn [SetDebugUtilsObjectNameEXT physicalDevice device numBufferEntries
       bufferSize memorySize set_bufferIn set_bufferOut set_bufferMemory]
    in H.
  rewrite Hphys in H.
  destruct (SetDebugUtilsObjectNameEXT dev) as [| proc];
    [| destruct (proc =? 0)];
    destruct mode; cbn [bind run read] in H;
    repeat match type of H with
      | context [match drv ?h ?c with _ => _ end] =>
          destruct (drv h c) as [? |]; cbn [bind run read] in H
      | context [if result ?r =? VK_SUCCESS then _ else _] =>
          destruct (Z.eqb_spec (result r) VK_SUCCESS); cbn [bind run read] in H
      | context [match initialize_buffers ?a ?b ?c with _ => _ end] =>
          destruct (initialize_buffers a b c); cbn [bind run read] in H
      end;
    inversion H; subst o trace; clear H; rewrite ?Hidx;
    (split; [| split;
    [ intros d size index reply Hin;
      repeat (apply elem_of_cons in Hin as [Hin | Hin]; [by inversion Hin |]);
      by apply elem_of_nil in Hin
    | intros reply Hin Hne;
      repeat (apply elem_of_cons in Hin as [Hin | Hin];
              [try discriminate Hin; inversion Hin; subst;
               first [reflexivity | contradiction] |]);
      by apply elem_of_nil in Hin ]]);
    try (intros buffer requirements Hin;
      repeat (apply elem_of_cons in Hin as [Hin | Hin];
              [try discriminate Hin;
               eexists; unfold request;
               repeat first [apply list_elem_of_here
                            | apply list_elem_of_further] |]);
      by apply elem_of_nil in Hin).
Qed.

Lemma AllocateInputOutputBuffers_memory_type_unchecked_witness :
  exists (o : Outcome (VulkanDevice * list Z)) (trace : list Event),
    run obliging_driver []
      (AllocateInputOutputBuffers device_local_device None_) = (o, trace) /\
    let request := vkAllocateMemory 7 2048 4294967295 in
    (forall (buffer : Handle) (requirements : Reply),
        (vkGetBufferMemoryRequirements 7 buffer, Some requirements) ∈ trace ->
        exists reply : option Reply, (request, reply) ∈ trace) /\
    (forall (d : Handle) (size index : Z) (reply : option Reply),
        (vkAllocateMemory d size index, reply) ∈ trace ->
        index = 4294967295) /\
    (forall reply : Reply,
        (request, Some reply) ∈ trace -> result reply <> VK_SUCCESS ->
        o = Asserted).
Proof.
  assert (E : exists o t,
             run obliging_driver []
               (AllocateInputOutputBuffers device_local_device None_)
             = (o, t))
    by (eexists _, _; vm_compute; reflexivity).
  destruct E as (o & t & E). exists o, t. split; [exact E |].
  apply (AllocateInputOutputBuffers_memory_type_unchecked obliging_driver []
           device_local_device device_local_gpu None_ o t).
  - reflexivity.
  - simpl. lia.
  - intros u Hu Hsup.
    apply list_elem_of_singleton in Hu as ->.
    specialize (Hsup 1 ltac:(lia) eq_refl). discriminate.
  - exact E.
Defined.

(** In mode Transfer only the output half is written: every byte of the
    allocation before offset [sizeof(float) * numBufferEntries] is what
    the driver handed out, and the size of the allocation is unchanged. *)
Theorem AllocateInputOutputBuffers_transfer_keeps_input
    (drv : Driver) (hist : list Event) (dev : VulkanDevice)
    (dev' : VulkanDevice) (mem : list Z) (trace : list Event) :
  run drv hist (AllocateInputOutputBuffers dev Transfer_)
    = (Done (dev', mem), trace) ->
  exists (index : Z) (reply : Reply),
    (vkAllocateMemory (device dev) (to_uint64 (memorySize dev)) index,
     Some reply) ∈ trace /\
    length mem = length (contents reply) /\
    forall k : nat,
      (k < Z.to_nat (sizeof_float * numBufferEntries dev))%nat ->
      mem !! k = contents reply !! k.
Proof.
  intros H.
  destruct (AllocateInputOutputBuffers_calls _ _ _ _ _ _ _ H)
    as (physical & rIn & rOut & rReq & rMem & rBindIn & rBindOut &
        Hphys & -> & _ & rest & Hown & (rMap & rUnmap & _ & _ & Hinit)).
  exists (FindMemoryType physical (to_uint32 (out rReq)) host_memory_properties),
    rMem.
  split.
  - apply own_elem_of. rewrite Hown. apply elem_of_app. left. simpl.
    do 3 apply list_elem_of_further. apply list_elem_of_here.
  - unfold initialize_buffers in Hinit.
    destruct (fill_Some _ _ _ _ _ Hinit) as (Hlen & _ & Hframe).
    split; [exact Hlen |]. intros k Hk. apply Hframe. lia.
Qed.

Lemma AllocateInputOutputBuffers_transfer_keeps_input_witness :
  exists (dev' : VulkanDevice) (mem : list Z) (trace : list Event),
    run obliging_driver [] (AllocateInputOutputBuffers plain_device Transfer_)
      = (Done (dev', mem), trace) /\
    exists (index : Z) (reply : Reply),
      (vkAllocateMemory 7 2048 index, Some reply) ∈ trace /\
      length mem = length (contents reply) /\
      forall k : nat, (k < 1024)%nat -> mem !! k = contents reply !! k.
Proof.
  assert (E : exists d m t,
             run obliging_driver []
               (AllocateInputOutputBuffers plain_device Transfer_)
             = (Done (d, m), t))
    by (eexists _, _, _; vm_compute; reflexivity).
  destruct E as (d & m & t & E). exists d, m, t. split; [exact E |].
  exact (AllocateInputOutputBuffers_transfer_keeps_input obliging_driver []
           plain_device d m t E).
Defined.

(* ===================================================================== *)
(** ** The queue-request loop: proofs *)
(* ===================================================================== *)

Section QueueRequestFacts.

Lemma occurrences_app (f : Z) (l1 l2 : list Z) :
  occurrences f (l1 ++ l2) = (occurrences f l1 + occurrences f l2)%nat.
Proof. unfold occurrences. by rewrite filter_app, length_app. Qed.

Lemma occurrences_le (f : Z) (l : list Z) : (occurrences f l <= length l)%nat.
Proof. unfold occurrences. apply length_filter. Qed.

Lemma occurrences_absent (f : Z) (l : list Z) : f ∉ l -> occurrences f l = O.
Proof.
  intros Hf. unfold occurrences. induction l as [| g l IH]; [reflexivity |].
  rewrite filter_cons. apply not_elem_of_cons in Hf as [Hne Hf].
  rewrite decide_False by congruence. by apply IH.
Qed.

Lemma queue_slots_snoc (fams : list Z) (f : Z) :
  queue_slots (fams ++ [f])
  = queue_slots fams ++ [(f, Z.of_nat (occurrences f fams))].
Proof.
  unfold queue_slots. rewrite imap_app. simpl. f_equal.
  - apply imap_ext. intros i g Hi. simpl.
    rewrite take_app_le; [reflexivity |].
    apply lookup_lt_Some in Hi. lia.
  - rewrite Nat.add_0_r, take_app_length. reflexivity.
Qed.

(** One request keeps the books in order. *)
Lemma request_queue_match (physical : VkPhysicalDevice) (n : nat)
    (fams : list Z) (st : QueueRequests) (q : QueueType) :
  requests_match n fams st ->
  Z.of_nat (length fams) + 1 < 2 ^ 32 ->
  requests_match n (fams ++ [SelectQueue physical q])
    (request_queue physical n st q).
Proof.
  intros (Hidx & Hnd & Hmap & Hmem & Hinfo) Hlen.
  unfold request_queue. cbv zeta.
  set (f := SelectQueue physical q).
  destruct (create_info_indices st !! f) as [i |] eqn:E.
  - (* the family already has its create-info, at position [i] *)
    rewrite E. simpl default.
    assert (Ei := proj1 (Hmap f i) E).
    rewrite list_lookup_fmap in Ei.
    destruct (queue_create_infos st !! i) as [info |] eqn:Einfo;
      [| discriminate].
    simpl in Ei. injection Ei as Hfam.
    destruct (Hinfo info) as [Hcount Hprio];
      [by eapply list_elem_of_lookup_2 |].
    assert (Hfams :
      qci_queueFamilyIndex <$>
        <[i := {| qci_queueFamilyIndex := qci_queueFamilyIndex info;
                  qci_queueCount := to_uint32 (qci_queueCount info + 1);
                  qci_queuePriorities := qci_queuePriorities info |}]>
          (queue_create_infos st)
      = qci_queueFamilyIndex <$> queue_create_infos st).
    { rewrite list_fmap_insert. simpl. apply list_insert_id.
      rewrite list_lookup_fmap, Einfo. reflexivity. }
    split; [| split; [| split; [| split]]]; simpl.
    + rewrite Hidx, queue_slots_snoc, Hcount, Hfam. reflexivity.
    + by rewrite Hfams.
    + intros g j. rewrite Hfams. apply Hmap.
    + intros g. rewrite Hfams, elem_of_app, list_elem_of_singleton, <- Hmem.
      split; [intros [Hg | ->]; [exact Hg |] | tauto].
      apply Hmem. rewrite <- Hfam.
      apply list_elem_of_fmap_2. by eapply list_elem_of_lookup_2.
    + intros info' Hin. apply list_elem_of_lookup in Hin as [j Hj].
      destruct (decide (j = i)) as [-> | Hne].
      * rewrite list_lookup_insert_eq in Hj
          by (by eapply lookup_lt_Some). injection Hj as <-. simpl.
        rewrite Hfam, occurrences_app, Hprio.
        split; [| reflexivity].
        assert (Hone : occurrences f [f] = 1%nat)
          by (unfold occurrences; rewrite filter_cons, decide_True by done;
              reflexivity).
        rewrite Hone, Hcount, Hfam. unfold to_uint32, UINT32_MOD.
        pose proof (occurrences_le f fams).
        rewrite Z.mod_small by lia. lia.
      * rewrite list_lookup_insert_ne in Hj by done.
        destruct (Hinfo info') as [Hc Hp]; [by eapply list_elem_of_lookup_2 |].
        split; [| exact Hp].
        rewrite occurrences_app, Hc.
        assert (Hother : qci_queueFamilyIndex info' <> f).
        { intros Heq. apply Hne.
          eapply (NoDup_lookup _ j i (qci_queueFamilyIndex info')); [exact Hnd | |].
          - by rewrite list_lookup_fmap, Hj.
          - rewrite list_lookup_fmap, Einfo. simpl. congruence. }
        assert (Hzero : occurrences (qci_queueFamilyIndex info') [f] = O)
          by (unfold occurrences; rewrite filter_cons, decide_False by done;
              reflexivity).
        rewrite Hzero. lia.
  - (* a family not seen before: its create-info is appended *)
    simpl create_info_indices. rewrite lookup_insert_eq. simpl default.
    simpl queue_create_infos.
    rewrite list_lookup_middle by reflexivity.
    assert (Hnew : f ∉ qci_queueFamilyIndex <$> queue_create_infos st).
    { intros Hin. apply list_elem_of_lookup in Hin as [j Hj].
      apply Hmap in Hj. congruence. }
    assert (Hfresh : occurrences f fams = O)
      by (apply occurrences_absent; by rewrite Hmem).
    assert (Hfams :
      qci_queueFamilyIndex <$>
        <[length (queue_create_infos st) :=
            {| qci_queueFamilyIndex := f;
               qci_queueCount := to_uint32 (0 + 1);
               qci_queuePriorities := n |}]>
          (queue_create_infos st ++
             [{| qci_queueFamilyIndex := f; qci_queueCount := 0;
                 qci_queuePriorities := n |}])
      = (qci_queueFamilyIndex <$> queue_create_infos st) ++ [f]).
    { rewrite list_fmap_insert, fmap_app. simpl. apply list_insert_id.
      rewrite lookup_app_r by (by rewrite length_fmap).
      by rewrite length_fmap, Nat.sub_diag. }
    split; [| split; [| split; [| split]]]; simpl.
    + rewrite Hidx, queue_slots_snoc, Hfresh. reflexivity.
    + rewrite Hfams. apply NoDup_app. split; [exact Hnd |].
      split; [| apply NoDup_singleton].
      intros g Hg Hgf. apply list_elem_of_singleton in Hgf as ->. by apply Hnew.
    + intros g j. rewrite Hfams.
      destruct (decide (g = f)) as [-> | Hne].
      * rewrite lookup_insert_eq. split.
        -- intros [= <-]. rewrite lookup_app_r by (by rewrite length_fmap).
           by rewrite length_fmap, Nat.sub_diag.
        -- intros Hj. f_equal.
           destruct (decide (j < length (queue_create_infos st))%nat)
             as [Hlt | Hge].
           ++ rewrite lookup_app_l in Hj by (by rewrite length_fmap).
              exfalso. apply Hnew. by eapply list_elem_of_lookup_2.
           ++ apply lookup_lt_Some in Hj.
              rewrite length_app, length_fmap in Hj. simpl in Hj. lia.
      * rewrite lookup_insert_ne by done. rewrite Hmap. split.
        -- intros Hj. by rewrite lookup_app_l by (by eapply lookup_lt_Some).
        -- intros Hj.
           destruct (decide (j < length (queue_create_infos st))%nat)
             as [Hlt | Hge].
           ++ by rewrite lookup_app_l in Hj by (by rewrite length_fmap).
           ++ rewrite lookup_app_r in Hj by (rewrite length_fmap; lia).
              apply list_elem_of_lookup_2, list_elem_of_singleton in Hj.
              congruence.
    + intros g. rewrite Hfams, !elem_of_app, Hmem. reflexivity.
    + intros info' Hin. apply list_elem_of_lookup in Hin as [j Hj].
      destruct (decide (j = length (queue_create_infos st))) as [-> | Hne].
      * rewrite list_lookup_insert_eq in Hj
          by (rewrite length_app; simpl; lia).
        injection Hj as <-. simpl. split; [| reflexivity].
        rewrite occurrences_app, Hfresh.
        unfold occurrences. rewrite filter_cons, decide_True by done.
        reflexivity.
      * rewrite list_lookup_insert_ne in Hj by done.
        assert (Hlt : (j < length (queue_create_infos st))%nat).
        { apply lookup_lt_Some in Hj. rewrite length_app in Hj. simpl in Hj.
          lia. }
        rewrite lookup_app_l in Hj by exact Hlt.
        destruct (Hinfo info') as [Hc Hp]; [by eapply list_elem_of_lookup_2 |].
        split; [| exact Hp].
        rewrite occurrences_app, Hc.
        assert (Hother : qci_queueFamilyIndex info' <> f).
        { intros Heq. apply Hnew. rewrite <- Heq.
          apply list_elem_of_fmap_2. by eapply list_elem_of_lookup_2. }
        assert (Hzero : occurrences (qci_queueFamilyIndex info') [f] = O)
          by (unfold occurrences; rewrite filter_cons, decide_False by done;
              reflexivity).
        rewrite Hzero. lia.
Qed.

Lemma request_queues_match (physical : VkPhysicalDevice) (n : nat)
    (qs : list QueueType) :
  Z.of_nat (length qs) < 2 ^ 32 ->
  requests_match n (SelectQueue physical <$> qs)
    (fold_left (request_queue physical n) qs no_QueueRequests).
Proof.
  induction qs as [| q qs IH] using rev_ind; intros Hlen.
  - split; [reflexivity |]. split; [constructor |].
    split; [intros f i; simpl; by rewrite lookup_empty |].
    split; [intros f; simpl; reflexivity |].
    intros info Hin. simpl in Hin. by apply elem_of_nil in Hin.
  - rewrite length_app in Hlen. simpl in Hlen.
    rewrite fold_left_app, fmap_app. simpl.
    apply request_queue_match; [apply IH; lia |].
    rewrite length_fmap. lia.
Qed.

Lemma queue_slots_lookup (fams : list Z) (i : nat) (f k : Z) :
  queue_slots fams !! i = Some (f, k) ->
  fams !! i = Some f /\ k = Z.of_nat (occurrences f (take i fams)).
Proof.
  unfold queue_slots. rewrite list_lookup_imap.
  destruct (fams !! i) as [g |]; simpl; [| discriminate].
  intros [= -> <-]. by split.
Qed.

Lemma occurrences_take_lt (fams : list Z) (i : nat) (f : Z) :
  fams !! i = Some f ->
  (occurrences f (take i fams) < occurrences f fams)%nat.
Proof.
  intros Hi. rewrite <- (take_drop_middle fams i f Hi) at 2.
  rewrite occurrences_app. unfold occurrences at 3.
  rewrite filter_cons, decide_True by done. simpl. lia.
Qed.

Lemma queue_slots_NoDup (fams : list Z) : NoDup (queue_slots fams).
Proof.
  apply NoDup_alt. intros i j [f k] Hi Hj.
  apply queue_slots_lookup in Hi as [Hi Hki].
  apply queue_slots_lookup in Hj as [Hj Hkj].
  assert (Hmono : forall a b : nat,
            (a < b)%nat -> fams !! a = Some f -> fams !! b = Some f ->
            (occurrences f (take a fams) < occurrences f (take b fams))%nat).
  { intros a b Hab Ha Hb.
    replace (take a fams) with (take a (take b fams))
      by (rewrite take_take; f_equal; lia).
    apply occurrences_take_lt. by rewrite lookup_take_lt. }
  destruct (Nat.lt_trichotomy i j) as [Hlt | [Heq | Hgt]]; [| exact Heq |].
  - specialize (Hmono i j Hlt Hi Hj). lia.
  - specialize (Hmono j i Hgt Hj Hi). lia.
Qed.

End QueueRequestFacts.

(** The loop over the requested queue types keeps one create-info per
    family, whose queue count is the number of requests for that family
    and whose priorities are the shared array; request number [i] gets the
    pair of its family and the number of earlier requests for the same
    family.  So the pairs later handed to [vkGetDeviceQueue] are all
    different, and each index lies below the queue count requested for its
    family. *)
Theorem queue_requests_bookkeeping (physical : VkPhysicalDevice)
    (priorities : nat) (queues_ : list QueueType) :
  Z.of_nat (length queues_) < 2 ^ 32 ->
  let fams := SelectQueue physical <$> queues_ in
  let st := fold_left (request_queue physical priorities) queues_
              no_QueueRequests in
  queue_indices st = queue_slots fams /\
  NoDup (queue_indices st) /\
  NoDup (qci_queueFamilyIndex <$> queue_create_infos st) /\
  (forall info : VkDeviceQueueCreateInfo,
      info ∈ queue_create_infos st ->
      qci_queueFamilyIndex info ∈ fams /\
      qci_queueCount info
        = Z.of_nat (occurrences (qci_queueFamilyIndex info) fams) /\
      qci_queuePriorities info = priorities) /\
  (forall f k : Z,
      (f, k) ∈ queue_indices st ->
      exists info : VkDeviceQueueCreateInfo,
        info ∈ queue_create_infos st /\
        qci_queueFamilyIndex info = f /\
        0 <= k < qci_queueCount info).
Proof.
  intros Hlen fams st.
  destruct (request_queues_match physical priorities queues_ Hlen)
    as (Hidx & Hnd & _ & Hmem & Hinfo).
  fold fams in Hidx, Hmem, Hinfo. fold st in Hidx, Hnd, Hmem, Hinfo.
  split; [exact Hidx |].
  split; [rewrite Hidx; apply queue_slots_NoDup |].
  split; [exact Hnd |]. split.
  - intros info Hin. destruct (Hinfo info Hin) as [Hc Hp].
    split; [| by split]. apply Hmem. by apply list_elem_of_fmap_2.
  - intros f k Hin. rewrite Hidx in Hin.
    apply list_elem_of_lookup in Hin as [i Hi].
    apply queue_slots_lookup in Hi as [Hi ->].
    assert (Hf : f ∈ qci_queueFamilyIndex <$> queue_create_infos st)
      by (apply Hmem; by eapply list_elem_of_lookup_2).
    apply list_elem_of_fmap in Hf as (info & -> & Hin).
    exists info. split; [exact Hin |]. split; [reflexivity |].
    destruct (Hinfo info Hin) as [-> _].
    pose proof (occurrences_take_lt fams i _ Hi). lia.
Qed.

Lemma queue_requests_bookkeeping_witness :
  let fams := SelectQueue three_family_gpu <$> [Graphics; Compute; Compute] in
  let st := fold_left (request_queue three_family_gpu 3)
              [Graphics; Compute; Compute] no_QueueRequests in
  queue_indices st = queue_slots fams /\
  NoDup (queue_indices st) /\
  NoDup (qci_queueFamilyIndex <$> queue_create_infos st) /\
  (forall info : VkDeviceQueueCreateInfo,
      info ∈ queue_create_infos st ->
      qci_queueFamilyIndex info ∈ fams /\
      qci_queueCount info
        = Z.of_nat (occurrences (qci_queueFamilyIndex info) fams) /\
      qci_queuePriorities info = 3%nat) /\
  (forall f k : Z,
      (f, k) ∈ queue_indices st ->
      exists info : VkDeviceQueueCreateInfo,
        info ∈ queue_create_infos st /\
        qci_queueFamilyIndex info = f /\
        0 <= k < qci_queueCount info).
Proof.
  apply (queue_requests_bookkeeping three_family_gpu 3
           [Graphics; Compute; Compute]).
  simpl. lia.
Defined.

(** On the three-family machine the requests of the multi-queue test,
    graphics, compute, compute, become family 0 index 0, family 1 index 0
    and family 1 index 1. *)
Example multi_queue_slots :
  queue_indices
    (fold_left (request_queue three_family_gpu 3)
       [Graphics; Compute; Compute] no_QueueRequests)
  = [(0, 0); (1, 0); (1, 1)].
Proof. vm_compute. reflexivity. Qed.

(* ===================================================================== *)
(** ** What device initialisation leaves behind: proofs *)
(* ===================================================================== *)

Section DeviceInitFacts.

(** Naming an object that returned: the pointer called through is not
    null. *)
Lemma run_SetObjectDebugName_resolved (drv : Driver) (hist : list Event)
    (dev : VulkanDevice) (handle : Z) (type : VkObjectType) (n : string)
    (t : list Event) :
  run drv hist (SetObjectDebugName dev handle type (Some n)) = (Done tt, t) ->
  naming_resolved dev.
Proof.
  unfold SetObjectDebugName, naming_resolved.
  destruct (SetDebugUtilsObjectNameEXT dev) as [| proc]; [done |].
  destruct (Z.eqb_spec proc 0) as [-> | Hne]; [discriminate | done].
Qed.

(** The loop that fetches the queues and creates their command pools. *)
Lemma create_queues_calls (drv : Driver) (vk : Handle)
    (indices : list (Z * Z)) :
  forall (hist : list Event) (dev dev' : VulkanDevice) (t : list Event),
    run drv hist (create_queues vk indices dev) = (Done dev', t) ->
    exists qreplies preplies : list Reply,
      length qreplies = length indices /\
      length preplies = length indices /\
      dev' = set_commandPools (commandPools dev ++ (out <$> preplies))
               (set_queues (queues dev ++ (out <$> qreplies)) dev) /\
      Forall (fun e => names_object e = false) t /\
      forall (i : nat) (f k : Z),
        indices !! i = Some (f, k) ->
        exists qr pr : Reply,
          qreplies !! i = Some qr /\ preplies !! i = Some pr /\
          (vkGetDeviceQueue vk f k, Some qr) ∈ t /\
          (vkCreateCommandPool vk f, Some pr) ∈ t /\
          result pr = VK_SUCCESS.
Proof.
  induction indices as [| [f0 k0] rest IH]; intros hist dev dev' t H.
  - simpl in H. inversion H; subst. exists [], [].
    split; [done |]. split; [done |].
    split; [by rewrite !app_nil_r; destruct dev' |].
    split; [constructor |]. intros i f k Hi. discriminate.
  - cbn [create_queues] in H.
    apply run_bind_Done in H as (q & ta & ? & Hq & H & ->).
    apply run_call_Done in Hq as (_ & ->).
    apply run_bind_Done in H as (pool & tc & ? & Hp & H & ->).
    apply run_check_Done in Hp as (_ & Hok & ->).
    apply IH in H as (qs & ps & Hlq & Hlp & -> & Hnames & Hall).
    exists (q :: qs), (pool :: ps). simpl.
    split; [by rewrite Hlq |]. split; [by rewrite Hlp |].
    split; [unfold set_commandPools, set_queues; simpl;
            by rewrite <- !app_assoc |].
    split; [by repeat constructor |].
    intros [| i] f k Hi; simpl in Hi.
    + injection Hi as -> ->. exists q, pool.
      split; [done |]. split; [done |].
      split; [apply list_elem_of_here |].
      split; [apply list_elem_of_further, list_elem_of_here | exact Hok].
    + destruct (Hall i f k Hi) as (qr & pr & ? & ? & Hqin & Hpin & ?).
      exists qr, pr. split; [done |]. split; [done |].
      split; [by do 2 apply list_elem_of_further |].
      split; [by do 2 apply list_elem_of_further | done].
Qed.

(** The kernel block changes neither the queues nor the naming pointer,
    and names objects only through the driver's entry point. *)
Lemma build_compute_pipeline_keeps (host : Host) (drv : Driver)
    (hist : list Event) (vk : Handle) (path : string)
    (dev dev' : VulkanDevice) (t : list Event) :
  run drv hist (build_compute_pipeline host vk path dev) = (Done dev', t) ->
  same_queues dev dev' /\
  (SetDebugUtilsObjectNameEXT dev = DummySetDebugUtilsObjectNameEXT ->
   Forall (fun e => names_object e = false) t).
Proof.
  intros H. unfold build_compute_pipeline in H. cbv zeta in H.
  apply run_bind_Done in H as (loaded & t1 & ? & H1 & H & ->).
  assert (Ht1 : Forall (fun e => names_object e = false) t1).
  { unfold LoadShader, CreateShader, VK_CHECK_RESULT in H1.
    destruct (files host path) as [| | buffer];
      try (inversion H1; constructor).
    simpl in H1. destruct (drv hist _) as [r |]; [| discriminate].
    destruct (result r =? VK_SUCCESS); inversion H1;
      by repeat constructor. }
  clear H1.
  apply run_bind_Done in H as (rpool & t4 & ? & H4 & H & ->).
  apply run_check_Done in H4 as (_ & _ & ->).
  apply run_bind_Done in H as (rl & t5 & ? & H5 & H & ->).
  apply run_check_Done in H5 as (_ & _ & ->).
  apply run_bind_Done in H as (rpl & t6 & ? & H6 & H & ->).
  apply run_check_Done in H6 as (_ & _ & ->).
  apply run_bind_Done in H as (u1 & t7 & ? & H7 & H & ->).
  apply run_bind_Done in H as (rp & t8 & ? & H8 & H & ->).
  apply run_check_Done in H8 as (_ & _ & ->).
  apply run_bind_Done in H as (u2 & t9 & ? & H9 & H & ->).
  simpl in H. inversion H; subst; clear H.
  split; [by repeat split |].
  intros Hd.
  rewrite run_SetObjectDebugName_Dummy in H7 by exact Hd.
  rewrite run_SetObjectDebugName_Dummy in H9 by exact Hd.
  inversion H7; inversion H9; subst.
  rewrite !Forall_app. repeat split; try done; by repeat constructor.
Qed.

(** What a completed [InitVulkanDevice] did. *)
Lemma InitVulkanDevice_Done (host : Host) (drv : Driver) (hist : list Event)
    (context : VulkanContext) (device_extensions : option (list string))
    (path : option string) (queues_ : option (list QueueType))
    (ctx' : VulkanContext) (h : Handle) (trace : list Event) :
  run drv hist
    (InitVulkanDevice host context device_extensions path queues_)
    = (Done (ctx', h), trace) ->
  exists (qs : list QueueType) (physical : VkPhysicalDevice)
         (others : list VkPhysicalDevice) (created : Reply)
         (d : VulkanDevice),
    requested_queues host queues_ qs /\
    gpus host = physical :: others /\
    ctx' = set_devices (devices context ++ [d])
             (set_ctx_physicalDevice (Some physical) context) /\
    h = out created /\ result created = VK_SUCCESS /\
    device d = h /\ physicalDevice d = Some physical /\
    (let requests :=
       fold_left (request_queue physical (length qs)) qs no_QueueRequests in
     (vkCreateDevice (physical_handle physical)
        {| pQueueCreateInfos := queue_create_infos requests;
           queueCreateInfoCount :=
             to_uint32 (Z.of_nat (length (queue_create_infos requests)));
           ppEnabledExtensionNames := device_extensions |}, Some created)
       ∈ trace /\
     exists qreplies preplies : list Reply,
       length qreplies = length (queue_indices requests) /\
       length preplies = length (queue_indices requests) /\
       queues d = out <$> qreplies /\
       commandPools d = out <$> preplies /\
       queue d = head (queues d) /\
       commandPool d = head (commandPools d) /\
       forall (i : nat) (f k : Z),
         queue_indices requests !! i = Some (f, k) ->
         exists qr pr : Reply,
           qreplies !! i = Some qr /\ preplies !! i = Some pr /\
           (vkGetDeviceQueue h f k, Some qr) ∈ trace /\
           (vkCreateCommandPool h f, Some pr) ∈ trace /\
           result pr = VK_SUCCESS) /\
    match GetFlag host "--debug_utils" with
    | Some _ =>
        exists (name : Reply) (past : list Event),
          drv past (vkGetDeviceProcAddr h "vkSetDebugUtilsObjectNameEXT")
            = Some name /\
          SetDebugUtilsObjectNameEXT d
            = DriverSetDebugUtilsObjectNameEXT (out name) /\
          out name <> 0
    | None =>
        SetDebugUtilsObjectNameEXT d = DummySetDebugUtilsObjectNameEXT /\
        Forall (fun e => names_object e = false) trace
    end.
Proof.
  intros H. unfold InitVulkanDevice in H.
  apply run_bind_Done in H as (qs & t0 & ? & Hqs & H & ->).
  assert (Hqs' : t0 = [] /\ requested_queues host queues_ qs).
  { unfold requested_queues. destruct queues_ as [l |].
    - simpl in Hqs. by inversion Hqs.
    - apply run_bind_Done in Hqs as (qt & t00 & ? & Hqt & Hqs & ->).
      pose proof (run_QueueTypeFromString _ _ _ _ _ _ Hqt) as ->.
      simpl in Hqs. inversion Hqs; subst. split; [reflexivity |].
      exists qt. split; [| reflexivity].
      revert Hqt. unfold QueueTypeFromString.
      destruct (GetFlag host "--queue"); [repeat case_decide |];
        simpl; intros Hqt; by inversion Hqt. }
  destruct Hqs' as [-> Hreq]. clear Hqs.
  apply run_bind_Done in H as (e1 & t1 & ? & He1 & H & ->).
  apply run_check_Done in He1 as (_ & _ & ->).
  apply run_bind_Done in H as (e2 & t2 & ? & He2 & H & ->).
  apply run_check_Done in He2 as (_ & _ & ->).
  destruct (gpus host) as [| physical others]; [discriminate H |].
  cbv zeta in H.
  apply run_bind_Done in H as (created & t3 & ? & Hc & H & ->).
  apply run_check_Done in Hc as (_ & Hcreated & ->).
  apply run_bind_Done in H as (marker & t4 & ? & H4 & H & ->).
  apply run_call_Done in H4 as (_ & ->).
  apply run_bind_Done in H as (signal & t5 & ? & H5 & H & ->).
  apply run_call_Done in H5 as (_ & ->).
  apply run_bind_Done in H as (wait & t6 & ? & H6 & H & ->).
  apply run_call_Done in H6 as (_ & ->).
  apply run_bind_Done in H as (dev1 & t7 & ? & H7 & H & ->).
  set (dev0 := set_WaitSemaphoresKHR (out wait)
                 (set_SignalSemaphoreKHR (out signal)
                    (set_CmdWriteBufferMarkerAMD (out marker)
                       (set_physicalDevice (Some physical)
                          (set_device (out created) default_VulkanDevice)))))
    in *.
  apply run_bind_Done in H as (u1 & t8 & ? & H8 & H & ->).
  apply run_bind_Done in H as (u2 & t9 & ? & H9 & H & ->).
  apply run_bind_Done in H as (u3 & t10 & ? & H10 & H & ->).
  (* the naming pointer, and what the three names added to the trace *)
  assert (Hnaming :
    dev1 = set_SetDebugUtilsObjectNameEXT (SetDebugUtilsObjectNameEXT dev1)
             dev0 /\
    match GetFlag host "--debug_utils" with
    | Some _ =>
        exists (name : Reply) (past : list Event),
          drv past (vkGetDeviceProcAddr (out created)
                      "vkSetDebugUtilsObjectNameEXT") = Some name /\
          SetDebugUtilsObjectNameEXT dev1
            = DriverSetDebugUtilsObjectNameEXT (out name) /\
          out name <> 0
    | None =>
        SetDebugUtilsObjectNameEXT dev1 = DummySetDebugUtilsObjectNameEXT /\
        t7 = [] /\ t8 = [] /\ t9 = [] /\ t10 = []
    end).
  { destruct (GetFlag host "--debug_utils").
    - apply run_bind_Done in H7 as (name & t70 & ? & Hname & H7 & ->).
      apply run_call_Done in Hname as (Hdrv & ->).
      simpl in H7. inversion H7; subst.
      split; [reflexivity |]. eexists name, _. split; [exact Hdrv |].
      split; [reflexivity |].
      destruct u1. by apply run_SetObjectDebugName_resolved in H8.
    - simpl in H7. inversion H7; subst.
      split; [reflexivity |]. split; [reflexivity |]. split; [reflexivity |].
      rewrite run_SetObjectDebugName_Dummy in H8, H9, H10 by reflexivity.
      inversion H8; inversion H9; inversion H10; by subst. }
  destruct Hnaming as (Hdev1 & Hflag). clear H7 H8 H9 H10.
  set (fn := SetDebugUtilsObjectNameEXT dev1) in *. clearbody fn. subst dev1.
  set (requests :=
         fold_left (request_queue physical (length qs)) qs no_QueueRequests)
    in *.
  destruct (queue_indices requests) as [| qi indices] eqn:Eqi.
  - (* no queue was requested: the early return *)
    simpl in H. inversion H; subst; clear H.
    exists qs, physical, others, created,
      (set_SetDebugUtilsObjectNameEXT fn dev0).
    split; [exact Hreq |]. split; [reflexivity |]. split; [reflexivity |].
    split; [reflexivity |]. split; [exact Hcreated |].
    split; [reflexivity |]. split; [reflexivity |]. split.
    + cbv zeta. fold requests. rewrite Eqi.
      split; [do 2 apply list_elem_of_further; apply list_elem_of_here |].
      exists [], []. repeat (split; [reflexivity |]).
      intros i f k Hi. discriminate.
    + destruct (GetFlag host "--debug_utils"); [exact Hflag |].
      destruct Hflag as (Hfn & -> & -> & -> & ->).
      split; [exact Hfn |]. by repeat constructor.
  - (* queues were requested *)
    rewrite <- Eqi in H.
    apply run_bind_Done in H as (dev2 & t11 & ? & H11 & H & ->).
    apply create_queues_calls in H11
      as (qreplies & preplies & Hlq & Hlp & -> & Hq11 & Hcalls).
    apply run_bind_Done in H as (u4 & t12 & ? & H12 & H & ->).
    apply run_bind_Done in H as (u5 & t13 & ? & H13 & H & ->).
    apply run_bind_Done in H as (dev3 & t14 & ? & H14 & H & ->).
    simpl in H. inversion H; subst; clear H.
    assert (Hkeep :
      same_queues
        (set_commandPool (head (out <$> preplies))
           (set_queue (head (out <$> qreplies))
              (set_commandPools (out <$> preplies)
                 (set_queues (out <$> qreplies)
                    (set_SetDebugUtilsObjectNameEXT fn dev0))))) dev3 /\
      (fn = DummySetDebugUtilsObjectNameEXT ->
       Forall (fun e => names_object e = false) t14)).
    { destruct path as [p |].
      - apply build_compute_pipeline_keeps in H14. exact H14.
      - simpl in H14. inversion H14; subst.
        split; [by repeat split | constructor]. }
    destruct Hkeep as [(Hdev & Hphys & Hqueues & Hqueue & Hpools & Hpool & Hfn)
                         Hquiet].
    simpl in Hdev, Hphys, Hqueues, Hqueue, Hpools, Hpool, Hfn.
    exists qs, physical, others, created, dev3.
    split; [exact Hreq |]. split; [reflexivity |]. split; [reflexivity |].
    split; [exact Hdev |]. split; [exact Hcreated |].
    split; [reflexivity |]. split; [exact Hphys |]. split.
    + cbv zeta. fold requests.
      split; [do 2 apply list_elem_of_further; apply list_elem_of_here |].
      exists qreplies, preplies.
      split; [exact Hlq |]. split; [exact Hlp |].
      split; [exact Hqueues |]. split; [exact Hpools |].
      split; [by rewrite Hqueue, Hqueues |].
      split; [by rewrite Hpool, Hpools |].
      intros i f k Hi. destruct (Hcalls i f k Hi)
        as (qr & pr & Hqr & Hpr & Hqin & Hpin & Hok).
      exists qr, pr. split; [exact Hqr |]. split; [exact Hpr |].
      rewrite Hdev. simpl.
      split; [| split; [| exact Hok]];
        do 6 apply list_elem_of_further;
        rewrite !elem_of_app; tauto.
    + rewrite Hdev. simpl.
      destruct (GetFlag host "--debug_utils");
        [destruct Hflag as (name & past & ? & -> & ?);
         exists name, past; by rewrite Hfn |].
      destruct Hflag as (-> & -> & -> & -> & ->).
      split; [by rewrite Hfn |].
      rewrite run_SetObjectDebugName_Dummy in H12, H13 by reflexivity.
      inversion H12; inversion H13; subst.
      specialize (Hquiet eq_refl). simpl.
      repeat (apply Forall_cons_2; [reflexivity |]).
      rewrite app_nil_r. by apply Forall_app_2.
Qed.

End DeviceInitFacts.

(** The record a completed [InitVulkanDevice] registers holds one queue
    and one command pool per requested queue type, in the order of the
    requests: queue [i] is what [vkGetDeviceQueue] gave for the family
    [SelectQueue] picks for request [i] and for the index that counts the
    earlier requests of the same family, and pool [i] was created, with
    success, for that family.  The default queue and the default pool are
    the first of each. *)
Theorem InitVulkanDevice_queues
    (host : Host) (drv : Driver) (hist : list Event)
    (context : VulkanContext) (device_extensions : option (list string))
    (path : option string) (queues_ : option (list QueueType))
    (ctx' : VulkanContext) (h : Handle) (trace : list Event) :
  match queues_ with
  | Some l => Z.of_nat (length l) < 2 ^ 32
  | None => True
  end ->
  run drv hist
    (InitVulkanDevice host context device_extensions path queues_)
    = (Done (ctx', h), trace) ->
  exists (qs : list QueueType) (physical : VkPhysicalDevice)
         (d : VulkanDevice),
    requested_queues host queues_ qs /\
    head (gpus host) = Some physical /\
    last (devices ctx') = Some d /\
    length (queues d) = length qs /\
    length (commandPools d) = length qs /\
    queue d = head (queues d) /\
    commandPool d = head (commandPools d) /\
    forall (i : nat) (queue_type : QueueType),
      qs !! i = Some queue_type ->
      let family := SelectQueue physical queue_type in
      let index :=
        Z.of_nat (occurrences family (take i (SelectQueue physical <$> qs))) in
      exists qr pr : Reply,
        queues d !! i = Some (out qr) /\
        commandPools d !! i = Some (out pr) /\
        (vkGetDeviceQueue h family index, Some qr) ∈ trace /\
        (vkCreateCommandPool h family, Some pr) ∈ trace /\
        result pr = VK_SUCCESS.
Proof.
  intros Hlen H.
  destruct (InitVulkanDevice_Done _ _ _ _ _ _ _ _ _ _ H)
    as (qs & physical & others & created & d & Hreq & Hgpus & -> & -> & _ &
        Hdev & _ & [_ (qreplies & preplies & Hlq & Hlp & Hqs & Hps & Hq & Hp &
                       Hcalls)] & _).
  assert (Hqlen : Z.of_nat (length qs) < 2 ^ 32).
  { unfold requested_queues in Hreq. destruct queues_ as [l |].
    - by subst.
    - destruct Hreq as (qt & _ & ->). simpl. lia. }
  destruct (request_queues_match physical (length qs) qs Hqlen)
    as (Hidx & _).
  rewrite Hidx in Hlq, Hlp, Hcalls.
  assert (Hslots : length (queue_slots (SelectQueue physical <$> qs))
                   = length qs)
    by (unfold queue_slots; by rewrite length_imap, length_fmap).
  exists qs, physical, d.
  split; [exact Hreq |]. split; [by rewrite Hgpus |].
  split; [simpl; by rewrite last_snoc |].
  split; [rewrite Hqs, length_fmap; lia |].
  split; [rewrite Hps, length_fmap; lia |].
  split; [exact Hq |]. split; [exact Hp |].
  intros i queue_type Hi family index.
  destruct (Hcalls i family index) as (qr & pr & Hqr & Hpr & Hqin & Hpin & Hok).
  { unfold queue_slots. rewrite list_lookup_imap, list_lookup_fmap, Hi.
    reflexivity. }
  exists qr, pr.
  split; [by rewrite Hqs, list_lookup_fmap, Hqr |].
  split; [by rewrite Hps, list_lookup_fmap, Hpr |].
  split; [exact Hqin |]. split; [exact Hpin | exact Hok].
Qed.

Lemma InitVulkanDevice_queues_witness :
  exists (ctx' : VulkanContext) (h : Handle) (trace : list Event),
    run obliging_driver []
      (InitVulkanDevice kernel_host started_context None None
         (Some [Graphics; Compute; Compute]))
      = (Done (ctx', h), trace) /\
    exists (qs : list QueueType) (physical : VkPhysicalDevice)
           (d : VulkanDevice),
      requested_queues kernel_host (Some [Graphics; Compute; Compute]) qs /\
      head (gpus kernel_host) = Some physical /\
      last (devices ctx') = Some d /\
      length (queues d) = length qs /\
      length (commandPools d) = length qs /\
      queue d = head (queues d) /\
      commandPool d = head (commandPools d) /\
      forall (i : nat) (queue_type : QueueType),
        qs !! i = Some queue_type ->
        let family := SelectQueue physical queue_type in
        let index :=
          Z.of_nat (occurrences family
                      (take i (SelectQueue physical <$> qs))) in
        exists qr pr : Reply,
          queues d !! i = Some (out qr) /\
          commandPools d !! i = Some (out pr) /\
          (vkGetDeviceQueue h family index, Some qr) ∈ trace /\
          (vkCreateCommandPool h family, Some pr) ∈ trace /\
          result pr = VK_SUCCESS.
Proof.
  assert (E : exists c h t,
             run obliging_driver []
               (InitVulkanDevice kernel_host started_context None None
                  (Some [Graphics; Compute; Compute]))
             = (Done (c, h), t))
    by (eexists _, _, _; vm_compute; reflexivity).
  destruct E as (c & h & t & E). exists c, h, t. split; [exact E |].
  apply (InitVulkanDevice_queues kernel_host obliging_driver []
           started_context None None (Some [Graphics; Compute; Compute])
           c h t).
  - simpl. lia.
  - exact E.
Defined.

(** The handle [InitVulkanDevice] returns can be looked up afterwards:
    [GetDevice] finds a record with that handle, and it is the record
    just registered unless an older record of the context carries the
    same handle, which [GetDevice] then returns instead.  The context's
    physical device is the first one enumerated. *)
Theorem GetDevice_after_InitVulkanDevice
    (host : Host) (drv : Driver) (hist : list Event)
    (context : VulkanContext) (device_extensions : option (list string))
    (path : option string) (queues_ : option (list QueueType))
    (ctx' : VulkanContext) (h : Handle) (trace : list Event) :
  run drv hist
    (InitVulkanDevice host context device_extensions path queues_)
    = (Done (ctx', h), trace) ->
  ctx_physicalDevice ctx' = head (gpus host) /\
  exists (i : nat) (d : VulkanDevice),
    GetDevice ctx' h = Some i /\
    devices ctx' !! i = Some d /\
    device d = h /\
    (i <= length (devices context))%nat /\
    ((forall d0 : VulkanDevice, d0 ∈ devices context -> device d0 <> h) ->
     i = length (devices context)).
Proof.
  intros H.
  destruct (InitVulkanDevice_Done _ _ _ _ _ _ _ _ _ _ H)
    as (qs & physical & others & created & d & _ & Hgpus & -> & _ & _ &
        Hdev & _).
  split; [by rewrite Hgpus |].
  unfold GetDevice. simpl devices.
  set (p := fun d0 : VulkanDevice => device d0 =? h).
  assert (Hhere : (find_if p (devices context ++ [d])
                   <= length (devices context))%nat).
  { destruct (decide (find_if p (devices context ++ [d])
                      <= length (devices context))%nat) as [Hle | Hgt];
      [exact Hle |].
    assert (Hd : p d = false).
    { apply (find_if_before p (devices context ++ [d])
               (length (devices context))); [lia |].
      by rewrite list_lookup_middle. }
    unfold p in Hd. apply Z.eqb_neq in Hd. contradiction. }
  assert (Hlt : (find_if p (devices context ++ [d])
                 < length (devices context ++ [d]))%nat)
    by (rewrite length_app; simpl; lia).
  rewrite decide_True by exact Hlt.
  destruct (find_if_found p _ Hlt) as (d1 & Hd1 & Hp1).
  exists (find_if p (devices context ++ [d])), d1.
  split; [reflexivity |]. split; [exact Hd1 |].
  split; [by apply Z.eqb_eq |]. split; [exact Hhere |].
  intros Hfresh.
  destruct (decide (find_if p (devices context ++ [d])
                    = length (devices context))) as [Heq | Hne];
    [exact Heq |].
  exfalso. rewrite lookup_app_l in Hd1 by lia.
  apply (Hfresh d1); [by eapply list_elem_of_lookup_2 | by apply Z.eqb_eq].
Qed.

Lemma GetDevice_after_InitVulkanDevice_witness :
  exists (ctx' : VulkanContext) (h : Handle) (trace : list Event),
    run obliging_driver []
      (InitVulkanDevice kernel_host started_context None None None)
      = (Done (ctx', h), trace) /\
    ctx_physicalDevice ctx' = head (gpus kernel_host) /\
    exists (i : nat) (d : VulkanDevice),
      GetDevice ctx' h = Some i /\
      devices ctx' !! i = Some d /\
      device d = h /\
      (i <= length (devices started_context))%nat /\
      ((forall d0 : VulkanDevice,
           d0 ∈ devices started_context -> device d0 <> h) ->
       i = length (devices started_context)).
Proof.
  assert (E : exists c h t,
             run obliging_driver []
               (InitVulkanDevice kernel_host started_context None None None)
             = (Done (c, h), t))
    by (eexists _, _, _; vm_compute; reflexivity).
  destruct E as (c & h & t & E). exists c, h, t. split; [exact E |].
  exact (GetDevice_after_InitVulkanDevice kernel_host obliging_driver []
           started_context None None None c h t E).
Defined.

(** Without [--debug_utils] nothing is ever named: a completed
    [InitVulkanDevice] has made no naming call, and the record it
    registered carries the local no-op, so that naming an object through
    it calls nothing either, whatever the driver. *)
Theorem InitVulkanDevice_without_debug_utils
    (host : Host) (drv : Driver) (hist : list Event)
    (context : VulkanContext) (device_extensions : option (list string))
    (path : option string) (queues_ : option (list QueueType))
    (ctx' : VulkanContext) (h : Handle) (trace : list Event) :
  GetFlag host "--debug_utils" = None ->
  run drv hist
    (InitVulkanDevice host context device_extensions path queues_)
    = (Done (ctx', h), trace) ->
  Forall (fun e => names_object e = false) trace /\
  exists d : VulkanDevice,
    last (devices ctx') = Some d /\
    forall (drv' : Driver) (hist' : list Event) (handle : Z)
           (type : VkObjectType) (name : option string),
      run drv' hist' (SetObjectDebugName d handle type name) = (Done tt, []).
Proof.
  intros Hflag H.
  destruct (InitVulkanDevice_Done _ _ _ _ _ _ _ _ _ _ H)
    as (qs & physical & others & created & d & _ & _ & -> & _ & _ & _ & _ &
        _ & Hnaming).
  rewrite Hflag in Hnaming. destruct Hnaming as [Hdummy Hquiet].
  split; [exact Hquiet |]. exists d.
  split; [simpl; by rewrite last_snoc |].
  intros drv' hist' handle type name.
  by apply run_SetObjectDebugName_Dummy.
Qed.

Lemma InitVulkanDevice_without_debug_utils_witness :
  exists (ctx' : VulkanContext) (h : Handle) (trace : list Event),
    run obliging_driver []
      (InitVulkanDevice kernel_host started_context None
         (Some "read_write.comp.spv") None)
      = (Done (ctx', h), trace) /\
    Forall (fun e => names_object e = false) trace /\
    exists d : VulkanDevice,
      last (devices ctx') = Some d /\
      forall (drv' : Driver) (hist' : list Event) (handle : Z)
             (type : VkObjectType) (name : option string),
        run drv' hist' (SetObjectDebugName d handle type name)
          = (Done tt, []).
Proof.
  assert (E : exists c h t,
             run obliging_driver []
               (InitVulkanDevice kernel_host started_context None
                  (Some "read_write.comp.spv") None)
             = (Done (c, h), t))
    by (eexists _, _, _; vm_compute; reflexivity).
  destruct E as (c & h & t & E). exists c, h, t. split; [exact E |].
  apply (InitVulkanDevice_without_debug_utils kernel_host obliging_driver []
           started_context None (Some "read_write.comp.spv") None c h t).
  - reflexivity.
  - exact E.
Defined.



(** On that driver the call through the null pointer is the first thing
    that happens after the four address lookups. *)
Example null_naming_entry_crashes :
  let '(o, trace) :=
    run driver_without_debug_utils []
      (InitVulkanDevice debug_utils_host started_context None None None) in
  o = Crashed /\
  last (map fst trace)
    = Some (vkGetDeviceProcAddr 102 "vkSetDebugUtilsObjectNameEXT").
Proof. vm_compute. split; reflexivity. Qed.

(** On a machine where no physical device is enumerated
    [InitVulkanDevice] never returns, whatever the driver replies and
    whichever queues are asked for.  The only driver calls are the
    enumerations, at most two, both with a null data pointer (the second
    passes [data()] of an empty vector); and the run reaches [front()] of
    the empty vector exactly when both enumerations succeed. *)
Theorem InitVulkanDevice_without_physical_device
    (host : Host) (drv : Driver) (hist : list Event)
    (context : VulkanContext) (device_extensions : option (list string))
    (path : option string) (queues_ : option (list QueueType))
    (o : Outcome (VulkanContext * Handle)) (trace : list Event) :
  gpus host = [] ->
  run drv hist
    (InitVulkanDevice host context device_extensions path queues_)
    = (o, trace) ->
  (forall returned : VulkanContext * Handle, o <> Done returned) /\
  (exists n : nat,
      (n <= 2)%nat /\
      map fst trace
        = replicate n (vkEnumeratePhysicalDevices (instance context) false)) /\
  (o = Crashed <-> length trace = 2%nat /\ Forall succeeded trace).
Proof.
  intros Hgpus H. unfold InitVulkanDevice in H. rewrite Hgpus in H.
  rewrite run_bind in H.
  destruct (run drv hist
              match queues_ with
              | Some qs => Ret qs
              | None =>
                  queue_type <- QueueTypeFromString (GetFlag host "--queue")
                                  Graphics;;
                  Ret [queue_type]
              end) as [o0 t0] eqn:E0.
  assert (Hq : t0 = [] /\ o0 <> Crashed /\ o0 <> Hung /\ o0 <> Asserted).
  { destruct queues_ as [qs |].
    - simpl in E0. inversion E0. by repeat split.
    - rewrite run_bind in E0.
      destruct (run drv hist (QueueTypeFromString (GetFlag host "--queue")
                                Graphics)) as [o1 t1] eqn:E1.
      pose proof (run_QueueTypeFromString _ _ _ _ _ _ E1) as ->.
      revert E1. unfold QueueTypeFromString.
      destruct (GetFlag host "--queue"); [repeat case_decide |]; simpl;
        intros E1; inversion E1; subst; simpl in E0; inversion E0;
        by repeat split. }
  destruct Hq as (-> & Hc & Hh & Ha).
  destruct o0 as [qs | | st | |]; try congruence.
  - unfold VK_CHECK_RESULT in H. cbn [bind run] in H.
    repeat match type of H with
      | context [match drv ?h ?c with _ => _ end] =>
          destruct (drv h c) as [? |]; cbn [bind run] in H
      | context [if result ?r =? VK_SUCCESS then _ else _] =>
          destruct (Z.eqb_spec (result r) VK_SUCCESS); cbn [bind run] in H
      end;
      inversion H; subst o trace; clear H;
      (split; [discriminate |
       split; [first [exists 1%nat; split; [lia | reflexivity]
                     | exists 2%nat; split; [lia | reflexivity]] |]]);
      (split;
       [ intros Ho;
         first [ discriminate Ho
               | split; [reflexivity |];
                 repeat (apply Forall_cons_2;
                         [eexists; split; [reflexivity | assumption] |]);
                 apply Forall_nil_2 ]
       | intros [Hlen Hok];
         first [ reflexivity
               | discriminate Hlen
               | apply Forall_cons in Hok as [_ Hok];
                 apply Forall_cons in Hok as [Hok _];
                 destruct Hok as (r' & Hr' & Hs);
                 first [discriminate Hr' | inversion Hr'; subst; contradiction]
               ] ]).
  - inversion H; subst. split; [discriminate |].
    split; [exists 0%nat; split; [lia | reflexivity] |]. split; [discriminate |].
    intros [Hlen _]. discriminate Hlen.
Qed.

Lemma InitVulkanDevice_without_physical_device_witness :
  exists (o : Outcome (VulkanContext * Handle)) (trace : list Event),
    run obliging_driver []
      (InitVulkanDevice host_without_gpu started_context None None None)
      = (o, trace) /\
    (forall returned : VulkanContext * Handle, o <> Done returned) /\
    (exists n : nat,
        (n <= 2)%nat /\
        map fst trace = replicate n (vkEnumeratePhysicalDevices 1 false)) /\
    (o = Crashed <-> length trace = 2%nat /\ Forall succeeded trace).
Proof.
  assert (E : exists o t,
             run obliging_driver []
               (InitVulkanDevice host_without_gpu started_context None None
                  None)
             = (o, t))
    by (eexists _, _; vm_compute; reflexivity).
  destruct E as (o & t & E). exists o, t. split; [exact E |].
  apply (InitVulkanDevice_without_physical_device host_without_gpu
           obliging_driver [] started_context None None None o t).
  - reflexivity.
  - exact E.
Defined.

(** The queue loop creates no shader module and leaves the member alone. *)
Lemma create_queues_no_module (drv : Driver) (vk : Handle)
    (indices : list (Z * Z)) :
  forall (hist : list Event) (dev dev' : VulkanDevice) (t : list Event),
    run drv hist (create_queues vk indices dev) = (Done dev', t) ->
    computeShaderModule dev' = computeShaderModule dev /\
    Forall (fun e => creates_shader_module e = false) t.
Proof.
  induction indices as [| qi rest IH]; intros hist dev dev' t H.
  - simpl in H. inversion H. split; [reflexivity | constructor].
  - cbn [create_queues] in H.
    apply run_bind_Done in H as (q & ta & ? & Hq & H & ->).
    apply run_call_Done in Hq as (_ & ->).
    apply run_bind_Done in H as (pool & tc & ? & Hp & H & ->).
    apply run_check_Done in Hp as (_ & _ & ->).
    apply IH in H as [Hm Hno]. split; [exact Hm |].
    by repeat constructor.
Qed.

(** The kernel block when the file cannot be read. *)
Lemma build_compute_pipeline_unreadable (host : Host) (drv : Driver)
    (hist : list Event) (vk : Handle) (path : string)
    (dev dev' : VulkanDevice) (t : list Event) :
  (forall code : list Z, files host path <> FileBytes code) ->
  run drv hist (build_compute_pipeline host vk path dev) = (Done dev', t) ->
  device dev' = device dev /\
  computeShaderModule dev' = computeShaderModule dev /\
  Forall (fun e => creates_shader_module e = false) t /\
  exists rpl rp : Reply,
    pipelineLayout dev' = Some (out rpl) /\
    (vkCreateComputePipelines vk VK_NULL_HANDLE
       [{| cp_flags := 0; cp_stage := VK_SHADER_STAGE_COMPUTE_BIT;
           cp_module := computeShaderModule dev; cp_pName := "main";
           cp_layout := Some (out rpl) |}], Some rp) ∈ t /\
    result rp = VK_SUCCESS /\
    pipeline dev' = Some (out rp).
Proof.
  intros Hfile H. unfold build_compute_pipeline in H. cbv zeta in H.
  apply run_bind_Done in H as (loaded & t1 & ? & H1 & H & ->).
  assert (Hl : loaded = (false, computeShaderModule dev) /\ t1 = []).
  { unfold LoadShader in H1.
    destruct (files host path) as [| | code] eqn:E;
      [by inversion H1 | by inversion H1 |].
    by destruct (Hfile code). }
  destruct Hl as [-> ->]. clear H1.
  apply run_bind_Done in H as (rpool & t4 & ? & H4 & H & ->).
  apply run_check_Done in H4 as (_ & _ & ->).
  apply run_bind_Done in H as (rl & t5 & ? & H5 & H & ->).
  apply run_check_Done in H5 as (_ & _ & ->).
  apply run_bind_Done in H as (rpl & t6 & ? & H6 & H & ->).
  apply run_check_Done in H6 as (_ & _ & ->).
  apply run_bind_Done in H as (u1 & t7 & ? & H7 & H & ->).
  apply run_SetObjectDebugName, naming_creates_no_module in H7.
  apply run_bind_Done in H as (rp & t8 & ? & H8 & H & ->).
  apply run_check_Done in H8 as (_ & Hrp & ->).
  apply run_bind_Done in H as (u2 & t9 & ? & H9 & H & ->).
  apply run_SetObjectDebugName, naming_creates_no_module in H9.
  simpl in H. inversion H; subst; clear H.
  split; [reflexivity |]. split; [reflexivity |]. split.
  { rewrite !Forall_app. repeat split; try done; by repeat constructor. }
  exists rpl, rp. split; [reflexivity |]. split; [| by split].
  simpl. set_solver.
Qed.

(** [InitVulkanDevice] does not look at what [LoadShader] returns.  When
    the kernel file cannot be opened or measured and at least one queue is
    requested, a call that completes has created no shader module, the
    [computeShaderModule] member of the registered device was never
    assigned, and the compute pipeline was nonetheless requested, from
    that unassigned module and its "main", and is on the device record. *)
Theorem InitVulkanDevice_unreadable_kernel
    (host : Host) (drv : Driver) (hist : list Event)
    (context : VulkanContext) (device_extensions : option (list string))
    (path : string) (queues_ : option (list QueueType))
    (ctx' : VulkanContext) (h : Handle) (trace : list Event) :
  (forall code : list Z, files host path <> FileBytes code) ->
  queues_ <> Some [] ->
  run drv hist
    (InitVulkanDevice host context device_extensions (Some path) queues_)
    = (Done (ctx', h), trace) ->
  exists (d : VulkanDevice) (rpl rp : Reply),
    devices ctx' = devices context ++ [d] /\
    device d = h /\
    computeShaderModule d = None /\
    Forall (fun e => creates_shader_module e = false) trace /\
    pipelineLayout d = Some (out rpl) /\
    (vkCreateComputePipelines h VK_NULL_HANDLE
       [{| cp_flags := 0; cp_stage := VK_SHADER_STAGE_COMPUTE_BIT;
           cp_module := None; cp_pName := "main";
           cp_layout := Some (out rpl) |}], Some rp) ∈ trace /\
    result rp = VK_SUCCESS /\
    pipeline d = Some (out rp).
Proof.
  intros Hfile Hqueues H. unfold InitVulkanDevice in H.
  apply run_bind_Done in H as (qs & t0 & ? & Hqs & H & ->).
  assert (Hqs' : t0 = [] /\
                 match queues_ with Some l => qs = l | None => qs <> [] end).
  { destruct queues_ as [l |].
    - simpl in Hqs. by inversion Hqs.
    - apply run_bind_Done in Hqs as (qt & t00 & ? & Hqt & Hqs & ->).
      apply run_QueueTypeFromString in Hqt as ->.
      simpl in Hqs. by inversion Hqs. }
  destruct Hqs' as [-> Hqs']. clear Hqs.
  apply run_bind_Done in H as (e1 & t1 & ? & He1 & H & ->).
  apply run_check_Done in He1 as (_ & _ & ->).
  destruct (gpus host) as [| physical others].
  { apply run_bind_Done in H as (e2 & t2 & ? & He2 & H & ->).
    discriminate H. }
  apply run_bind_Done in H as (e2 & t2 & ? & He2 & H & ->).
  apply run_check_Done in He2 as (_ & _ & ->).
  cbv zeta in H.
  apply run_bind_Done in H as (created & t3 & ? & Hc & H & ->).
  apply run_check_Done in Hc as (_ & _ & ->).
  apply run_bind_Done in H as (marker & t4 & ? & H4 & H & ->).
  apply run_call_Done in H4 as (_ & ->).
  apply run_bind_Done in H as (signal & t5 & ? & H5 & H & ->).
  apply run_call_Done in H5 as (_ & ->).
  apply run_bind_Done in H as (wait & t6 & ? & H6 & H & ->).
  apply run_call_Done in H6 as (_ & ->).
  apply run_bind_Done in H as (dev1 & t7 & ? & H7 & H & ->).
  set (dev0 := set_WaitSemaphoresKHR (out wait)
                 (set_SignalSemaphoreKHR (out signal)
                    (set_CmdWriteBufferMarkerAMD (out marker)
                       (set_physicalDevice (Some physical)
                          (set_device (out created) default_VulkanDevice)))))
    in *.
  assert (Hd1 : (exists fn, dev1 = set_SetDebugUtilsObjectNameEXT fn dev0) /\
                Forall (fun e => creates_shader_module e = false) t7).
  { destruct (GetFlag host "--debug_utils").
    - apply run_bind_Done in H7 as (name & t70 & ? & Hname & H7 & ->).
      apply run_call_Done in Hname as (_ & ->).
      simpl in H7. inversion H7; subst. split; [by eexists |].
      by repeat constructor.
    - simpl in H7. inversion H7; subst. split; [by eexists | constructor]. }
  destruct Hd1 as [[fn ->] Ht7]. clear H7.
  apply run_bind_Done in H as (u1 & t8 & ? & H8 & H & ->).
  apply run_SetObjectDebugName in H8.
  apply run_bind_Done in H as (u2 & t9 & ? & H9 & H & ->).
  apply run_SetObjectDebugName in H9.
  apply run_bind_Done in H as (u3 & t10 & ? & H10 & H & ->).
  apply run_SetObjectDebugName in H10.
  apply naming_creates_no_module in H8, H9, H10.
  pose proof (request_queues_length physical (length qs) qs no_QueueRequests)
    as Hlen.
  destruct (queue_indices
              (fold_left (request_queue physical (length qs)) qs
                 no_QueueRequests)) as [| qi indices] eqn:Eqi.
  - (* no queue was requested *)
    exfalso.
    assert (Hempty : qs = []).
    { destruct qs; [reflexivity |]. simpl in Hlen.
      assert (Hok : requests_ok no_QueueRequests).
      { intros family i Hf. simpl in Hf. by rewrite lookup_empty in Hf. }
      specialize (Hlen Hok). simpl in Hlen. lia. }
    destruct queues_ as [l |]; congruence.
  - apply run_bind_Done in H as (dev2 & t11 & ? & H11 & H & ->).
    pose proof (create_queues_Done _ _ _ _ _ _ _ H11) as Hdev2.
    apply create_queues_no_module in H11 as [Hmod2 Ht11].
    apply run_bind_Done in H as (u4 & t12 & ? & H12 & H & ->).
    apply run_SetObjectDebugName, naming_creates_no_module in H12.
    apply run_bind_Done in H as (u5 & t13 & ? & H13 & H & ->).
    apply run_SetObjectDebugName, naming_creates_no_module in H13.
    apply run_bind_Done in H as (dev3 & t14 & ? & H14 & H & ->).
    apply build_compute_pipeline_unreadable in H14
      as (Hdev3 & Hmod3 & Ht14 & rpl & rp & Hpl & Hin & Hrp & Hpipe);
      [| exact Hfile].
    simpl in H. inversion H; subst; clear H.
    simpl in Hdev3, Hmod3, Hin. rewrite Hmod2 in Hmod3, Hin. simpl in Hmod3, Hin.
    exists dev3, rpl, rp.
    split; [reflexivity |]. split; [reflexivity |].
    split; [exact Hmod3 |]. split.
    { rewrite !Forall_app. repeat split; try done; by repeat constructor. }
    split; [exact Hpl |]. split; [| by split].
    rewrite Hdev3, Hdev2. simpl. set_solver.
Qed.

Lemma InitVulkanDevice_unreadable_kernel_witness :
  exists (ctx' : VulkanContext) (h : Handle) (trace : list Event),
    run obliging_driver []
      (InitVulkanDevice kernel_host started_context None
         (Some "absent.comp.spv") None)
      = (Done (ctx', h), trace) /\
    exists (d : VulkanDevice) (rpl rp : Reply),
      devices ctx' = devices started_context ++ [d] /\
      device d = h /\
      computeShaderModule d = None /\
      Forall (fun e => creates_shader_module e = false) trace /\
      pipelineLayout d = Some (out rpl) /\
      (vkCreateComputePipelines h VK_NULL_HANDLE
         [{| cp_flags := 0; cp_stage := VK_SHADER_STAGE_COMPUTE_BIT;
             cp_module := None; cp_pName := "main";
             cp_layout := Some (out rpl) |}], Some rp) ∈ trace /\
      result rp = VK_SUCCESS /\
      pipeline d = Some (out rp).
Proof.
  assert (E : exists c h t,
             run obliging_driver []
               (InitVulkanDevice kernel_host started_context None
                  (Some "absent.comp.spv") None)
             = (Done (c, h), t))
    by (eexists _, _, _; vm_compute; reflexivity).
  destruct E as (c & h & t & E). exists c, h, t. split; [exact E |].
  apply (InitVulkanDevice_unreadable_kernel kernel_host obliging_driver []
           started_context None "absent.comp.spv" None c h t).
  - intros code. vm_compute. discriminate.
  - discriminate.
  - exact E.
Defined.

(** When the queue list is left out and the command line gave [--queue]
    a value that names no queue type, [InitVulkanDevice] ends the process
    with EXIT_FAILURE before it has called the driver at all. *)
Theorem InitVulkanDevice_unknown_queue_flag
    (host : Host) (drv : Driver) (hist : list Event)
    (context : VulkanContext) (device_extensions : option (list string))
    (path : option string) (name : string) :
  GetFlag host "--queue" = Some name ->
  name ∉ [EmptyString; "graphics"; "Graphics"; "compute"; "Compute";
           "transfer"; "Transfer"] ->
  run drv hist (InitVulkanDevice host context device_extensions path None)
    = (Exited EXIT_FAILURE, []).
Proof.
  intros Hflag Hnot. unfold InitVulkanDevice.
  assert (Hexit : QueueTypeFromString (GetFlag host "--queue") Graphics
                  = Exit EXIT_FAILURE).
  { rewrite Hflag. unfold QueueTypeFromString.
    assert (H0 : name <> EmptyString)
      by (intros ->; apply Hnot; repeat constructor).
    assert (H1 : ~ (name = "graphics" \/ name = "Graphics"))
      by (intros [-> | ->]; apply Hnot; repeat constructor).
    assert (H2 : ~ (name = "compute" \/ name = "Compute"))
      by (intros [-> | ->]; apply Hnot; repeat constructor).
    assert (H3 : ~ (name = "transfer" \/ name = "Transfer"))
      by (intros [-> | ->]; apply Hnot; repeat constructor).
    by rewrite !decide_False. }
  rewrite Hexit. reflexivity.
Qed.

Lemma InitVulkanDevice_unknown_queue_flag_witness :
  run obliging_driver []
    (InitVulkanDevice
       {| flag_values := {[ "--queue" := "sparse" ]};
          gpus := [three_family_gpu]; files := files kernel_host |}
       started_context None None None)
  = (Exited EXIT_FAILURE, []).
Proof.
  apply (InitVulkanDevice_unknown_queue_flag _ obliging_driver []
           started_context None None "sparse").
  - reflexivity.
  - intros Hin. repeat (apply elem_of_cons in Hin as [Hin | Hin];
                        [discriminate Hin |]).
    by apply elem_of_nil in Hin.
Defined.

(* ===================================================================== *)
(** ** Programs over the whole interface: how [runX] decomposes *)
(* ===================================================================== *)

Section RunXFacts.

Context {A B : Type}.

Lemma runX_bind (drv : DriverX) (p : ProgX A) (f : A -> ProgX B) :
  forall hist : list EventX,
    runX drv hist (bindX p f) =
    match runX drv hist p with
    | (Done a, t) =>
        let '(o, t') := runX drv (hist ++ t) (f a) in (o, t ++ t')
    | (Asserted, t) => (Asserted, t)
    | (Exited st, t) => (Exited st, t)
    | (Crashed, t) => (Crashed, t)
    | (Hung, t) => (Hung, t)
    end.
Proof.
  induction p as [a | c k IH | | st |]; intros hist; simpl; try reflexivity.
  - rewrite app_nil_r. by destruct (runX drv hist (f a)).
  - destruct (drv hist c) as [r |]; [| reflexivity].
    rewrite IH.
    destruct (runX drv (hist ++ [(c, Some r)]) (k r)) as [[a | | st | |] t];
      try reflexivity.
    rewrite <- app_assoc. simpl. unfold EventX.
    match goal with
    | |- context [runX ?d ?h ?q] => by destruct (runX d h q)
    end.
Qed.

Lemma runX_bind_Done (drv : DriverX) (p : ProgX A) (f : A -> ProgX B)
    (hist : list EventX) (b : B) (t : list EventX) :
  runX drv hist (bindX p f) = (Done b, t) ->
  exists (a : A) (t1 t2 : list EventX),
    runX drv hist p = (Done a, t1) /\
    runX drv (hist ++ t1) (f a) = (Done b, t2) /\
    t = t1 ++ t2.
Proof.
  rewrite runX_bind.
  destruct (runX drv hist p) as [[a | | st | |] t1]; try discriminate.
  destruct (runX drv (hist ++ t1) (f a)) as [o t2] eqn:E2.
  intros H. inversion H; subst. by exists a, t1, t2.
Qed.

(** A lifted program runs as the program itself does, against the
    driver's answers to the calls of [VkCall]. *)
Lemma runX_liftX (drv : DriverX) (hist : list EventX) (p : Prog A) :
  forall past : list Event,
    runX drv (hist ++ (core_event <$> past)) (liftX p) =
    (fst (run (core_driver drv hist) past p),
     core_event <$> snd (run (core_driver drv hist) past p)).
Proof.
  induction p as [a | c k IH | | st |]; intros past; simpl; try reflexivity.
  unfold core_driver at 1 3.
  destruct (drv (hist ++ (core_event <$> past)) (inl c)) as [r |];
    [| reflexivity].
  specialize (IH r (past ++ [(c, Some r)])).
  rewrite fmap_app, app_assoc in IH.
  match goal with
  | |- context [runX drv ?h (liftX (k r))] =>
      change (runX drv h (liftX (k r)))
        with (runX drv ((hist ++ (core_event <$> past)) ++
                        (core_event <$> [(c, Some r)])) (liftX (k r)))
  end.
  rewrite IH.
  by destruct (run (core_driver drv hist) (past ++ [(c, Some r)]) (k r)).
Qed.

End RunXFacts.

Lemma runX_liftX_Done {A : Type} (drv : DriverX) (hist : list EventX)
    (p : Prog A) (a : A) (t : list EventX) :
  runX drv hist (liftX p) = (Done a, t) ->
  exists t0 : list Event,
    run (core_driver drv hist) [] p = (Done a, t0) /\
    t = core_event <$> t0.
Proof.
  pose proof (runX_liftX drv hist p []) as E. simpl in E.
  rewrite app_nil_r in E. rewrite E.
  destruct (run (core_driver drv hist) [] p) as [o t0]. simpl.
  intros H. inversion H; subst. by exists t0.
Qed.

Lemma runX_check_Done (drv : DriverX) (hist : list EventX) (p : ProgX Reply)
    (r : Reply) (t : list EventX) :
  runX drv hist (VK_CHECK_RESULT_of p) = (Done r, t) ->
  runX drv hist p = (Done r, t) /\ result r = VK_SUCCESS.
Proof.
  unfold VK_CHECK_RESULT_of. intros H.
  apply runX_bind_Done in H as (r' & t1 & t2 & Hp & H & ->).
  destruct (Z.eqb_spec (result r') VK_SUCCESS) as [E | E];
    simpl in H; [| discriminate].
  inversion H; subst. by rewrite app_nil_r.
Qed.

Lemma ownX_app (a b : list EventX) : ownX (a ++ b) = ownX a ++ ownX b.
Proof. apply List.filter_app. Qed.

(** The naming calls of a [Prog] are those of its lifted form. *)
Lemma ownX_core (t : list Event) : ownX (core_event <$> t) = core_event <$> own t.
Proof.
  induction t as [| e t IH]; [reflexivity |].
  assert (Hn : names_objectX (core_event e) = names_object e)
    by (destruct e as [c r]; by destruct c).
  rewrite fmap_cons. unfold ownX, own in *. cbn [List.filter].
  rewrite Hn. destruct (names_object e); simpl; by rewrite IH.
Qed.

(* ===================================================================== *)
(** ** Taking devices and contexts down: proofs *)
(* ===================================================================== *)

Section TeardownFacts.





Lemma destroy_devices_Done (drv : DriverX) (l : list VulkanDevice) :
  forall (hist t : list EventX),
    runX drv hist (destroy_devices l) = (Done tt, t) ->
    map fst t = (fun d => inr (vkDestroyDevice (device d))) <$> l.
Proof.
  induction l as [| d l IH]; intros hist t H.
  - simpl in H. by inversion H.
  - simpl in H. destruct (drv hist _) as [r |]; [| discriminate].
    destruct (runX drv _ (destroy_devices l)) as [o t'] eqn:E.
    inversion H; subst. simpl. f_equal. by eapply IH.
Qed.

End TeardownFacts.



(** With two records under one handle, deleting the handle once leaves
    the second record, and [GetDevice] still finds it. *)
Example duplicate_handle_survives_delete :
  let '(o, _) :=
    runX obliging_driverX [] (DeleteVulkanDevice crowded_context 7) in
  exists context' : VulkanContext,
    o = Done context' /\
    length (devices context') = 2%nat /\
    GetDevice context' 7 = Some 1%nat.
Proof. vm_compute. eexists. split; [reflexivity |]. by split. Qed.

(** A [CleanupVulkan] that returns has destroyed every device of the
    context, one call per record and in the order of the records, and
    then the instance; the context is left without devices, so that
    [GetDevice] finds nothing any more. *)
Theorem CleanupVulkan_destroys_everything
    (drv : DriverX) (hist : list EventX)
    (context context' : VulkanContext) (trace : list EventX) :
  runX drv hist (CleanupVulkan context) = (Done context', trace) ->
  map fst trace =
    ((fun d => inr (vkDestroyDevice (device d))) <$> devices context) ++
    [inr (vkDestroyInstance (instance context))] /\
  context' = set_devices [] context /\
  forall vk_device : Handle, GetDevice context' vk_device = None.
Proof.
  unfold CleanupVulkan. intros H.
  apply runX_bind_Done in H as ([] & t1 & t2 & H1 & H & ->).
  apply destroy_devices_Done in H1 as Ht1.
  simpl in H. destruct (drv _ _) as [r |]; [| discriminate].
  inversion H; subst; clear H.
  split; [rewrite map_app; simpl; by rewrite <- Ht1 |].
  split; [reflexivity |].
  intros vk_device. reflexivity.
Qed.

Lemma CleanupVulkan_destroys_everything_witness :
  exists (context' : VulkanContext) (trace : list EventX),
    runX obliging_driverX [] (CleanupVulkan crowded_context)
      = (Done context', trace) /\
    map fst trace =
      [inr (vkDestroyDevice 7); inr (vkDestroyDevice 8);
       inr (vkDestroyDevice 7); inr (vkDestroyInstance 1)] /\
    context' = set_devices [] crowded_context /\
    forall vk_device : Handle, GetDevice context' vk_device = None.
Proof.
  eexists _, _. split; [vm_compute; reflexivity |].
  eapply (CleanupVulkan_destroys_everything obliging_driverX []
            crowded_context).
  vm_compute. reflexivity.
Defined.

(* ===================================================================== *)
(** ** Semaphores: proofs *)
(* ===================================================================== *)

Lemma create_semaphores_Done (drv : DriverX) (vk : Handle)
    (info : VkSemaphoreCreateInfo) (n : nat) :
  forall (hist : list EventX) (hs : list Handle) (t : list EventX),
    runX drv hist (create_semaphores vk info n) = (Done hs, t) ->
    length hs = n /\
    map fst t = replicate n (inr (vkCreateSemaphore vk info)) /\
    Forall2 (fun e h =>
               exists r : Reply,
                 snd e = Some r /\ result r = VK_SUCCESS /\ out r = h) t hs.
Proof.
  induction n as [| n IH]; intros hist hs t H.
  - simpl in H. inversion H; subst. by repeat split; constructor.
  - cbn [create_semaphores] in H.
    apply runX_bind_Done in H as (r & t1 & ? & Hr & H & ->).
    apply runX_check_Done in Hr as [Hr Hok].
    simpl in Hr. destruct (drv hist _) as [r' |]; [| discriminate].
    inversion Hr; subst; clear Hr.
    apply runX_bind_Done in H as (rest & t2 & ? & Hrest & H & ->).
    simpl in H. inversion H; subst; clear H.
    destruct (IH _ _ _ Hrest) as (Hlen & Hcalls & Hall).
    split; [simpl; by rewrite Hlen |].
    split; [simpl; rewrite app_nil_r; by rewrite Hcalls |].
    simpl. rewrite app_nil_r. constructor; [by exists r | exact Hall].
Qed.

(** A [CreateSemaphores] that returns has made exactly [count] calls of
    [vkCreateSemaphore], each with success, and filled the array with the
    handles in the order of the calls.  For the binary type the create
    info has no extension structure; for every other value of [type] it
    asks for a timeline semaphore with the given initial value. *)
Theorem CreateSemaphores_creates_count
    (drv : DriverX) (hist : list EventX) (device_ : VulkanDevice)
    (count type initial_value : Z) (semaphores : list Handle)
    (trace : list EventX) :
  runX drv hist (CreateSemaphores device_ count type initial_value)
    = (Done semaphores, trace) ->
  let info :=
    {| sci_pNext :=
         if type =? VK_SEMAPHORE_TYPE_BINARY_KHR then None
         else Some {| semaphoreType := VK_SEMAPHORE_TYPE_TIMELINE_KHR;
                      initialValue := initial_value |} |} in
  length semaphores = Z.to_nat count /\
  map fst trace =
    replicate (Z.to_nat count) (inr (vkCreateSemaphore (device device_) info)) /\
  Forall2 (fun e h =>
             exists r : Reply,
               snd e = Some r /\ result r = VK_SUCCESS /\ out r = h)
    trace semaphores.
Proof.
  unfold CreateSemaphores. cbv zeta.
  destruct (type =? VK_SEMAPHORE_TYPE_BINARY_KHR); apply create_semaphores_Done.
Qed.

Lemma CreateSemaphores_creates_count_witness :
  exists (semaphores : list Handle) (trace : list EventX),
    runX obliging_driverX [] (CreateTimelineSemaphores plain_device 2 16)
      = (Done semaphores, trace) /\
    length semaphores = 2%nat /\
    map fst trace =
      replicate 2
        (inr (vkCreateSemaphore 7
                {| sci_pNext :=
                     Some {| semaphoreType := VK_SEMAPHORE_TYPE_TIMELINE_KHR;
                             initialValue := 16 |} |})) /\
    Forall2 (fun e h =>
               exists r : Reply,
                 snd e = Some r /\ result r = VK_SUCCESS /\ out r = h)
      trace semaphores.
Proof.
  eexists _, _. split; [vm_compute; reflexivity |].
  eapply (CreateSemaphores_creates_count obliging_driverX [] plain_device
            2 VK_SEMAPHORE_TYPE_TIMELINE_KHR 16).
  vm_compute. reflexivity.
Defined.

(** [CreateBinarySemaphores] asks for semaphores without a type
    structure. *)
Example binary_semaphores_carry_no_type :
  map fst (snd (runX obliging_driverX [] (CreateBinarySemaphores plain_device 3)))
  = replicate 3 (inr (vkCreateSemaphore 7 {| sci_pNext := None |})).
Proof. vm_compute. reflexivity. Qed.

(* ===================================================================== *)
(** ** Recording command buffers: proofs *)
(* ===================================================================== *)

Section RecordingFacts.

Lemma AllocateDefaultCommandBuffer_Done (drv : Driver) (hist : list Event)
    (dev : VulkanDevice) (level : VkCommandBufferLevel) (pool : Handle)
    (r : Reply) (t : list Event) :
  run drv hist (AllocateDefaultCommandBuffer dev level pool) = (Done r, t) ->
  exists pool' : Handle,
    (if pool =? VK_NULL_HANDLE then commandPool dev = Some pool'
     else pool' = pool) /\
    t = [(vkAllocateCommandBuffers (device dev) pool' level 1, Some r)].
Proof.
  unfold AllocateDefaultCommandBuffer. intros H.
  apply run_bind_Done in H as (pool' & t1 & t2 & Hp & H & ->).
  apply run_call_Done in H as (_ & ->).
  exists pool'. destruct (pool =? VK_NULL_HANDLE).
  - apply run_read_Done in Hp as (Hpool & ->). by split.
  - simpl in Hp. inversion Hp; subst. by split.
Qed.

(** A checked allocation that went through, seen from [ProgX]. *)
Lemma allocation_step (drv : DriverX) (hist : list EventX)
    (dev : VulkanDevice) (level : VkCommandBufferLevel) (pool : Handle)
    (r : Reply) (t : list EventX) :
  runX drv hist
    (VK_CHECK_RESULT_of (liftX (AllocateDefaultCommandBuffer dev level pool)))
    = (Done r, t) ->
  exists pool' : Handle,
    (if pool =? VK_NULL_HANDLE then commandPool dev = Some pool'
     else pool' = pool) /\
    t = [(inl (vkAllocateCommandBuffers (device dev) pool' level 1), Some r)].
Proof.
  intros H. apply runX_check_Done in H as [H _].
  apply runX_liftX_Done in H as (t0 & H & ->).
  apply AllocateDefaultCommandBuffer_Done in H as (pool' & Hpool & ->).
  by exists pool'.
Qed.

(** A name that was attached, or none: only naming calls. *)
Lemma naming_stepX (drv : DriverX) (hist : list EventX) (dev : VulkanDevice)
    (handle : Z) (type : VkObjectType) (name : option string)
    (suffix : string) (t : list EventX) :
  runX drv hist
    match name with
    | Some n =>
        liftX (SetObjectDebugName dev handle type (Some (n +:+ suffix)))
    | None => RetX tt
    end = (Done tt, t) ->
  ownX t = [].
Proof.
  destruct name as [n |]; [| intros H; by inversion H].
  intros H. apply runX_liftX_Done in H as (t0 & H & ->).
  apply run_SetObjectDebugName, own_debug_names in H.
  by rewrite ownX_core, H.
Qed.

(** A checked call of [VkCall] that went through, seen from [ProgX]. *)
Lemma checked_stepX (drv : DriverX) (hist : list EventX) (c : VkCall)
    (r : Reply) (t : list EventX) :
  runX drv hist (liftX (VK_CHECK_RESULT c)) = (Done r, t) ->
  t = [(inl c, Some r)].
Proof.
  intros H. apply runX_liftX_Done in H as (t0 & H & ->).
  by apply run_check_Done in H as (_ & _ & ->).
Qed.

End RecordingFacts.

(** A [CreateAndRecordCommandBuffers] that returns, returns VK_SUCCESS,
    and has run the recorded function exactly once, between the begin and
    the end of one command buffer.  That buffer is a secondary one exactly
    when the [secondary] pointer is given and [--secondary] is on the
    command line: then the primary buffer is recorded as well, holding
    the one command that executes the secondary.  Otherwise it is the
    primary buffer, and no secondary buffer is allocated or written.  The
    buffers come from [pool], or from the device's default pool when
    [pool] is VK_NULL_HANDLE. *)
Theorem CreateAndRecordCommandBuffers_records_once
    (host : Host) (drv : DriverX) (hist : list EventX)
    (device_ : VulkanDevice) (secondary : bool)
    (f : Handle -> ProgX unit) (debug_name : option string) (pool : Handle)
    (res : VkResult) (primary : Handle) (written : option Handle)
    (trace : list EventX) :
  runX drv hist
    (CreateAndRecordCommandBuffers host device_ secondary f debug_name pool)
    = (Done (res, primary, written), trace) ->
  res = VK_SUCCESS /\
  (is_Some written <->
   secondary = true /\ is_Some (GetFlag host "--secondary")) /\
  exists (pool' : Handle) (pre payload post : list EventX),
    (if pool =? VK_NULL_HANDLE then commandPool device_ = Some pool'
     else pool' = pool) /\
    trace = pre ++ payload ++ post /\
    runX drv (hist ++ pre) (f (default primary written))
      = (Done tt, payload) /\
    map fst (ownX pre)
      = recording_prologue (device device_) pool' primary written /\
    map fst (ownX post) = recording_epilogue primary written.
Proof.
  intros H. unfold CreateAndRecordCommandBuffers in H. cbv zeta in H.
  set (second := match GetFlag host "--secondary" with
                 | Some _ => secondary
                 | None => false
                 end) in *.
  assert (Hsecond : second = true <->
                    secondary = true /\ is_Some (GetFlag host "--secondary")).
  { unfold second. destruct (GetFlag host "--secondary") as [v |].
    - split; [intros ->; split; [done | by eexists] | tauto].
    - split; [discriminate | intros [_ [v Hv]]; discriminate]. }
  apply runX_bind_Done in H as (allocated & t1 & ? & H1 & H & ->).
  apply allocation_step in H1 as (pool' & Hpool & ->).
  apply runX_bind_Done in H as ([] & t2 & ? & H2 & H & ->).
  apply naming_stepX in H2.
  apply runX_bind_Done in H as (written' & t3 & ? & H3 & H & ->).
  apply runX_bind_Done in H as (rb & t4 & ? & H4 & H & ->).
  apply checked_stepX in H4 as ->.
  apply runX_bind_Done in H as ([] & payload & ? & Hf & H & ->).
  apply runX_bind_Done in H as (re & t6 & ? & H6 & H & ->).
  apply checked_stepX in H6 as ->.
  apply runX_bind_Done in H as ([] & t7 & ? & H7 & H & ->).
  simpl in H. inversion H; subst; clear H.
  split; [reflexivity |].
  destruct second.
  - (* into a secondary buffer *)
    apply runX_bind_Done in H3 as (allocated2 & t31 & ? & H31 & H3 & ->).
    apply allocation_step in H31 as (pool'' & Hpool' & ->).
    apply runX_bind_Done in H3 as ([] & t32 & ? & H32 & H3 & ->).
    apply naming_stepX in H32.
    simpl in H3. inversion H3; subst; clear H3.
    apply runX_bind_Done in H7 as (rb2 & t71 & ? & H71 & H7 & ->).
    apply checked_stepX in H71 as ->.
    apply runX_bind_Done in H7 as ([] & t72 & ? & H72 & H7 & ->).
    simpl in H72. destruct (drv _ _) as [rx |]; [| discriminate].
    inversion H72; subst; clear H72.
    apply runX_bind_Done in H7 as (re2 & t73 & ? & H73 & H7 & ->).
    apply checked_stepX in H73 as ->.
    simpl in H7. inversion H7; subst; clear H7.
    assert (pool'' = pool') as ->
      by (destruct (pool =? VK_NULL_HANDLE); congruence).
    split; [split; [intros _; by apply Hsecond | by eexists] |].
    exists pool',
      ([(inl (vkAllocateCommandBuffers (device device_) pool'
                VK_COMMAND_BUFFER_LEVEL_PRIMARY 1), Some allocated)] ++ t2 ++
       [(inl (vkAllocateCommandBuffers (device device_) pool'
                VK_COMMAND_BUFFER_LEVEL_SECONDARY 1), Some allocated2)] ++
       t32 ++
       [(inl (vkBeginCommandBuffer (out allocated2)
                VK_COMMAND_BUFFER_USAGE_ONE_TIME_SUBMIT_BIT), Some rb)]),
      payload,
      [(inl (vkEndCommandBuffer (out allocated2)), Some re);
       (inl (vkBeginCommandBuffer (out allocated)
               VK_COMMAND_BUFFER_USAGE_ONE_TIME_SUBMIT_BIT), Some rb2);
       (inr (vkCmdExecuteCommands (out allocated) [out allocated2]), Some rx);
       (inl (vkEndCommandBuffer (out allocated)), Some re2)].
    cbn [default] in *.
    split; [exact Hpool |].
    split; [rewrite ?app_nil_r, <- ?app_assoc; reflexivity |].
    split.
    { rewrite <- Hf. f_equal. rewrite ?app_nil_r, <- ?app_assoc. reflexivity. }
    split.
    + rewrite !ownX_app, H2, H32. reflexivity.
    + reflexivity.
  - (* into the primary buffer *)
    simpl in H3. inversion H3; subst; clear H3.
    simpl in H7. inversion H7; subst; clear H7.
    split; [split; [intros [x Hx]; discriminate |
                    intros Hs; apply Hsecond in Hs; discriminate] |].
    exists pool',
      ([(inl (vkAllocateCommandBuffers (device device_) pool'
                VK_COMMAND_BUFFER_LEVEL_PRIMARY 1), Some allocated)] ++ t2 ++
       [(inl (vkBeginCommandBuffer (out allocated)
                VK_COMMAND_BUFFER_USAGE_ONE_TIME_SUBMIT_BIT), Some rb)]),
      payload,
      [(inl (vkEndCommandBuffer (out allocated)), Some re)].
    cbn [default] in *.
    split; [exact Hpool |].
    split; [rewrite ?app_nil_r, <- ?app_assoc; reflexivity |].
    split.
    { rewrite <- Hf. f_equal. rewrite ?app_nil_r, <- ?app_assoc. reflexivity. }
    split.
    + rewrite !ownX_app, H2. reflexivity.
    + reflexivity.
Qed.

Lemma CreateAndRecordCommandBuffers_records_once_witness :
  exists (res : VkResult) (primary : Handle) (written : option Handle)
         (trace : list EventX),
    runX obliging_driverX []
      (CreateAndRecordCommandBuffers secondary_host plain_device true
         empty_payload (Some "HANG Dispatch") VK_NULL_HANDLE)
      = (Done (res, primary, written), trace) /\
    res = VK_SUCCESS /\
    (is_Some written <->
     true = true /\ is_Some (GetFlag secondary_host "--secondary")) /\
    exists (pool' : Handle) (pre payload post : list EventX),
      (if VK_NULL_HANDLE =? VK_NULL_HANDLE
       then commandPool plain_device = Some pool'
       else pool' = VK_NULL_HANDLE) /\
      trace = pre ++ payload ++ post /\
      runX obliging_driverX ([] ++ pre)
        (empty_payload (default primary written)) = (Done tt, payload) /\
      map fst (ownX pre)
        = recording_prologue (device plain_device) pool' primary written /\
      map fst (ownX post) = recording_epilogue primary written.
Proof.
  eexists _, _, _, _. split; [vm_compute; reflexivity |].
  eapply (CreateAndRecordCommandBuffers_records_once secondary_host
            obliging_driverX [] plain_device true empty_payload
            (Some "HANG Dispatch") VK_NULL_HANDLE).
  vm_compute. reflexivity.
Defined.
